(** * Slip: the temporal aggregation engine

    A shallow embedding of the habit-slip logger's core: the date helpers
    (utils/date.ts), the event store (stores/slipStore.ts) together with the
    storage service it writes through (services/storage.ts), the streak
    calculator (hooks/useStreak.ts) and the range statistics (hooks/useStats.ts);
    and of what the screens build on it: the selector hooks of the store,
    the settings store (stores/settingsStore.ts) with the limit stepper,
    the status of today (hooks/useToday.ts), the undo button, the quick
    insight, the history sections (hooks/useHistoryData.ts) and the reset
    of all data.

    Conventions of the embedding.
    - A JavaScript number that holds an integer is a [Z]; the result of a
      division is an [option Q], [None] standing for the non-finite result of
      dividing by zero.
    - A [Date] object is represented by its local time value, the number of
      milliseconds that [LocalTime] of ECMA-262 assigns to it; the getters
      read it with the calendar operations of ECMA-262 (Day, YearFromTime,
      MonthFromTime, DateFromTime, HourFromTime, WeekDay, MakeDay, MakeDate).
      Converting back to UTC after [setDate] is taken not to move the local
      clock reading.
    - An ISO timestamp string is represented by the instant it denotes, in
      epoch milliseconds; the host's time zone is the function [LocalTime].
    - Objects used as dictionaries are [gmap]s, [Set]s are [gset]s.
    - [while] loops take fuel and return [None] when it runs out. *)

From Stdlib Require Import ZArith QArith Lia Ascii String.
From stdpp Require Import base option numbers list strings pretty gmap sorting.

Open Scope Z_scope.

(** ** ECMA-262 calendar operations on time values *)

Module ES.

Definition msPerDay : Z := 86400000.
Definition msPerHour : Z := 3600000.

Definition Day (t : Z) : Z := t / msPerDay.
Definition TimeWithinDay (t : Z) : Z := t mod msPerDay.

Definition DaysInYear (y : Z) : Z :=
  if negb (y mod 4 =? 0) then 365
  else if negb (y mod 100 =? 0) then 366
  else if negb (y mod 400 =? 0) then 365
  else 366.

Definition DayFromYear (y : Z) : Z :=
  365 * (y - 1970) + (y - 1969) / 4 - (y - 1901) / 100 + (y - 1601) / 400.

(** The largest year whose first day is not after day [d]: an estimate from
    the mean year length, corrected by at most one year either way. *)
Definition YearFromDay (d : Z) : Z :=
  let y0 := 1970 + (d * 400) / 146097 in
  if d <? DayFromYear y0 then y0 - 1
  else if DayFromYear (y0 + 1) <=? d then y0 + 1
  else y0.

Definition InLeapYear (d : Z) : Z :=
  if DaysInYear (YearFromDay d) =? 366 then 1 else 0.

Definition DayWithinYear (d : Z) : Z := d - DayFromYear (YearFromDay d).

(** Day of the year on which month [m] (0 to 11) starts; 365 + leap for 12. *)
Definition MonthStart (m leap : Z) : Z :=
  match m with
  | 0 => 0
  | 1 => 31
  | 2 => 59 + leap
  | 3 => 90 + leap
  | 4 => 120 + leap
  | 5 => 151 + leap
  | 6 => 181 + leap
  | 7 => 212 + leap
  | 8 => 243 + leap
  | 9 => 273 + leap
  | 10 => 304 + leap
  | 11 => 334 + leap
  | _ => 365 + leap
  end.

Definition MonthFromDay (d : Z) : Z :=
  let w := DayWithinYear d in
  let leap := InLeapYear d in
  if w <? 31 then 0
  else if w <? 59 + leap then 1
  else if w <? 90 + leap then 2
  else if w <? 120 + leap then 3
  else if w <? 151 + leap then 4
  else if w <? 181 + leap then 5
  else if w <? 212 + leap then 6
  else if w <? 243 + leap then 7
  else if w <? 273 + leap then 8
  else if w <? 304 + leap then 9
  else if w <? 334 + leap then 10
  else 11.

Definition DateFromDay (d : Z) : Z :=
  DayWithinYear d - MonthStart (MonthFromDay d) (InLeapYear d) + 1.

Definition YearFromTime (t : Z) : Z := YearFromDay (Day t).
Definition MonthFromTime (t : Z) : Z := MonthFromDay (Day t).
Definition DateFromTime (t : Z) : Z := DateFromDay (Day t).
Definition HourFromTime (t : Z) : Z := (t / msPerHour) mod 24.
Definition WeekDay (t : Z) : Z := (Day t + 4) mod 7.

(** [MakeDay]: the day number of the first of the (normalised) month, plus
    [date - 1]; a [date] outside the month rolls over. *)
Definition MakeDay (year month date : Z) : Z :=
  let ym := year + month / 12 in
  let mn := month mod 12 in
  let leap := if DaysInYear ym =? 366 then 1 else 0 in
  DayFromYear ym + MonthStart mn leap + date - 1.

Definition MakeDate (day time : Z) : Z := day * msPerDay + time.

End ES.

(** ** The host: time zone, locale *)

Class Host := {
  (** local time value of an instant (ECMA-262 LocalTime) *)
  LocalTime : Z → Z;
  (** Date.prototype.toLocaleDateString with month short, day numeric *)
  toLocaleDateString : Z → string
}.

(** ** Date objects, number and string primitives *)

Module JS.

(** A Date object, by its local time value. *)
Definition Date : Type := Z.

Definition newDate `{Host} (instant : Z) : Date := LocalTime instant.

Definition getFullYear (d : Date) : Z := ES.YearFromTime d.
Definition getMonth (d : Date) : Z := ES.MonthFromTime d.
Definition getDate (d : Date) : Z := ES.DateFromTime d.
Definition getHours (d : Date) : Z := ES.HourFromTime d.
Definition getDay (d : Date) : Z := ES.WeekDay d.

Definition setDate (d : Date) (dt : Z) : Date :=
  ES.MakeDate (ES.MakeDay (ES.YearFromTime d) (ES.MonthFromTime d) dt)
    (ES.TimeWithinDay d).

(** Number.prototype.toString on an integer. *)
Definition toString (n : Z) : string := pretty n.

Fixpoint repeatChar (n : nat) (c : ascii) : string :=
  match n with
  | O => ""
  | S n' => String c (repeatChar n' c)
  end.

(** String.prototype.padStart with a one-character filler. *)
Definition padStart (targetLength : nat) (fill : ascii) (s : string) : string :=
  repeatChar (targetLength - String.length s) fill +:+ s.

Definition digitValue (c : ascii) : option Z :=
  let n := Z.of_nat (nat_of_ascii c) in
  if (48 <=? n) && (n <=? 57) then Some (n - 48) else None.

(** The date part of the ECMA-262 date-time string format, YYYY-MM-DD, as the
    day number it denotes; any other string is an Invalid Date. *)
Definition parseDateKey (s : string) : option Z :=
  match s with
  | String y1 (String y2 (String y3 (String y4 (String "-"
      (String m1 (String m2 (String "-" (String d1 (String d2 "")))))))))
    =>
    a ← digitValue y1; b ← digitValue y2; c ← digitValue y3; d ← digitValue y4;
    e ← digitValue m1; f ← digitValue m2; g ← digitValue d1; h ← digitValue d2;
    let year := 1000 * a + 100 * b + 10 * c + d in
    let month := 10 * e + f in
    let day := 10 * g + h in
    if (1 <=? month) && (month <=? 12) && (1 <=? day) && (day <=? 31)
    then Some (ES.MakeDay year (month - 1) day)
    else None
  | _ => None
  end.

(** A quotient of two integers; [None] when the divisor is zero. *)
Definition div (a b : Z) : option Q :=
  if b =? 0 then None else Some (inject_Z a / inject_Z b)%Q.

End JS.

(** ** types/index.ts *)

Inductive Source := manual | undo_restore.

Record SlipEvent := {
  id : string;
  timestamp : Z;
  source : Source
}.

Record StreakInfo := {
  current : Z;
  best : Z
}.

(** ** utils/constants.ts *)

Definition UNDO_WINDOW_MS : Z := 5 * 60 * 1000.
Definition MIN_DAYS_FOR_PATTERNS : Z := 3.

(** ** utils/date.ts *)

Module DateUtils.

Definition formatDateString (date : JS.Date) : string :=
  let year := JS.getFullYear date in
  let month := JS.getMonth date + 1 in
  let day := JS.getDate date in
  let monthStr := JS.padStart 2 "0" (JS.toString month) in
  let dayStr := JS.padStart 2 "0" (JS.toString day) in
  JS.toString year +:+ "-" +:+ monthStr +:+ "-" +:+ dayStr.

Definition getTodayDateString `{Host} (now : Z) : string :=
  formatDateString (JS.newDate now).

Definition getDateFromTimestamp `{Host} (isoTimestamp : Z) : string :=
  formatDateString (JS.newDate isoTimestamp).

(** The loop [for (i = n - 1; i >= 0; i--)] visits n-1, ..., 0. *)
Definition getLastNDays `{Host} (now : Z) (n : Z) : list string :=
  let today := JS.newDate now in
  (λ i, let date := today in
        formatDateString (JS.setDate date (JS.getDate today - i)))
    <$> reverse (seqZ 0 n).

Definition getDaysAgoDateString `{Host} (now : Z) (daysAgo : Z) : string :=
  let date := JS.newDate now in
  formatDateString (JS.setDate date (JS.getDate date - daysAgo)).

Definition getHourFromTimestamp `{Host} (isoTimestamp : Z) : Z :=
  JS.getHours (JS.newDate isoTimestamp).

Definition getDayOfWeekFromTimestamp `{Host} (isoTimestamp : Z) : Z :=
  JS.getDay (JS.newDate isoTimestamp).

Definition dayNames : list string :=
  ["Sunday"; "Monday"; "Tuesday"; "Wednesday"; "Thursday"; "Friday";
   "Saturday"].

(** [days[dayOfWeek]]; [None] is the [undefined] of an index out of range. *)
Definition getDayName (dayOfWeek : Z) : option string :=
  if dayOfWeek <? 0 then None else dayNames !! Z.to_nat dayOfWeek.

(** U+2013, in UTF-8. *)
Definition enDash : string :=
  String (ascii_of_nat 226) (String (ascii_of_nat 128)
    (String (ascii_of_nat 147) "")).

Definition formatHourRange (hour : Z) : string :=
  let startHour := if Z.rem hour 12 =? 0 then 12 else Z.rem hour 12 in
  let endHour := if Z.rem (hour + 1) 12 =? 0 then 12 else Z.rem (hour + 1) 12 in
  let period := if hour <? 12 then "AM" else "PM" in
  let endPeriod :=
    if (hour + 1 <? 12) || (hour + 1 =? 24) then "AM" else "PM" in
  if String.eqb period endPeriod
  then JS.toString startHour +:+ enDash +:+ JS.toString endHour +:+ " "
       +:+ period
  else JS.toString startHour +:+ " " +:+ period +:+ enDash
       +:+ JS.toString endHour +:+ " " +:+ endPeriod.

(** [new Date(dateString + "T00:00:00")] is read as local time. *)
Definition formatDateForDisplay `{Host} (now : Z) (dateString : string)
    : string :=
  if String.eqb dateString (getTodayDateString now) then "Today"
  else
    let yesterday := JS.newDate now in
    let yesterday := JS.setDate yesterday (JS.getDate yesterday - 1) in
    if String.eqb dateString (formatDateString yesterday) then "Yesterday"
    else
      match JS.parseDateKey dateString with
      | Some day => toLocaleDateString (ES.MakeDate day 0)
      | None => "Invalid Date"
      end.

End DateUtils.

(** ** services/storage.ts over AsyncStorage *)

Module Storage.

(** What is kept under the events key, as [JSON.parse] sees it. *)
Inductive EventsItem :=
  | NoItem
  | BadJson
  | JsonNull
  | JsonEvents (evs : list SlipEvent).

Record AsyncStorage := {
  eventsItem : EventsItem;
  lastSlipTimeItem : option Z
}.

(** The value [getEvents] resolves to; [None] is the parsed [null], on which
    the caller's [events.length] throws. *)
Definition getEvents (st : AsyncStorage) : option (list SlipEvent) :=
  match eventsItem st with
  | NoItem => Some []
  | BadJson => Some []
  | JsonNull => None
  | JsonEvents evs => Some evs
  end.

Definition getLastSlipTime (st : AsyncStorage) : option Z :=
  lastSlipTimeItem st.

(** [saveEvents] rethrows a failed write: the flag of the result is [false]. *)
Definition saveEvents (writeOk : bool) (evs : list SlipEvent)
    (st : AsyncStorage) : bool * AsyncStorage :=
  if writeOk
  then (true, {| eventsItem := JsonEvents evs;
                 lastSlipTimeItem := lastSlipTimeItem st |})
  else (false, st).

(** [setLastSlipTime] swallows a failed write. *)
Definition setLastSlipTime (writeOk : bool) (t : Z) (st : AsyncStorage)
    : AsyncStorage :=
  if writeOk
  then {| eventsItem := eventsItem st; lastSlipTimeItem := Some t |}
  else st.

End Storage.

(** ** stores/slipStore.ts *)

Module SlipStore.

Record State := {
  events : list SlipEvent;
  isLoading : bool;
  lastSlipId : option string;
  lastSlipTime : option Z
}.

(** The store and the storage it writes through. *)
Record World := {
  store : State;
  disk : Storage.AsyncStorage
}.

Definition initialState : State :=
  {| events := []; isLoading := true; lastSlipId := None;
     lastSlipTime := None |}.

(** [!lastSlipId]: null or the empty string. *)
Definition falsyId (o : option string) : bool :=
  match o with
  | None => true
  | Some s => String.eqb s ""
  end.

(** [!lastSlipTime]: null or zero. *)
Definition falsyTime (o : option Z) : bool :=
  match o with
  | None => true
  | Some t => t =? 0
  end.

Definition loadEvents (w : World) : World :=
  let s := store w in
  match Storage.getEvents (disk w) with
  | Some evs =>
    let lastSlipTime' := Storage.getLastSlipTime (disk w) in
    let lastSlipId' := id <$> last evs in
    {| store := {| events := evs; isLoading := false;
                   lastSlipId := lastSlipId'; lastSlipTime := lastSlipTime' |};
       disk := disk w |}
  | None =>
    {| store := {| events := events s; isLoading := false;
                   lastSlipId := lastSlipId s;
                   lastSlipTime := lastSlipTime s |};
       disk := disk w |}
  end.

(** [now] is [Date.now()], [newId] the result of [generateId()]; the two
    flags say whether the writes to storage go through. *)
Definition addSlip (now : Z) (newId : string) (saveOk timeOk : bool)
    (w : World) : World :=
  let newEvent := {| id := newId; timestamp := now; source := manual |} in
  let updatedEvents := events (store w) ++ [newEvent] in
  let s' := {| events := updatedEvents; isLoading := isLoading (store w);
               lastSlipId := Some (id newEvent); lastSlipTime := Some now |} in
  let '(ok, d1) := Storage.saveEvents saveOk updatedEvents (disk w) in
  let d2 := if ok then Storage.setLastSlipTime timeOk now d1 else d1 in
  {| store := s'; disk := d2 |}.

Definition deleteSlip (target : string) (saveOk : bool) (w : World) : World :=
  let s := store w in
  let updatedEvents :=
    filter (λ event, id event ≠ target) (events s) in
  {| store := {| events := updatedEvents; isLoading := isLoading s;
                 lastSlipId := lastSlipId s; lastSlipTime := lastSlipTime s |};
     disk := (Storage.saveEvents saveOk updatedEvents (disk w)).2 |}.

Definition undoLastSlip (now : Z) (saveOk : bool) (w : World)
    : bool * World :=
  let s := store w in
  if falsyId (lastSlipId s) || falsyTime (lastSlipTime s) then (false, w)
  else
    let timeSinceLastSlip := now - default 0 (lastSlipTime s) in
    if UNDO_WINDOW_MS <? timeSinceLastSlip then (false, w)
    else
      let updatedEvents :=
        filter (λ event, Some (id event) ≠ lastSlipId s) (events s) in
      (true,
       {| store := {| events := updatedEvents; isLoading := isLoading s;
                      lastSlipId := None; lastSlipTime := None |};
          disk := (Storage.saveEvents saveOk updatedEvents (disk w)).2 |}).

Definition clearAllEvents (saveOk : bool) (w : World) : World :=
  {| store := {| events := []; isLoading := isLoading (store w);
                 lastSlipId := None; lastSlipTime := None |};
     disk := (Storage.saveEvents saveOk [] (disk w)).2 |}.

End SlipStore.

(** ** hooks/useStreak.ts *)

Module Streak.

(** The file's own copy of the date formatter. *)
Definition formatDate (date : JS.Date) : string :=
  let year := JS.getFullYear date in
  let month := JS.padStart 2 "0" (JS.toString (JS.getMonth date + 1)) in
  let day := JS.padStart 2 "0" (JS.toString (JS.getDate date)) in
  JS.toString year +:+ "-" +:+ month +:+ "-" +:+ day.

(** STEP 1: [countsByDate[date] = (countsByDate[date] || 0) + 1]. *)
Definition countSlipsPerDay `{Host} (events : list SlipEvent)
    : gmap string Z :=
  fold_left
    (λ (countsByDate : gmap string Z) event,
       let date := DateUtils.getDateFromTimestamp (timestamp event) in
       <[date := default 0 (countsByDate !! date) + 1]> countsByDate)
    events ∅.

(** STEP 2: the [while (true)] walk back from today. *)
Fixpoint currentStreakLoop `{Host} (fuel : nat) (now : Z)
    (countsByDate : gmap string Z) (limit : Z) (currentStreak daysAgo : Z)
    : option Z :=
  match fuel with
  | O => None
  | S fuel' =>
    let dateToCheck := DateUtils.getDaysAgoDateString now daysAgo in
    let slipsOnDay := default 0 (countsByDate !! dateToCheck) in
    if slipsOnDay <=? limit then
      let currentStreak := currentStreak + 1 in
      let daysAgo := daysAgo + 1 in
      if 365 <? daysAgo then Some currentStreak
      else currentStreakLoop fuel' now countsByDate limit currentStreak daysAgo
    else Some currentStreak
  end.

(** [Object.keys(countsByDate).sort()]: the keys in code-unit order. *)
Definition sortedKeys (countsByDate : gmap string Z) : list string :=
  merge_sort String.le (map_to_list countsByDate).*1.

(** STEP 3: the [while (checkDate <= endDate)] scan. *)
Fixpoint bestStreakLoop (fuel : nat) (countsByDate : gmap string Z)
    (limit : Z) (endDate checkDate : JS.Date) (bestStreak tempStreak : Z)
    : option Z :=
  match fuel with
  | O => None
  | S fuel' =>
    if checkDate <=? endDate then
      let dateStr := formatDate checkDate in
      let slipsOnDay := default 0 (countsByDate !! dateStr) in
      let tempStreak' := if slipsOnDay <=? limit then tempStreak + 1 else 0 in
      let bestStreak' :=
        if slipsOnDay <=? limit then Z.max bestStreak tempStreak'
        else bestStreak in
      bestStreakLoop fuel' countsByDate limit endDate
        (JS.setDate checkDate (JS.getDate checkDate + 1))
        bestStreak' tempStreak'
    else Some bestStreak
  end.

(** [new Date(s)] on a date-only string: midnight UTC of that date, or an
    Invalid Date. *)
Definition newDateOfKey `{Host} (s : string) : option JS.Date :=
  (λ day, JS.newDate (ES.MakeDate day 0)) <$> JS.parseDateKey s.

Definition useStreak `{Host} (fuel : nat) (now : Z) (events : list SlipEvent)
    (limit : Z) : option StreakInfo :=
  let countsByDate := countSlipsPerDay events in
  currentStreak ← currentStreakLoop fuel now countsByDate limit 0 0;
  let allDates := sortedKeys countsByDate in
  match allDates with
  | [] => Some {| current := currentStreak; best := currentStreak |}
  | firstDate :: _ =>
    let today := DateUtils.getTodayDateString now in
    bestStreak ←
      match newDateOfKey firstDate, newDateOfKey today with
      | Some checkDate, Some endDate =>
        bestStreakLoop fuel countsByDate limit endDate checkDate 0 0
      | _, _ => Some 0
      end;
    let bestStreak := Z.max bestStreak currentStreak in
    Some {| current := currentStreak; best := bestStreak |}
  end.

(** Fuel that covers both loops: 366 turns of the walk, and one turn of the
    scan per day between the two dates, plus the turn that leaves it. *)
Definition enoughFuel `{Host} (now : Z) (events : list SlipEvent) : nat :=
  let scan :=
    match sortedKeys (countSlipsPerDay events) with
    | firstDate :: _ =>
      match newDateOfKey firstDate,
            newDateOfKey (DateUtils.getTodayDateString now) with
      | Some checkDate, Some endDate =>
        Z.to_nat ((endDate - checkDate) / ES.msPerDay + 2)
      | _, _ => O
      end
    | [] => O
    end in
  (366 `max` scan)%nat.

End Streak.

(** ** hooks/useStats.ts *)

Module Stats.

Record DayCount := {
  date : string;
  displayDate : string;
  count : Z;
  isOverLimit : bool
}.

Record StatsData := {
  totalSlips : Z;
  avgPerDay : option Q;
  bestDay : option DayCount;
  worstDay : option DayCount;
  daysUnderLimitPercent : option Q;
  dailyCounts : list DayCount;
  peakHour : option string;
  peakDayOfWeek : option string;
  hasEnoughDataForPatterns : bool;
  hasAnyData : bool
}.

(** [o[k] = (o[k] || 0) + 1] *)
Definition increment `{Countable K} (k : K) (o : gmap K Z) : gmap K Z :=
  <[k := default 0 (o !! k) + 1]> o.

Definition keyLe (a b : Z * Z) : Prop := a.1 ≤ b.1.

#[global] Instance keyLe_dec : RelDecision keyLe :=
  λ a b, decide (a.1 ≤ b.1).

(** [Object.entries] of an object whose keys are array indices: the entries
    in ascending order of the key. *)
Definition entries (o : gmap Z Z) : list (Z * Z) :=
  merge_sort keyLe (map_to_list o).

(** The [forEach] that keeps the first strictly largest count. *)
Definition maxEntry (es : list (Z * Z)) : Z * Z :=
  fold_left
    (λ '(maxCount, maxKey) '(key, n),
       if maxCount <? n then (n, key) else (maxCount, maxKey))
    es (0, 0).

(** The [forEach] of STEP 5 over the daily counts. *)
Definition bestAndWorst (dailyCounts : list DayCount)
    : option DayCount * option DayCount :=
  fold_left
    (λ '(bestDay, worstDay) day,
       (match bestDay with
        | None => Some day
        | Some b => if count day <? count b then Some day else bestDay
        end,
        match worstDay with
        | None => Some day
        | Some w => if count w <? count day then Some day else worstDay
        end))
    dailyCounts (None, None).

Section with_host.
Context `{Host}.

Definition eventDate (event : SlipEvent) : string :=
  DateUtils.getDateFromTimestamp (timestamp event).

(** STEP 1 and 2 *)
Definition eventsInRange (now : Z) (events : list SlipEvent) (range : Z)
    : list SlipEvent :=
  let datesInRange := DateUtils.getLastNDays now range in
  let dateSet : gset string := list_to_set datesInRange in
  filter (λ event, eventDate event ∈ dateSet) events.

(** STEP 3 *)
Definition countsByDate (now : Z) (events : list SlipEvent) (range : Z)
    : gmap string Z :=
  let datesInRange := DateUtils.getLastNDays now range in
  let zeroed :=
    fold_left (λ (o : gmap string Z) date, <[date := 0]> o) datesInRange ∅ in
  fold_left (λ o event, increment (eventDate event) o)
    (eventsInRange now events range) zeroed.

(** STEP 4; every date of the range has an entry in [countsByDate]. *)
Definition buildDailyCounts (now : Z) (events : list SlipEvent)
    (dailyLimit range : Z) : list DayCount :=
  let counts := countsByDate now events range in
  (λ d, {| date := d;
           displayDate := DateUtils.formatDateForDisplay now d;
           count := default 0 (counts !! d);
           isOverLimit := dailyLimit <? default 0 (counts !! d) |})
    <$> reverse (DateUtils.getLastNDays now range).

Definition hourCounts (evs : list SlipEvent) : gmap Z Z :=
  fold_left
    (λ o event, increment (DateUtils.getHourFromTimestamp (timestamp event)) o)
    evs ∅.

Definition dayOfWeekCounts (evs : list SlipEvent) : gmap Z Z :=
  fold_left
    (λ o event,
       increment (DateUtils.getDayOfWeekFromTimestamp (timestamp event)) o)
    evs ∅.

Definition useStats (now : Z) (events : list SlipEvent) (dailyLimit : Z)
    (range : Z) : StatsData :=
  let inRange := eventsInRange now events range in
  let daily := buildDailyCounts now events dailyLimit range in
  (* STEP 5 *)
  let total := Z.of_nat (length inRange) in
  let avg := if 0 <? range then JS.div total range else Some 0%Q in
  let '(bestDay, worstDay) := bestAndWorst daily in
  let daysUnderLimit :=
    Z.of_nat (length (filter (λ d, count d ≤ dailyLimit) daily)) in
  let percent :=
    if 0 <? range
    then (λ q, q * inject_Z 100)%Q <$> JS.div daysUnderLimit range
    else Some 0%Q in
  (* STEP 6 *)
  let uniqueDaysWithEvents :=
    Z.of_nat (size (list_to_set (eventDate <$> inRange) : gset string)) in
  let hasEnough := MIN_DAYS_FOR_PATTERNS <=? uniqueDaysWithEvents in
  let eligible := hasEnough && (3 <=? Z.of_nat (length inRange)) in
  {| totalSlips := total;
     avgPerDay := avg;
     bestDay := bestDay;
     worstDay := worstDay;
     daysUnderLimitPercent := percent;
     dailyCounts := daily;
     peakHour :=
       if eligible then
         let '(maxHourCount, maxHour) :=
           maxEntry (entries (hourCounts inRange)) in
         if 2 <=? maxHourCount
         then Some (DateUtils.formatHourRange maxHour) else None
       else None;
     peakDayOfWeek :=
       if eligible then
         let '(maxDowCount, maxDow) :=
           maxEntry (entries (dayOfWeekCounts inRange)) in
         if 2 <=? maxDowCount then DateUtils.getDayName maxDow else None
       else None;
     hasEnoughDataForPatterns := hasEnough;
     hasAnyData := 0 <? Z.of_nat (length events) |}.

End with_host.

End Stats.

(** ** utils/date.ts: the queries on date keys *)

Module DateQueries.

Section with_host.
Context `{Host}.

Definition isToday (now : Z) (isoTimestamp : Z) : bool :=
  let eventDate := JS.newDate isoTimestamp in
  let eventDateString := DateUtils.formatDateString eventDate in
  let todayString := DateUtils.getTodayDateString now in
  String.eqb eventDateString todayString.

(** [lastNDays.includes(dateString)] *)
Definition isWithinLastNDays (now : Z) (dateString : string) (n : Z) : bool :=
  let lastNDays := DateUtils.getLastNDays now n in
  bool_decide (dateString ∈ lastNDays).

Definition getYesterdayDateString (now : Z) : string :=
  let yesterday := JS.newDate now in
  let yesterday := JS.setDate yesterday (JS.getDate yesterday - 1) in
  DateUtils.formatDateString yesterday.

End with_host.

End DateQueries.

(** ** stores/slipStore.ts: the selector hooks *)

Module Selectors.

Section with_host.
Context `{Host}.

(** The [for ... of] loop with its counter. *)
Definition useTodayCount (now : Z) (s : SlipStore.State) : Z :=
  let today := DateUtils.getTodayDateString now in
  fold_left
    (λ count event,
       if String.eqb (DateUtils.getDateFromTimestamp (timestamp event)) today
       then count + 1 else count)
    (SlipStore.events s) 0.

Definition useAllEvents (s : SlipStore.State) : list SlipEvent :=
  SlipStore.events s.

Definition useTodayEvents (now : Z) (s : SlipStore.State) : list SlipEvent :=
  let today := DateUtils.getTodayDateString now in
  filter (λ event, DateUtils.getDateFromTimestamp (timestamp event) = today)
    (SlipStore.events s).

(** [if (!grouped[date]) grouped[date] = []; grouped[date].push(event)];
    an array, even an empty one, is truthy. *)
Definition useEventsByDate (s : SlipStore.State)
    : gmap string (list SlipEvent) :=
  fold_left
    (λ (grouped : gmap string (list SlipEvent)) event,
       let date := DateUtils.getDateFromTimestamp (timestamp event) in
       let grouped :=
         match grouped !! date with
         | None => <[date := []]> grouped
         | Some _ => grouped
         end in
       <[date := default [] (grouped !! date) ++ [event]]> grouped)
    (SlipStore.events s) ∅.

End with_host.

End Selectors.

(** ** The user settings: types, constants, storage service and store *)

Module Settings.

Record UserSettings := {
  habitName : string;
  dailyLimit : Z;
  reminderEnabled : bool;
  reminderItem : string
}.

(** [Partial<UserSettings>]: [None] is a key that the object does not have. *)
Module Partial.
Record t := {
  habitName : option string;
  dailyLimit : option Z;
  reminderEnabled : option bool;
  reminderItem : option string
}.
End Partial.

Definition DEFAULT_SETTINGS : UserSettings :=
  {| habitName := ""; dailyLimit := 3; reminderEnabled := true;
     reminderItem := "20:30" |}.

Definition LIMIT_MIN : Z := 1.
Definition LIMIT_MAX : Z := 99.

(** [{ ...base, ...partial }] *)
Definition spread (base : UserSettings) (partial : Partial.t) : UserSettings :=
  {| habitName := default (habitName base) (Partial.habitName partial);
     dailyLimit := default (dailyLimit base) (Partial.dailyLimit partial);
     reminderEnabled :=
       default (reminderEnabled base) (Partial.reminderEnabled partial);
     reminderItem :=
       default (reminderItem base) (Partial.reminderItem partial) |}.

(** The object that [JSON.stringify] writes for a settings value. *)
Definition toJson (s : UserSettings) : Partial.t :=
  {| Partial.habitName := Some (habitName s);
     Partial.dailyLimit := Some (dailyLimit s);
     Partial.reminderEnabled := Some (reminderEnabled s);
     Partial.reminderItem := Some (reminderItem s) |}.

(** The white space and line terminators of ECMA-262, as UTF-8 byte
    sequences: U+0009 to U+000D, U+0020, U+00A0, U+1680, U+2000 to U+200A,
    U+2028, U+2029, U+202F, U+205F, U+3000, U+FEFF. *)
Definition utf8 (bytes : list nat) : string :=
  foldr (λ n s, String (ascii_of_nat n) s) "" bytes.

Definition whiteSpace : list string :=
  utf8 <$>
    [ [9]; [10]; [11]; [12]; [13]; [32]; [194; 160]; [225; 154; 128];
      [226; 128; 128]; [226; 128; 129]; [226; 128; 130]; [226; 128; 131];
      [226; 128; 132]; [226; 128; 133]; [226; 128; 134]; [226; 128; 135];
      [226; 128; 136]; [226; 128; 137]; [226; 128; 138]; [226; 128; 168];
      [226; 128; 169]; [226; 128; 175]; [226; 129; 159]; [227; 128; 128];
      [239; 187; 191] ]%nat.

Fixpoint stripPrefix (p s : string) : option string :=
  match p, s with
  | EmptyString, _ => Some s
  | String a p', String b s' =>
    if Ascii.eqb a b then stripPrefix p' s' else None
  | String _ _, EmptyString => None
  end.

(** The string after its first character, when that is white space. *)
Definition dropWhite (s : string) : option string :=
  list_find is_Some ((λ p, stripPrefix p s) <$> whiteSpace) ≫= snd.

Fixpoint trimStartN (fuel : nat) (s : string) : string :=
  match fuel with
  | O => s
  | S fuel' =>
    match dropWhite s with
    | Some rest => trimStartN fuel' rest
    | None => s
    end
  end.

Definition trimStart (s : string) : string := trimStartN (String.length s) s.

Definition allWhite (s : string) : bool :=
  String.eqb (trimStart s) "".

Fixpoint trimEnd (s : string) : string :=
  match s with
  | EmptyString => ""
  | String c s' => if allWhite s then "" else String c (trimEnd s')
  end.

(** String.prototype.trim *)
Definition trim (s : string) : string := trimEnd (trimStart s).

End Settings.

(** services/storage.ts, the settings part *)

Module SettingsStorage.
Import Settings.

(** What is kept under the settings key, as [JSON.parse] sees it: nothing,
    text that does not parse, or an object with some of the four fields
    (an older version of the app may have written fewer; the parsed [null]
    spreads like an object with none). *)
Inductive SettingsItem :=
  | NoSettings
  | BadSettingsJson
  | JsonSettings (fields : Partial.t).

Definition getSettings (item : SettingsItem) : UserSettings :=
  match item with
  | NoSettings => DEFAULT_SETTINGS
  | BadSettingsJson => DEFAULT_SETTINGS
  | JsonSettings fields => spread DEFAULT_SETTINGS fields
  end.

(** [saveSettings] rethrows a failed write: the flag of the result is
    [false]. *)
Definition saveSettings (writeOk : bool) (s : UserSettings)
    (item : SettingsItem) : bool * SettingsItem :=
  if writeOk then (true, JsonSettings (toJson s)) else (false, item).

(** The read-merge-write; [None] is the rejected promise of a failed
    write. *)
Definition updateSettings (writeOk : bool) (partial : Partial.t)
    (item : SettingsItem) : option UserSettings * SettingsItem :=
  let current := getSettings item in
  let updated := spread current partial in
  let '(ok, item') := saveSettings writeOk updated item in
  (if ok then Some updated else None, item').

End SettingsStorage.

(** ** stores/settingsStore.ts *)

Module SettingsStore.
Import Settings.

Record State := {
  settings : UserSettings;
  isLoading : bool;
  isSetupComplete : bool
}.

(** The store and the storage item it writes through. *)
Record World := {
  store : State;
  disk : SettingsStorage.SettingsItem
}.

Definition initialState : State :=
  {| settings := DEFAULT_SETTINGS; isLoading := true;
     isSetupComplete := false |}.

(** [habitName.trim().length > 0] *)
Definition nonBlank (habitName : string) : bool :=
  (0 <? String.length (trim habitName))%nat.

(** [storage.getSettings] catches its own errors, so the [catch] of
    [loadSettings] is never entered. *)
Definition loadSettings (w : World) : World :=
  let settings := SettingsStorage.getSettings (disk w) in
  let isSetupComplete := nonBlank (habitName settings) in
  {| store := {| settings := settings; isLoading := false;
                 isSetupComplete := isSetupComplete |};
     disk := disk w |}.

Definition updateSettings (partial : Partial.t) (saveOk : bool) (w : World)
    : World :=
  let updated := spread (settings (store w)) partial in
  let isSetupComplete := nonBlank (habitName updated) in
  {| store := {| settings := updated; isLoading := isLoading (store w);
                 isSetupComplete := isSetupComplete |};
     disk := (SettingsStorage.saveSettings saveOk updated (disk w)).2 |}.

Definition resetSettings (saveOk : bool) (w : World) : World :=
  {| store := {| settings := DEFAULT_SETTINGS;
                 isLoading := isLoading (store w);
                 isSetupComplete := false |};
     disk := (SettingsStorage.saveSettings saveOk DEFAULT_SETTINGS
                (disk w)).2 |}.

Definition useDailyLimit (s : State) : Z := dailyLimit (settings s).
Definition useHabitName (s : State) : string := habitName (settings s).

End SettingsStore.

(** ** components/settings/LimitSetting.tsx *)

Module LimitSetting.
Import Settings.

Definition limitOnly (n : Z) : Partial.t :=
  {| Partial.habitName := None; Partial.dailyLimit := Some n;
     Partial.reminderEnabled := None; Partial.reminderItem := None |}.

Definition handleIncrement (saveOk : bool) (w : SettingsStore.World)
    : SettingsStore.World :=
  let currentLimit := SettingsStore.useDailyLimit (SettingsStore.store w) in
  if currentLimit <? LIMIT_MAX
  then SettingsStore.updateSettings (limitOnly (currentLimit + 1)) saveOk w
  else w.

Definition handleDecrement (saveOk : bool) (w : SettingsStore.World)
    : SettingsStore.World :=
  let currentLimit := SettingsStore.useDailyLimit (SettingsStore.store w) in
  if LIMIT_MIN <? currentLimit
  then SettingsStore.updateSettings (limitOnly (currentLimit - 1)) saveOk w
  else w.

Definition canDecrement (s : SettingsStore.State) : bool :=
  LIMIT_MIN <? SettingsStore.useDailyLimit s.

Definition canIncrement (s : SettingsStore.State) : bool :=
  SettingsStore.useDailyLimit s <? LIMIT_MAX.

End LimitSetting.

(** ** hooks/useToday.ts and components/home/TodayStatus.tsx *)

Module Today.

Record TodayStatus := {
  count : Z;
  limit : Z;
  isUnderLimit : bool;
  remaining : Z
}.

Definition useToday `{Host} (now : Z) (slips : SlipStore.State)
    (prefs : SettingsStore.State) : TodayStatus :=
  let count := Selectors.useTodayCount now slips in
  let limit := SettingsStore.useDailyLimit prefs in
  let isUnderLimit := count <=? limit in
  let remaining := Z.max 0 (limit - count) in
  {| count := count; limit := limit; isUnderLimit := isUnderLimit;
     remaining := remaining |}.

(** The status badge of the card. *)
Definition badge (st : TodayStatus) : string :=
  if isUnderLimit st then "On track" else "Over limit".

(** The line under the badge; [None] when it is not rendered. *)
Definition remainingLine (st : TodayStatus) : option string :=
  if isUnderLimit st && (0 <? remaining st)
  then Some (JS.toString (remaining st) +:+ " "
             +:+ (if remaining st =? 1 then "slip" else "slips")
             +:+ " remaining today")
  else None.

End Today.

(** ** components/home/UndoButton.tsx *)

Module UndoButton.

(** The component's own state. *)
Record Local := {
  canUndo : bool;
  remainingSeconds : Z
}.

Definition initialLocal : Local :=
  {| canUndo := false; remainingSeconds := 0 |}.

(** [Math.ceil(a / b)] for integers with [b] positive. *)
Definition ceilDiv (a b : Z) : Z := - ((- a) / b).

Definition updateTimer (now lastSlipTime : Z) (l : Local) : Local :=
  let elapsed := now - lastSlipTime in
  let remaining := UNDO_WINDOW_MS - elapsed in
  if remaining <=? 0
  then {| canUndo := false; remainingSeconds := 0 |}
  else {| canUndo := true; remainingSeconds := ceilDiv remaining 1000 |}.

(** One run of the timer under the guard of the effect, at clock reading
    [now]. *)
Definition tick (now : Z) (s : SlipStore.State) (l : Local) : Local :=
  if SlipStore.falsyId (SlipStore.lastSlipId s)
     || SlipStore.falsyTime (SlipStore.lastSlipTime s)
  then {| canUndo := false; remainingSeconds := remainingSeconds l |}
  else updateTimer now (default 0 (SlipStore.lastSlipTime s)) l.

Definition handleUndo (now : Z) (saveOk : bool) (w : SlipStore.World)
    (l : Local) : SlipStore.World * Local :=
  let '(success, w') := SlipStore.undoLastSlip now saveOk w in
  if success then (w', l)
  else (w', {| canUndo := false; remainingSeconds := remainingSeconds l |}).

Definition formatTime (seconds : Z) : string :=
  let mins := seconds / 60 in
  let secs := Z.rem seconds 60 in
  if 0 <? mins
  then JS.toString mins +:+ ":" +:+ JS.padStart 2 "0" (JS.toString secs)
  else JS.toString secs +:+ "s".

(** The button is rendered only while [canUndo] holds. *)
Definition label (l : Local) : option string :=
  if canUndo l then Some ("(" +:+ formatTime (remainingSeconds l) +:+ ")")
  else None.

End UndoButton.

(** ** components/home/QuickInsight.tsx *)

Module QuickInsight.

Record Insight := {
  hour : Z;
  formatted : string
}.

Definition insight `{Host} (events : list SlipEvent) : option Insight :=
  if Z.of_nat (length events) <? 3 then None
  else
    let hourCounts := Stats.hourCounts events in
    let '(maxCount, maxHour) := Stats.maxEntry (Stats.entries hourCounts) in
    if maxCount <? 2 then None
    else Some {| hour := maxHour;
                 formatted := DateUtils.formatHourRange maxHour |}.

End QuickInsight.

(** ** hooks/useHistoryData.ts *)

(** String.prototype.localeCompare, which the host's collation decides. *)
Class Collation := {
  localeCompare : string → string → Z
}.

Module History.

Record HistorySection := {
  title : string;
  date : string;
  data : list SlipEvent
}.

Record HistoryData := {
  sections : list HistorySection;
  isEmpty : bool;
  isLoading : bool
}.

(** A [Map] with string keys: its entries in insertion order. *)
Definition has {V} (key : string) (m : list (string * V)) : bool :=
  bool_decide (key ∈ m.*1).

(** [m.set(key, v)] for a key that the map does not have. *)
Definition setNew {V} (key : string) (v : V) (m : list (string * V))
    : list (string * V) :=
  m ++ [(key, v)].

(** [m.get(key).push(event)]: the array under the key grows in place. *)
Definition pushAt (key : string) (event : SlipEvent)
    (m : list (string * list SlipEvent)) : list (string * list SlipEvent) :=
  (λ entry, if String.eqb entry.1 key then (entry.1, entry.2 ++ [event])
            else entry) <$> m.

(** Array.prototype.sort, which is stable: an element is placed before the
    first one that the comparator does not put ahead of it. This is the
    order that ECMA-262 fixes for a consistent comparator; with any other
    the order is left to the implementation, and only the elements are
    the same. *)
Fixpoint insertBy {A} (compareFn : A → A → Z) (x : A) (l : list A) : list A :=
  match l with
  | [] => [x]
  | y :: l' =>
    if compareFn x y <=? 0 then x :: y :: l'
    else y :: insertBy compareFn x l'
  end.

Definition sort {A} (compareFn : A → A → Z) (l : list A) : list A :=
  foldr (insertBy compareFn) [] l.

Section with_host.
Context `{Host} `{Collation}.

(** Step 1 *)
Definition groupByDate (events : list SlipEvent)
    : list (string * list SlipEvent) :=
  fold_left
    (λ groupedByDate event,
       let dateKey := DateUtils.getDateFromTimestamp (timestamp event) in
       let groupedByDate :=
         if negb (has dateKey groupedByDate)
         then setNew dateKey [] groupedByDate else groupedByDate in
       pushAt dateKey event groupedByDate)
    events [].

Definition newestFirst (a b : SlipEvent) : Z := timestamp b - timestamp a.

(** Steps 2 and 3 *)
Definition buildSections (now : Z) (events : list SlipEvent)
    : list HistorySection :=
  let sectionsArray :=
    (λ '(date, dateEvents),
       {| date := date;
          title := DateUtils.formatDateForDisplay now date;
          data := sort newestFirst dateEvents |})
      <$> groupByDate events in
  sort (λ a b, localeCompare (date b) (date a)) sectionsArray.

Definition useHistoryData (now : Z) (s : SlipStore.State) : HistoryData :=
  let events := Selectors.useAllEvents s in
  {| sections := buildSections now events;
     isEmpty := bool_decide (length events = 0%nat);
     isLoading := SlipStore.isLoading s |}.

End with_host.

End History.

(** ** components/settings/DataActions.tsx *)

Module DataActions.

(** The two stores of the app. *)
Record App := {
  slips : SlipStore.World;
  prefs : SettingsStore.World
}.

Definition performReset (eventsOk settingsOk : bool) (app : App) : App :=
  {| slips := SlipStore.clearAllEvents eventsOk (slips app);
     prefs := SettingsStore.resetSettings settingsOk (prefs app) |}.

End DataActions.

(** ** Vocabulary of the statements *)


(** The two decimal digits of a number below 100. *)
Definition twoDigits (n : Z) : string :=
  String (pretty_N_char (Z.to_N (n / 10)))
    (String (pretty_N_char (Z.to_N (n mod 10))) "").

(** The UndoState invariant of the store: both fields present, or both
    absent. *)
Definition undoInvariant (s : SlipStore.State) : Prop :=
  is_Some (SlipStore.lastSlipId s) ↔ is_Some (SlipStore.lastSlipTime s).

(** One action of the store, with any clock reading, identifier and outcome
    of the writes. *)
Inductive storeStep : SlipStore.World → SlipStore.World → Prop :=
  | step_loadEvents w :
      storeStep w (SlipStore.loadEvents w)
  | step_addSlip now newId saveOk timeOk w :
      storeStep w (SlipStore.addSlip now newId saveOk timeOk w)
  | step_deleteSlip target saveOk w :
      storeStep w (SlipStore.deleteSlip target saveOk w)
  | step_undoLastSlip now saveOk w :
      storeStep w (SlipStore.undoLastSlip now saveOk w).2
  | step_clearAllEvents saveOk w :
      storeStep w (SlipStore.clearAllEvents saveOk w).

(** The worlds a process can be in: it starts from the initial store over
    whatever the storage holds. *)
Inductive reachable : SlipStore.World → Prop :=
  | reachable_start d :
      reachable {| SlipStore.store := SlipStore.initialState;
                   SlipStore.disk := d |}
  | reachable_step w w' : reachable w → storeStep w w' → reachable w'.

(** A first launch: nothing in storage. *)
Definition freshWorld : SlipStore.World :=
  {| SlipStore.store := SlipStore.initialState;
     SlipStore.disk := {| Storage.eventsItem := Storage.NoItem;
                          Storage.lastSlipTimeItem := None |} |}.

(** A host on UTC that prints dates as their keys, and noon of
    16 January 2025, a Thursday. *)
Definition utcHost : Host :=
  {| LocalTime := λ t, t;
     toLocaleDateString := DateUtils.formatDateString |}.

Definition noon_2025_01_16 : Z := 1737028800000.

(** The local day number of today and the number of slips logged on a
    local day. *)
Definition localToday `{Host} (now : Z) : Z := ES.Day (LocalTime now).

Definition slipsOnLocalDay `{Host} (events : list SlipEvent) (day : Z) : Z :=
  Z.of_nat (length
    (filter (λ event, ES.Day (LocalTime (timestamp event)) = day) events)).

(** Two slips on 14 January 2025, three on the 15th, one on the 16th. *)
Definition threeDayEvents : list SlipEvent :=
  [ {| id := "m5w4r0aa1"; timestamp := 1736845200000; source := manual |};
    {| id := "m5w9x2bb2"; timestamp := 1736863200000; source := manual |};
    {| id := "m5xk3acc3"; timestamp := 1736931600000; source := manual |};
    {| id := "m5xq7bdd4"; timestamp := 1736949600000; source := manual |};
    {| id := "m5xt1cee5"; timestamp := 1736956800000; source := manual |};
    {| id := "m5z0k1ff6"; timestamp := 1737028800000; source := manual |} ].



(** The local day of an event; the numbers of events of a list in an hour
    of the day and on a day of the week. *)
Definition localDay `{Host} (event : SlipEvent) : Z :=
  ES.Day (LocalTime (timestamp event)).

Definition slipsAtHour `{Host} (evs : list SlipEvent) (hour : Z) : Z :=
  Z.of_nat (length
    (filter (λ event, DateUtils.getHourFromTimestamp (timestamp event) = hour)
       evs)).


(** The key of a day number: how the date helpers print any instant of
    that day. *)
Definition dayKey (d : Z) : string :=
  DateUtils.formatDateString (ES.MakeDate d 0).

(** The sum of a list of numbers. *)
Definition sumZ (l : list Z) : Z := foldr Z.add 0 l.

(** The store of a process that is started again over the storage that
    [w] leaves behind. *)
Definition restart (w : SlipStore.World) : SlipStore.World :=
  SlipStore.loadEvents {| SlipStore.store := SlipStore.initialState;
                          SlipStore.disk := SlipStore.disk w |}.


(** The settings store of a process that is started again over the
    storage that [w] leaves behind. *)
Definition restartSettings (w : SettingsStore.World) : SettingsStore.World :=
  SettingsStore.loadSettings
    {| SettingsStore.store := SettingsStore.initialState;
       SettingsStore.disk := SettingsStore.disk w |}.

(** A first launch of the settings store. *)
Definition freshSettings : SettingsStore.World :=
  {| SettingsStore.store := SettingsStore.initialState;
     SettingsStore.disk := SettingsStorage.NoSettings |}.

(** One action on the settings store. *)
Inductive settingsStep : SettingsStore.World → SettingsStore.World → Prop :=
  | step_loadSettings w :
      settingsStep w (SettingsStore.loadSettings w)
  | step_updateSettings partial saveOk w :
      settingsStep w (SettingsStore.updateSettings partial saveOk w)
  | step_resetSettings saveOk w :
      settingsStep w (SettingsStore.resetSettings saveOk w).

Inductive settingsReachable : SettingsStore.World → Prop :=
  | settingsReachable_start d :
      settingsReachable {| SettingsStore.store := SettingsStore.initialState;
                           SettingsStore.disk := d |}
  | settingsReachable_step w w' :
      settingsReachable w → settingsStep w w' → settingsReachable w'.

(** A collation that compares strings by their code units. *)
Definition codeUnitCollation : Collation :=
  {| localeCompare := λ a b,
       match String.compare a b with
       | Lt => -1
       | Eq => 0
       | Gt => 1
       end |}.

(** A day within the limit. *)
Definition compliant `{Host} (events : list SlipEvent) (limit : Z) (day : Z)
    : Prop :=
  slipsOnLocalDay events day ≤ limit.

(** [r] is the length of the longest run of consecutive days from [lo] to
    [hi] that all satisfy [ok]: no run is longer, and one is as long. *)
Definition longestRun (ok : Z → Prop) (lo hi : Z) (r : Z) : Prop :=
  0 ≤ r
  ∧ (∀ a b, lo ≤ a → b ≤ hi → (∀ d, a ≤ d ≤ b → ok d) → b - a + 1 ≤ r)
  ∧ (0 < r →
     ∃ a, lo ≤ a ∧ a + r - 1 ≤ hi ∧ ∀ d, a ≤ d ≤ a + r - 1 → ok d).

(** The number of turns of the scan from [checkDate] to [endDate]. *)
Definition scanLength (checkDate endDate : JS.Date) : Z :=
  if endDate <? checkDate then 0
  else (endDate - checkDate) / ES.msPerDay + 1.

(** A host five hours west of Greenwich, without daylight saving. *)
Definition westHost : Host :=
  {| LocalTime := λ t, t - 18000000;
     toLocaleDateString := DateUtils.formatDateString |}.

(** * Properties *)

(** ** The model on known dates *)

Section known_dates.
Import ES.

(** Year, month (from 0), date, day of the week (Sunday 0) and hour. *)
Example civil_2025_01_16 :
  (JS.getFullYear noon_2025_01_16, JS.getMonth noon_2025_01_16,
   JS.getDate noon_2025_01_16, JS.getDay noon_2025_01_16,
   JS.getHours noon_2025_01_16) = (2025, 0, 16, 4, 12).
Proof. reflexivity. Qed.

Example civil_leap_day_2024 :
  DateUtils.formatDateString 1709208000000 = "2024-02-29"
  ∧ DateUtils.formatDateString (JS.setDate 1709208000000 30) = "2024-03-01"
  ∧ JS.getDay 1709208000000 = 4.
Proof. by vm_compute. Qed.

Example civil_no_leap_day_1900 :
  DateUtils.formatDateString (-2203934400000) = "1900-02-28"
  ∧ DateUtils.formatDateString (JS.setDate (-2203934400000) 29)
    = "1900-03-01"
  ∧ DateUtils.formatDateString 951825600000 = "2000-02-29"
  ∧ DateUtils.formatDateString 4107456000000 = "2100-02-28"
  ∧ DateUtils.formatDateString (JS.setDate 4107456000000 29) = "2100-03-01".
Proof. by vm_compute. Qed.

Example civil_before_epoch :
  DateUtils.formatDateString (-3600000) = "1969-12-31"
  ∧ JS.getHours (-3600000) = 23 ∧ JS.getDay (-3600000) = 3
  ∧ DateUtils.formatDateString (-62135596800000) = "1-01-01"
  ∧ DateUtils.formatDateString 253402297200000 = "9999-12-31".
Proof. by vm_compute. Qed.

(** One day back from 1 January crosses the year. *)
Example daysAgo_crosses_year :
  DateUtils.getDaysAgoDateString (H := utcHost) 1735718400000 1
  = "2024-12-31"
  ∧ DateUtils.getLastNDays (H := utcHost) 1735718400000 3
    = ["2024-12-30"; "2024-12-31"; "2025-01-01"].
Proof. by vm_compute. Qed.

Example parseDateKey_2025_01_16 :
  JS.parseDateKey "2025-01-16" = Some (Day noon_2025_01_16)
  ∧ JS.parseDateKey "999-12-31" = None
  ∧ JS.parseDateKey "2025-13-01" = None.
Proof. by vm_compute. Qed.

Example formatHourRange_labels :
  DateUtils.formatHourRange 21 = "9" +:+ DateUtils.enDash +:+ "10 PM"
  ∧ DateUtils.formatHourRange 11
    = "11 AM" +:+ DateUtils.enDash +:+ "12 PM"
  ∧ DateUtils.formatHourRange 23
    = "11 PM" +:+ DateUtils.enDash +:+ "12 AM"
  ∧ DateUtils.formatHourRange 0 = "12" +:+ DateUtils.enDash +:+ "1 AM".
Proof. by vm_compute. Qed.

End known_dates.

(** ** The calendar *)

Section calendar.
Import ES.

Lemma DaysInYear_cases y : DaysInYear y = 365 ∨ DaysInYear y = 366.
Proof. unfold DaysInYear. repeat case_match; auto. Qed.

Lemma DayFromYear_succ y : DayFromYear (y + 1) = DayFromYear y + DaysInYear y.
Proof.
  unfold DayFromYear, DaysInYear.
  destruct (Z.eqb_spec (y mod 4) 0), (Z.eqb_spec (y mod 100) 0),
    (Z.eqb_spec (y mod 400) 0); simpl; Z.div_mod_to_equations; lia.
Qed.

Lemma DayFromYear_mono y1 y2 : y1 ≤ y2 → DayFromYear y1 ≤ DayFromYear y2.
Proof. unfold DayFromYear. intros. Z.div_mod_to_equations. lia. Qed.

Lemma YearFromDay_spec d :
  DayFromYear (YearFromDay d) ≤ d < DayFromYear (YearFromDay d + 1).
Proof.
  unfold YearFromDay. cbv zeta.
  destruct (Z.ltb_spec d (DayFromYear (1970 + d * 400 / 146097))) as [H1|H1].
  - unfold DayFromYear in *. Z.div_mod_to_equations. lia.
  - destruct (Z.leb_spec (DayFromYear (1970 + d * 400 / 146097 + 1)) d)
      as [H2|H2]; [|lia].
    unfold DayFromYear in *. Z.div_mod_to_equations. lia.
Qed.

(** The year of a day is the only year whose span contains it. *)
Lemma YearFromDay_unique d y :
  DayFromYear y ≤ d < DayFromYear (y + 1) → YearFromDay d = y.
Proof.
  intros Hy. pose proof (YearFromDay_spec d) as Hs.
  destruct (Z.lt_trichotomy (YearFromDay d) y) as [Hlt|[->|Hgt]]; [|done|].
  - pose proof (DayFromYear_mono (YearFromDay d + 1) y). lia.
  - pose proof (DayFromYear_mono (y + 1) (YearFromDay d)). lia.
Qed.

Lemma InLeapYear_cases d :
  (InLeapYear d = 0 ∧ DaysInYear (YearFromDay d) = 365)
  ∨ (InLeapYear d = 1 ∧ DaysInYear (YearFromDay d) = 366).
Proof.
  unfold InLeapYear. destruct (DaysInYear_cases (YearFromDay d)) as [E|E];
    rewrite E; simpl; auto.
Qed.

Lemma DayWithinYear_range d :
  0 ≤ DayWithinYear d < 365 + InLeapYear d.
Proof.
  unfold DayWithinYear. pose proof (YearFromDay_spec d) as Hs.
  rewrite DayFromYear_succ in Hs.
  destruct (InLeapYear_cases d) as [[-> E]|[-> E]]; lia.
Qed.

Lemma MonthFromDay_range d : 0 ≤ MonthFromDay d ≤ 11.
Proof. unfold MonthFromDay. cbv zeta. repeat case_match; lia. Qed.

Lemma MonthFromDay_spec d :
  MonthStart (MonthFromDay d) (InLeapYear d) ≤ DayWithinYear d
  < MonthStart (MonthFromDay d + 1) (InLeapYear d).
Proof.
  pose proof (DayWithinYear_range d) as Hw.
  unfold MonthFromDay. cbv zeta.
  repeat (match goal with
          | |- context [?a <? ?b] => destruct (Z.ltb_spec a b)
          end; [simpl; lia|]).
  simpl; lia.
Qed.

Lemma DateFromDay_range d : 1 ≤ DateFromDay d ≤ 31.
Proof.
  unfold DateFromDay. pose proof (MonthFromDay_spec d) as Hm.
  pose proof (MonthFromDay_range d) as Hr.
  assert (InLeapYear d = 0 ∨ InLeapYear d = 1) as Hl
    by (destruct (InLeapYear_cases d); lia).
  remember (MonthFromDay d) as m eqn:Em. clear Em.
  remember (InLeapYear d) as l eqn:El. clear El.
  assert (m = 0 ∨ m = 1 ∨ m = 2 ∨ m = 3 ∨ m = 4 ∨ m = 5 ∨ m = 6 ∨ m = 7
          ∨ m = 8 ∨ m = 9 ∨ m = 10 ∨ m = 11) as Hcases by lia.
  repeat (destruct Hcases as [-> | Hcases]; [simpl in *; lia|]).
  subst; simpl in *; lia.
Qed.

(** [MakeDay] on the year and month of a day: only the date moves. *)
Lemma MakeDay_of_day d dt :
  MakeDay (YearFromDay d) (MonthFromDay d) dt = d - DateFromDay d + dt.
Proof.
  pose proof (MonthFromDay_range d) as Hr.
  unfold MakeDay. cbv zeta.
  rewrite Z.div_small, Z.mod_small, Z.add_0_r by lia.
  fold (InLeapYear d). unfold DateFromDay, DayWithinYear. lia.
Qed.

Lemma MakeDay_roundtrip d :
  MakeDay (YearFromDay d) (MonthFromDay d) (DateFromDay d) = d.
Proof. rewrite MakeDay_of_day. lia. Qed.

Lemma Day_MakeDate day t : Day (MakeDate day (TimeWithinDay t)) = day.
Proof.
  unfold Day, MakeDate, TimeWithinDay, msPerDay.
  Z.div_mod_to_equations. lia.
Qed.

(** Moving the date by [k] moves the time value by [k] days. *)
Lemma setDate_shift (t k : Z) :
  JS.setDate t (JS.getDate t + k) = t + k * msPerDay.
Proof.
  unfold JS.setDate, JS.getDate, YearFromTime, MonthFromTime, DateFromTime.
  rewrite MakeDay_of_day.
  unfold MakeDate, TimeWithinDay, Day, msPerDay.
  Z.div_mod_to_equations. lia.
Qed.

Lemma Day_shift (t k : Z) : Day (t + k * msPerDay) = Day t + k.
Proof. unfold Day, msPerDay. Z.div_mod_to_equations. lia. Qed.

End calendar.

(** ** Strings *)

Section strings.

Lemma string_length_app (s t : string) :
  String.length (s +:+ t) = (String.length s + String.length t)%nat.
Proof. induction s as [|c s IH]; simpl; [done|]. by rewrite IH. Qed.

Lemma string_app_inj_suffix (s1 s2 t1 t2 : string) :
  String.length t1 = String.length t2 →
  s1 +:+ t1 = s2 +:+ t2 → s1 = s2 ∧ t1 = t2.
Proof.
  intros Hlen. revert s2.
  induction s1 as [|c s1 IH]; intros [|c' s2] Heq.
  - done.
  - apply (f_equal String.length) in Heq.
    rewrite !string_length_app in Heq. simpl in Heq. lia.
  - apply (f_equal String.length) in Heq.
    rewrite !string_length_app in Heq. simpl in Heq. lia.
  - injection Heq as -> Heq. destruct (IH _ Heq) as [-> ->]. done.
Qed.

Lemma string_compare_refl (s : string) : String.compare s s = Eq.
Proof.
  induction s as [|c s IH]; simpl; [done|].
  unfold Ascii.compare. by rewrite N.compare_refl.
Qed.

(** Comparing two strings with prefixes of one length compares the prefixes
    first. *)
Lemma string_compare_app (a b s t : string) :
  String.length a = String.length b →
  String.compare (a +:+ s) (b +:+ t) =
  match String.compare a b with
  | Eq => String.compare s t
  | c => c
  end.
Proof.
  revert b. induction a as [|c a IH]; intros [|c' b] Hlen; simpl in Hlen;
    try done.
  change (String c a +:+ s) with (String c (a +:+ s)).
  change (String c' b +:+ t) with (String c' (b +:+ t)). simpl.
  destruct (Ascii.compare c c'); try done. apply IH. lia.
Qed.

Lemma forallb_seqZ (P : Z → bool) (n : Z) :
  forallb P (seqZ 0 n) = true → ∀ k, 0 ≤ k < n → P k = true.
Proof.
  intros Hall k Hk. rewrite forallb_forall in Hall. apply Hall.
  apply list_elem_of_In, elem_of_seqZ. lia.
Qed.

Lemma padStart_two n :
  0 ≤ n < 100 → JS.padStart 2 "0" (JS.toString n) = twoDigits n.
Proof.
  intros Hn.
  pose proof (forallb_seqZ
    (λ k, String.eqb (JS.padStart 2 "0" (JS.toString k)) (twoDigits k)) 100
    ltac:(vm_compute; reflexivity) n Hn) as Hb.
  by apply String.eqb_eq in Hb.
Qed.

Lemma twoDigits_compare a b :
  0 ≤ a < 100 → 0 ≤ b < 100 →
  String.compare (twoDigits a) (twoDigits b) = (a ?= b).
Proof.
  intros Ha Hb.
  assert (forallb (λ x, forallb (λ y, bool_decide
            (String.compare (twoDigits x) (twoDigits y) = (x ?= y)))
            (seqZ 0 100)) (seqZ 0 100) = true) as Hall
    by (vm_compute; reflexivity).
  pose proof (forallb_seqZ _ 100 Hall a Ha) as H1. cbv beta in H1.
  pose proof (forallb_seqZ _ 100 H1 b Hb) as H2. cbv beta in H2.
  by apply bool_decide_eq_true in H2.
Qed.

Lemma digit_compare (a b : N) :
  (a < 10)%N → (b < 10)%N →
  Ascii.compare (pretty_N_char a) (pretty_N_char b) = (a ?= b)%N.
Proof.
  intros Ha Hb.
  assert (a = 0 ∨ a = 1 ∨ a = 2 ∨ a = 3 ∨ a = 4 ∨ a = 5 ∨ a = 6 ∨ a = 7
          ∨ a = 8 ∨ a = 9)%N as Ca by lia.
  assert (b = 0 ∨ b = 1 ∨ b = 2 ∨ b = 3 ∨ b = 4 ∨ b = 5 ∨ b = 6 ∨ b = 7
          ∨ b = 8 ∨ b = 9)%N as Cb by lia.
  repeat (destruct Ca as [-> | Ca]);
    repeat (destruct Cb as [-> | Cb]); subst; reflexivity.
Qed.

Lemma pretty_N_go_length (x : N) (s : string) :
  (0 < x)%N → (String.length s < String.length (pretty_N_go x s))%nat.
Proof.
  revert s. induction (N.lt_wf_0 x) as [x _ IH]; intros s Hx.
  rewrite pretty_N_go_step by done.
  destruct (decide (x `div` 10 = 0)%N) as [E|E].
  - rewrite E, pretty_N_go_0. simpl. lia.
  - assert (0 < x `div` 10)%N as Hq by (by apply N.neq_0_lt_0).
    pose proof (IH (x `div` 10)%N ltac:(apply N.div_lt; lia)
      (String (pretty_N_char (x `mod` 10)) s) Hq) as Hl.
    simpl in Hl. lia.
Qed.

(** Digit strings of one length compare as the numbers they denote. *)
Lemma pretty_N_go_compare (x y : N) (s t : string) :
  String.length (pretty_N_go x s) = String.length (pretty_N_go y t) →
  String.length s = String.length t →
  String.compare (pretty_N_go x s) (pretty_N_go y t) =
  match (x ?= y)%N with
  | Eq => String.compare s t
  | c => c
  end.
Proof.
  revert y s t. induction (N.lt_wf_0 x) as [x _ IH]; intros y s t Hlen Hst.
  destruct (decide (x = 0)%N) as [->|Hx], (decide (y = 0)%N) as [->|Hy].
  - by rewrite !pretty_N_go_0.
  - rewrite pretty_N_go_0 in Hlen.
    pose proof (pretty_N_go_length y t ltac:(lia)). lia.
  - rewrite pretty_N_go_0 in Hlen.
    pose proof (pretty_N_go_length x s ltac:(lia)). lia.
  - rewrite (pretty_N_go_step x), (pretty_N_go_step y) in * by lia.
    rewrite IH; [|apply N.div_lt; lia|done|simpl; lia].
    simpl. rewrite digit_compare by (apply N.mod_lt; lia).
    pose proof (N.div_mod x 10 ltac:(lia)) as Ex.
    pose proof (N.div_mod y 10 ltac:(lia)) as Ey.
    pose proof (N.mod_lt x 10 ltac:(lia)).
    pose proof (N.mod_lt y 10 ltac:(lia)).
    clear IH Hlen.
    remember (x `div` 10)%N as qx eqn:Eqx. remember (x `mod` 10)%N as rx eqn:Erx.
    remember (y `div` 10)%N as qy eqn:Eqy. remember (y `mod` 10)%N as ry eqn:Ery.
    clear Eqx Erx Eqy Ery.
    destruct (N.compare_spec qx qy), (N.compare_spec rx ry),
      (N.compare_spec x y); try done; lia.
Qed.

Lemma toString_nonneg (n : Z) :
  0 ≤ n → JS.toString n = if decide (n = 0) then "0"
                          else pretty_N_go (Z.to_N n) "".
Proof.
  intros Hn. unfold JS.toString, pretty, pretty_Z.
  destruct n as [|p|p]; [done| |lia].
  unfold pretty, pretty_positive, pretty, pretty_N. by simpl.
Qed.

Lemma toString_compare (a b : Z) :
  0 ≤ a → 0 ≤ b →
  String.length (JS.toString a) = String.length (JS.toString b) →
  String.compare (JS.toString a) (JS.toString b) = (a ?= b).
Proof.
  assert (∀ y, 0 < y →
    String.length "0" = String.length (pretty_N_go (Z.to_N y) "") →
    String.compare "0" (pretty_N_go (Z.to_N y) "") = Lt) as Hzero.
  { intros y Hy Hlen.
    rewrite pretty_N_go_step in * by lia.
    destruct (decide (Z.to_N y `div` 10 = 0)%N) as [E|E].
    - rewrite E, pretty_N_go_0 in *. simpl.
      assert (Z.to_N y `mod` 10 = Z.to_N y)%N as ->.
      { rewrite (N.div_mod (Z.to_N y) 10) at 2 by lia. lia. }
      change "0"%char with (pretty_N_char 0).
      rewrite digit_compare; [|lia|].
      + destruct (N.compare_spec 0 (Z.to_N y)); [lia|done|lia].
      + apply N.div_small_iff in E; lia.
    - pose proof (pretty_N_go_length (Z.to_N y `div` 10)
        (String (pretty_N_char (Z.to_N y `mod` 10)) "")
        ltac:(by apply N.neq_0_lt_0)) as Hl.
      simpl in *. lia. }
  intros Ha Hb. rewrite !toString_nonneg by done.
  destruct (decide (a = 0)) as [->|Ea], (decide (b = 0)) as [->|Eb]; intros Hl.
  - done.
  - rewrite Hzero by (done || lia). symmetry. apply Z.compare_lt_iff. lia.
  - rewrite String.compare_antisym, Hzero by (done || lia). simpl.
    symmetry. apply Z.compare_gt_iff. lia.
  - rewrite pretty_N_go_compare by done. simpl.
    rewrite <-(Z2N.id a), <-(Z2N.id b) at 2 by lia.
    rewrite N2Z.inj_compare. by destruct (Z.to_N a ?= Z.to_N b)%N.
Qed.

End strings.

(** ** Date keys *)

Section date_keys.
Import ES.

Lemma formatDateString_eq (t : Z) :
  DateUtils.formatDateString t =
  JS.toString (YearFromDay (Day t)) +:+ "-"
  +:+ twoDigits (MonthFromDay (Day t) + 1) +:+ "-"
  +:+ twoDigits (DateFromDay (Day t)).
Proof.
  unfold DateUtils.formatDateString, JS.getFullYear, JS.getMonth, JS.getDate,
    YearFromTime, MonthFromTime, DateFromTime. cbv zeta.
  pose proof (MonthFromDay_range (Day t)). pose proof (DateFromDay_range (Day t)).
  by rewrite !padStart_two by lia.
Qed.

Lemma formatDate_eq (t : Z) :
  Streak.formatDate t = DateUtils.formatDateString t.
Proof. reflexivity. Qed.

Lemma twoDigits_inj a b :
  0 ≤ a < 100 → 0 ≤ b < 100 → twoDigits a = twoDigits b → a = b.
Proof.
  intros Ha Hb Heq. apply Z.compare_eq.
  rewrite <-twoDigits_compare by done. rewrite Heq.
  apply string_compare_refl.
Qed.

(** The key of a date determines its day number. *)
Lemma formatDateString_inj (t1 t2 : Z) :
  DateUtils.formatDateString t1 = DateUtils.formatDateString t2 →
  Day t1 = Day t2.
Proof.
  rewrite !formatDateString_eq. intros Heq.
  pose proof (MonthFromDay_range (Day t1)).
  pose proof (MonthFromDay_range (Day t2)).
  pose proof (DateFromDay_range (Day t1)).
  pose proof (DateFromDay_range (Day t2)).
  apply string_app_inj_suffix in Heq as [Hy Heq]; [|done].
  apply (inj JS.toString) in Hy.
  apply (inj (String.app "-")) in Heq.
  apply string_app_inj_suffix in Heq as [Hm Heq]; [|done].
  apply (inj (String.app "-")) in Heq.
  apply twoDigits_inj in Hm; [|lia..].
  apply twoDigits_inj in Heq; [|lia..].
  rewrite <-(MakeDay_roundtrip (Day t1)), <-(MakeDay_roundtrip (Day t2)).
  rewrite Hy, Heq. f_equal. lia.
Qed.

Lemma MonthStart_mono m1 m2 l :
  0 ≤ m1 → m1 ≤ m2 → m2 ≤ 12 → 0 ≤ l → MonthStart m1 l ≤ MonthStart m2 l.
Proof.
  intros H1 H2 H3 Hl.
  assert (m1 = 0 ∨ m1 = 1 ∨ m1 = 2 ∨ m1 = 3 ∨ m1 = 4 ∨ m1 = 5 ∨ m1 = 6
          ∨ m1 = 7 ∨ m1 = 8 ∨ m1 = 9 ∨ m1 = 10 ∨ m1 = 11 ∨ m1 = 12) as C1
    by lia.
  assert (m2 = 0 ∨ m2 = 1 ∨ m2 = 2 ∨ m2 = 3 ∨ m2 = 4 ∨ m2 = 5 ∨ m2 = 6
          ∨ m2 = 7 ∨ m2 = 8 ∨ m2 = 9 ∨ m2 = 10 ∨ m2 = 11 ∨ m2 = 12) as C2
    by lia.
  repeat (destruct C1 as [-> | C1]); repeat (destruct C2 as [-> | C2]);
    subst; simpl; lia.
Qed.

(** Year, month and date, compared in this order, compare as the days. *)
Lemma civil_compare (d1 d2 : Z) :
  match YearFromDay d1 ?= YearFromDay d2 with
  | Eq =>
    match MonthFromDay d1 ?= MonthFromDay d2 with
    | Eq => DateFromDay d1 ?= DateFromDay d2
    | c => c
    end
  | c => c
  end = (d1 ?= d2).
Proof.
  pose proof (YearFromDay_spec d1) as Y1. pose proof (YearFromDay_spec d2) as Y2.
  pose proof (MonthFromDay_spec d1) as M1.
  pose proof (MonthFromDay_spec d2) as M2.
  pose proof (MonthFromDay_range d1) as R1.
  pose proof (MonthFromDay_range d2) as R2.
  destruct (Z.compare_spec (YearFromDay d1) (YearFromDay d2)) as [Ey|Hy|Hy].
  - assert (InLeapYear d1 = InLeapYear d2) as El
      by (unfold InLeapYear; by rewrite Ey).
    assert (0 ≤ InLeapYear d2) as Hl
      by (destruct (InLeapYear_cases d2); lia).
    unfold DateFromDay, DayWithinYear in *. rewrite El, Ey in *.
    destruct (Z.compare_spec (MonthFromDay d1) (MonthFromDay d2))
      as [Em|Hm|Hm].
    + rewrite Em.
      destruct (Z.compare_spec d1 d2), (Z.compare_spec
        (d1 - DayFromYear (YearFromDay d2)
         - MonthStart (MonthFromDay d2) (InLeapYear d2) + 1)
        (d2 - DayFromYear (YearFromDay d2)
         - MonthStart (MonthFromDay d2) (InLeapYear d2) + 1)); try done; lia.
    + pose proof (MonthStart_mono (MonthFromDay d1 + 1) (MonthFromDay d2)
        (InLeapYear d2)).
      symmetry. apply Z.compare_lt_iff. lia.
    + pose proof (MonthStart_mono (MonthFromDay d2 + 1) (MonthFromDay d1)
        (InLeapYear d2)).
      symmetry. apply Z.compare_gt_iff. lia.
  - pose proof (DayFromYear_mono (YearFromDay d1 + 1) (YearFromDay d2)).
    symmetry. apply Z.compare_lt_iff. lia.
  - pose proof (DayFromYear_mono (YearFromDay d2 + 1) (YearFromDay d1)).
    symmetry. apply Z.compare_gt_iff. lia.
Qed.

End date_keys.

(** ** The order of date keys (C8) *)

Section key_order.
Import ES.

(** C8, amended: for two dates whose years are not negative and are written
    with the same number of digits (all of 1000 to 9999, say), the keys
    compare as strings the way the local calendar days compare. *)
Theorem formatDateString_order (t1 t2 : JS.Date) :
  0 ≤ JS.getFullYear t1 → 0 ≤ JS.getFullYear t2 →
  String.length (JS.toString (JS.getFullYear t1))
  = String.length (JS.toString (JS.getFullYear t2)) →
  String.compare (DateUtils.formatDateString t1)
                 (DateUtils.formatDateString t2)
  = (Day t1 ?= Day t2).
Proof.
  unfold JS.getFullYear, YearFromTime. intros H1 H2 Hlen.
  rewrite !formatDateString_eq, <-civil_compare.
  pose proof (MonthFromDay_range (Day t1)).
  pose proof (MonthFromDay_range (Day t2)).
  pose proof (DateFromDay_range (Day t1)).
  pose proof (DateFromDay_range (Day t2)).
  rewrite string_compare_app, toString_compare by done.
  destruct (YearFromDay (Day t1) ?= YearFromDay (Day t2)); [|done..].
  rewrite (string_compare_app "-" "-"), string_compare_refl by done.
  rewrite string_compare_app, twoDigits_compare by (done || lia).
  rewrite !(Z.add_comm _ 1), Z.add_compare_mono_l.
  destruct (MonthFromDay (Day t1) ?= MonthFromDay (Day t2)); [|done..].
  rewrite (string_compare_app "-" "-"), string_compare_refl by done.
  apply twoDigits_compare; lia.
Qed.

Lemma formatDateString_order_witness :
  String.compare (DateUtils.formatDateString 1737028800000)
                 (DateUtils.formatDateString 1735646400000)
  = (Day 1737028800000 ?= Day 1735646400000).
Proof. apply formatDateString_order; by vm_compute. Defined.

(** C8, as stated, fails between 31 December 999 and 1 January 1000, both in
    the common era: the year is written without padding, and "999-12-31"
    is above "1000-01-01". *)
Lemma formatDateString_order_counterexample :
  let t1 := -30610267200000 in
  let t2 := -30610180800000 in
  DateUtils.formatDateString t1 = "999-12-31"
  ∧ DateUtils.formatDateString t2 = "1000-01-01"
  ∧ 0 < JS.getFullYear t1 ∧ 0 < JS.getFullYear t2
  ∧ Day t1 < Day t2
  ∧ String.compare (DateUtils.formatDateString t1)
                   (DateUtils.formatDateString t2) = Gt.
Proof. by vm_compute. Qed.

End key_order.

(** ** The event store (C4, C5, C10) *)

Section store.
Import SlipStore.

Lemma filter_all {A} (P : A → Prop) `{∀ x, Decision (P x)} (l : list A) :
  Forall P l → filter P l = l.
Proof.
  induction 1 as [|x l Hx _ IH]; [done|].
  by rewrite filter_cons_True, IH.
Qed.

(** What [undoLastSlip] does when the guard and the window let it through. *)
Lemma undoLastSlip_armed now saveOk w lid t :
  lastSlipId (store w) = Some lid → lid ≠ "" →
  lastSlipTime (store w) = Some t → t ≠ 0 →
  now - t ≤ UNDO_WINDOW_MS →
  undoLastSlip now saveOk w =
  (true,
   {| store :=
        {| events := filter (λ event, Some (id event) ≠ Some lid)
                       (events (store w));
           isLoading := isLoading (store w);
           lastSlipId := None; lastSlipTime := None |};
      disk := (Storage.saveEvents saveOk
                 (filter (λ event, Some (id event) ≠ Some lid)
                    (events (store w))) (disk w)).2 |}).
Proof.
  intros Hid Hne Ht Hnz Hwin. unfold undoLastSlip. cbv zeta.
  rewrite Hid, Ht. simpl.
  destruct (String.eqb_spec lid "") as [|_]; [done|].
  destruct (Z.eqb_spec t 0) as [|_]; [done|]. simpl.
  destruct (Z.ltb_spec UNDO_WINDOW_MS (now - t)); [lia|done].
Qed.

(** C4, amended: addSlip, deleteSlip, undoLastSlip and clearAllEvents keep
    the UndoState invariant. loadEvents takes lastSlipId from the last loaded
    event and lastSlipTime from the separately stored value: after it the
    invariant holds exactly when the read failed, or when the loaded
    collection is non-empty just if a last slip time is stored. *)
Theorem undoInvariant_actions (w : World) :
  undoInvariant (store w) →
  (∀ now newId saveOk timeOk,
     undoInvariant (store (addSlip now newId saveOk timeOk w)))
  ∧ (∀ target saveOk, undoInvariant (store (deleteSlip target saveOk w)))
  ∧ (∀ now saveOk, undoInvariant (store (undoLastSlip now saveOk w).2))
  ∧ (∀ saveOk, undoInvariant (store (clearAllEvents saveOk w)))
  ∧ (undoInvariant (store (loadEvents w)) ↔
     match Storage.getEvents (disk w) with
     | None => True
     | Some evs => evs ≠ [] ↔ is_Some (Storage.getLastSlipTime (disk w))
     end).
Proof.
  intros Hinv. unfold undoInvariant in *.
  split; [|split; [|split; [|split]]].
  - intros now newId saveOk timeOk. unfold addSlip. cbv zeta.
    destruct (Storage.saveEvents _ _ _). simpl. split; intros _; by eexists.
  - intros target saveOk. apply Hinv.
  - intros now saveOk. unfold undoLastSlip. cbv zeta.
    destruct (_ || _); [apply Hinv|].
    destruct (_ <? _); [apply Hinv|]. simpl. split; by intros [? ?].
  - intros saveOk. simpl. split; by intros [? ?].
  - unfold loadEvents. cbv zeta.
    destruct (Storage.getEvents (disk w)) as [evs|]; simpl; [|done].
    destruct evs as [|e evs _] using rev_ind.
    + simpl. split.
      * intros [_ Hb]. split; [done|]. intros Hs. by destruct (Hb Hs).
      * intros [_ Hb]. split; [by intros [? ?]|]. intros Hs.
        by destruct (Hb Hs).
    + rewrite last_snoc. simpl.
      assert (evs ++ [e] ≠ []) as Hne by (by destruct evs).
      split; intros [Ha Hb]; (split; intros _; [|done || by eexists]).
      * apply Ha. by eexists.
      * by apply Ha.
Qed.

Lemma undoInvariant_actions_witness :
  undoInvariant (store (addSlip noon_2025_01_16 "m5z0k1abc" true true
                          freshWorld)).
Proof.
  apply (undoInvariant_actions freshWorld). unfold undoInvariant. simpl.
  split; intros [? ?]; discriminate.
Defined.

(** C4, as stated, fails for loadEvents: log a slip, delete it, load again.
    The stored collection is empty and the stored time is still there. *)
Lemma undoInvariant_loadEvents_counterexample :
  let w1 := addSlip noon_2025_01_16 "m5z0k1abc" true true freshWorld in
  let w2 := deleteSlip "m5z0k1abc" true w1 in
  let w3 := loadEvents w2 in
  reachable w3
  ∧ undoInvariant (store w2)
  ∧ lastSlipId (store w3) = None
  ∧ lastSlipTime (store w3) = Some noon_2025_01_16
  ∧ ¬ undoInvariant (store w3).
Proof.
  cbv zeta. split; [|split; [|split; [|split]]].
  - eapply reachable_step; [|apply step_loadEvents].
    eapply reachable_step; [|apply step_deleteSlip].
    eapply reachable_step; [|apply step_addSlip].
    apply reachable_start.
  - unfold undoInvariant. simpl. split; intros _; by eexists.
  - reflexivity.
  - reflexivity.
  - unfold undoInvariant. intros [_ Hb].
    destruct Hb as [? Hb]; [by eexists|]. vm_compute in Hb. discriminate.
Qed.

Lemma store_addSlip now newId saveOk timeOk w :
  store (addSlip now newId saveOk timeOk w) =
  {| events := events (store w)
               ++ [{| id := newId; timestamp := now; source := manual |}];
     isLoading := isLoading (store w);
     lastSlipId := Some newId; lastSlipTime := Some now |}.
Proof. unfold addSlip. by destruct saveOk. Qed.

Lemma filter_id_ne (lid : string) (evs : list SlipEvent) :
  filter (λ event, Some (id event) ≠ Some lid) evs
  = filter (λ event, id event ≠ lid) evs.
Proof. apply list_filter_iff. intros e. naive_solver. Qed.



(** An armed and live UndoState whose event is no longer in the collection:
    the undo succeeds without removing anything. *)
Lemma undoLastSlip_target_absent w now saveOk lid t :
  lastSlipId (store w) = Some lid → lid ≠ "" →
  lastSlipTime (store w) = Some t → t ≠ 0 →
  now - t ≤ UNDO_WINDOW_MS →
  (∀ e, e ∈ events (store w) → id e ≠ lid) →
  (undoLastSlip now saveOk w).1 = true
  ∧ events (store (undoLastSlip now saveOk w).2) = events (store w)
  ∧ lastSlipId (store (undoLastSlip now saveOk w).2) = None
  ∧ lastSlipTime (store (undoLastSlip now saveOk w).2) = None.
Proof.
  intros Hid Hne Ht Hnz Hwin Habsent.
  rewrite (undoLastSlip_armed now saveOk w lid t) by done. simpl.
  split; [done|]. split; [|done].
  rewrite filter_id_ne. apply filter_all, Forall_forall.
  intros e He. by apply Habsent.
Qed.

(** C10: the armed event was removed by deleteSlip; undoLastSlip inside the
    window returns true all the same, removes no event and clears
    lastSlipId and lastSlipTime. *)
Theorem undoLastSlip_after_deleteSlip w now saveOk saveOk' lid t :
  lastSlipId (store w) = Some lid → lid ≠ "" →
  lastSlipTime (store w) = Some t → t ≠ 0 →
  now - t ≤ UNDO_WINDOW_MS →
  let w1 := deleteSlip lid saveOk w in
  let r := undoLastSlip now saveOk' w1 in
  r.1 = true
  ∧ events (store r.2) = events (store w1)
  ∧ lastSlipId (store r.2) = None ∧ lastSlipTime (store r.2) = None.
Proof.
  intros Hid Hne Ht Hnz Hwin. cbv zeta.
  apply (undoLastSlip_target_absent _ now saveOk' lid t); try done.
  intros e He. simpl in He. by apply list_elem_of_filter in He as [? _].
Qed.

Lemma undoLastSlip_after_deleteSlip_witness :
  let w := addSlip noon_2025_01_16 "m5z0k1abc" true true freshWorld in
  let w1 := deleteSlip "m5z0k1abc" true w in
  let r := undoLastSlip (noon_2025_01_16 + 1000) true w1 in
  r.1 = true
  ∧ events (store r.2) = events (store w1)
  ∧ lastSlipId (store r.2) = None ∧ lastSlipTime (store r.2) = None.
Proof.
  apply (undoLastSlip_after_deleteSlip _ _ _ _ "m5z0k1abc" noon_2025_01_16);
    by vm_compute.
Defined.

(** A reload re-arms UndoState from storage: the id of the last stored
    event with the stored time of the last record. After a slip is logged
    and undone, a reload inside the window lets a second undo through, and
    it removes the event logged the day before. *)
Lemma undoLastSlip_after_reload :
  let w1 := addSlip (noon_2025_01_16 - 86400000) "m5xk3acc3" true true
              freshWorld in
  let w2 := addSlip noon_2025_01_16 "m5z0k1abc" true true w1 in
  let r1 := undoLastSlip (noon_2025_01_16 + 1000) true w2 in
  let w3 := loadEvents r1.2 in
  let r2 := undoLastSlip (noon_2025_01_16 + 2000) true w3 in
  r1.1 = true
  ∧ id <$> events (store r1.2) = ["m5xk3acc3"]
  ∧ lastSlipId (store w3) = Some "m5xk3acc3"
  ∧ lastSlipTime (store w3) = Some noon_2025_01_16
  ∧ r2.1 = true
  ∧ events (store r2.2) = [].
Proof. by vm_compute. Qed.

End store.

(** ** Counting into a dictionary *)

Section counting.
Context `{Countable K} {A : Type}.

Lemma increment_lookup (k k' : K) (o : gmap K Z) :
  Stats.increment k o !! k' =
  if decide (k = k') then Some (default 0 (o !! k') + 1) else o !! k'.
Proof.
  unfold Stats.increment. rewrite lookup_insert.
  destruct (decide (k = k')) as [->|]; done.
Qed.

Lemma fold_increment_lookup (f : A → K) (l : list A) (o : gmap K Z) (k : K) :
  fold_left (λ o x, Stats.increment (f x) o) l o !! k =
  match filter (λ x, f x = k) l with
  | [] => o !! k
  | hits => Some (default 0 (o !! k) + Z.of_nat (length hits))
  end.
Proof.
  revert o. induction l as [|x l IH]; intros o; simpl; [done|].
  rewrite IH, increment_lookup, filter_cons.
  destruct (decide (f x = k)) as [E|Hne].
  - destruct (filter _ l) as [|y hits]; simpl; f_equal; lia.
  - done.
Qed.

Lemma fold_increment_default (f : A → K) (l : list A) (o : gmap K Z) (k : K) :
  default 0 (fold_left (λ o x, Stats.increment (f x) o) l o !! k) =
  default 0 (o !! k) + Z.of_nat (length (filter (λ x, f x = k) l)).
Proof.
  rewrite fold_increment_lookup.
  destruct (filter _ l); simpl; lia.
Qed.

End counting.

(** ** The streak calculator (C2, C3) *)

Section streak.
Context `{Host}.
Import ES.

Lemma getDaysAgoDateString_eq now k :
  DateUtils.getDaysAgoDateString now k =
  DateUtils.formatDateString (LocalTime now - k * msPerDay).
Proof.
  unfold DateUtils.getDaysAgoDateString, JS.newDate. cbv zeta.
  replace (JS.getDate (LocalTime now) - k)
    with (JS.getDate (LocalTime now) + - k) by lia.
  rewrite setDate_shift. f_equal. lia.
Qed.

(** An event is filed under the key of a day exactly when it happened on
    that local day. *)
Lemma eventDate_key (e : SlipEvent) (t : Z) :
  DateUtils.getDateFromTimestamp (timestamp e) = DateUtils.formatDateString t
  ↔ Day (LocalTime (timestamp e)) = Day t.
Proof.
  unfold DateUtils.getDateFromTimestamp, JS.newDate. split.
  - apply formatDateString_inj.
  - intros E. by rewrite !formatDateString_eq, E.
Qed.

(** ... and under the key of the day [k] days ago exactly when it happened
    [k] local days before today. *)
Lemma eventDate_daysAgo (e : SlipEvent) now k :
  DateUtils.getDateFromTimestamp (timestamp e)
  = DateUtils.getDaysAgoDateString now k
  ↔ Day (LocalTime (timestamp e)) = localToday now - k.
Proof.
  rewrite getDaysAgoDateString_eq, eventDate_key. unfold localToday.
  replace (LocalTime now - k * msPerDay)
    with (LocalTime now + (- k) * msPerDay) by lia.
  rewrite Day_shift. lia.
Qed.

Lemma countSlipsPerDay_daysAgo events now k :
  default 0 (Streak.countSlipsPerDay events
               !! DateUtils.getDaysAgoDateString now k)
  = slipsOnLocalDay events (localToday now - k).
Proof.
  unfold Streak.countSlipsPerDay, slipsOnLocalDay.
  change (fold_left _ events ∅) with
    (fold_left (λ o x, Stats.increment
       (DateUtils.getDateFromTimestamp (timestamp x)) o) events ∅).
  rewrite fold_increment_default, lookup_empty. simpl.
  rewrite (list_filter_iff _
    (λ event, Day (LocalTime (timestamp event)) = localToday now - k));
    [done|].
  intros e. apply eventDate_daysAgo.
Qed.

End streak.

Section streak_walk.
Context `{Host}.
Import ES.

(** The walk with enough fuel: it returns; the days it counted are all
    within the limit; it stops on the first day over the limit, or after
    the day 365 days back. *)
Lemma currentStreakLoop_spec fuel now events limit cs da :
  0 ≤ da ≤ 365 → 366 - da ≤ Z.of_nat fuel →
  ∃ n,
    Streak.currentStreakLoop fuel now (Streak.countSlipsPerDay events) limit
      cs da = Some (cs + n)
    ∧ 0 ≤ n ≤ 366 - da
    ∧ (∀ k, da ≤ k < da + n →
         slipsOnLocalDay events (localToday now - k) ≤ limit)
    ∧ (n < 366 - da →
         limit < slipsOnLocalDay events (localToday now - (da + n))).
Proof.
  revert cs da. induction fuel as [|fuel IH]; intros cs da Hda Hfuel; [lia|].
  simpl. rewrite countSlipsPerDay_daysAgo.
  destruct (Z.leb_spec (slipsOnLocalDay events (localToday now - da)) limit)
    as [Hle|Hgt].
  - destruct (Z.ltb_spec 365 (da + 1)) as [Hend|Hmore].
    + exists 1. split; [done|]. split; [lia|]. split; [|lia].
      intros k Hk. by replace k with da by lia.
    + destruct (IH (cs + 1) (da + 1)) as (n & Hrun & Hn & Hall & Hstop);
        [lia..|].
      exists (n + 1). split; [rewrite Hrun; f_equal; lia|].
      split; [lia|]. split.
      * intros k Hk. destruct (decide (k = da)) as [->|]; [done|].
        apply Hall. lia.
      * intros Hlt. replace (da + (n + 1)) with (da + 1 + n) by lia.
        apply Hstop. lia.
  - exists 0. split; [f_equal; lia|]. split; [lia|]. split; [lia|].
    intros _. by rewrite Z.add_0_r.
Qed.

Lemma bestStreakLoop_returns fuel counts limit endDate checkDate b t :
  (1 ≤ fuel)%nat →
  (endDate - checkDate) / msPerDay + 2 ≤ Z.of_nat fuel →
  is_Some (Streak.bestStreakLoop fuel counts limit endDate checkDate b t).
Proof.
  revert checkDate b t.
  induction fuel as [|fuel IH]; intros checkDate b t H1 Hfuel; [lia|].
  simpl. destruct (Z.leb_spec checkDate endDate) as [Hle|Hgt]; [|by eexists].
  rewrite setDate_shift. apply IH.
  - assert (0 ≤ (endDate - checkDate) / msPerDay)
      by (apply Z.div_pos; [lia|done]). lia.
  - replace (endDate - (checkDate + 1 * msPerDay))
      with (endDate - checkDate + (-1) * msPerDay) by lia.
    rewrite Z.div_add by done. lia.
Qed.

(** With [enoughFuel], [useStreak] returns, and its current streak is what
    the walk from day 0 returns. *)
Lemma useStreak_returns fuel now events limit :
  (Streak.enoughFuel now events ≤ fuel)%nat →
  ∃ c b,
    Streak.currentStreakLoop fuel now (Streak.countSlipsPerDay events) limit
      0 0 = Some c
    ∧ Streak.useStreak fuel now events limit
      = Some {| current := c; best := b |}
    ∧ (Streak.sortedKeys (Streak.countSlipsPerDay events) = [] → b = c).
Proof.
  intros Hfuel. unfold Streak.enoughFuel in Hfuel.
  destruct (currentStreakLoop_spec fuel now events limit 0 0)
    as (c & Hrun & _); [lia..|].
  unfold Streak.useStreak. cbv zeta. rewrite Hrun. simpl.
  destruct (Streak.sortedKeys (Streak.countSlipsPerDay events))
    as [|firstDate rest]; [by eauto|].
  destruct (Streak.newDateOfKey firstDate) as [checkDate|];
    [|by eexists _, _].
  destruct (Streak.newDateOfKey (DateUtils.getTodayDateString now))
    as [endDate|]; [|by eexists _, _].
  destruct (bestStreakLoop_returns fuel (Streak.countSlipsPerDay events) limit
              endDate checkDate 0 0) as [b Hb]; [lia..|].
  rewrite Hb. simpl. by eexists _, _.
Qed.

End streak_walk.

Section streak_claims.
Import ES.

Lemma slipsOnLocalDay_none `{Host} events day :
  (∀ e, e ∈ events → Day (LocalTime (timestamp e)) ≠ day) →
  slipsOnLocalDay events day = 0.
Proof.
  intros Hnone. unfold slipsOnLocalDay.
  destruct (filter _ events) as [|e hits] eqn:E; [done|].
  assert (e ∈ filter (λ event, Day (LocalTime (timestamp event)) = day)
            events) as He by (rewrite E; left).
  apply list_elem_of_filter in He as [Hday He]. by destruct (Hnone e He).
Qed.

(** C2, amended: the walk looks at today and at most the 365 days before it,
    so the current streak is at most 366; with no event logged (and a limit
    that is not negative) it is 366, and best equals current. *)
Theorem useStreak_current_bound `{Host} fuel now events limit :
  (Streak.enoughFuel now events ≤ fuel)%nat →
  ∃ info,
    Streak.useStreak fuel now events limit = Some info
    ∧ 0 ≤ current info ≤ 366
    ∧ (events = [] →
       best info = current info ∧ (0 ≤ limit → current info = 366)).
Proof.
  intros Hfuel.
  destruct (useStreak_returns fuel now events limit Hfuel)
    as (c & b & Hrun & Huse & Hbest).
  destruct (currentStreakLoop_spec fuel now events limit 0 0)
    as (n & Hrun' & Hn & _ & Hstop);
    [lia|unfold Streak.enoughFuel in Hfuel; lia|].
  rewrite Hrun in Hrun'. injection Hrun' as ->.
  eexists. split; [exact Huse|]. simpl. split; [lia|].
  intros ->. split; [by apply Hbest|]. intros Hlimit.
  destruct (decide (n < 366 - 0)) as [Hlt|]; [|lia].
  apply Hstop in Hlt. rewrite slipsOnLocalDay_none in Hlt; [lia|].
  intros e He. by apply elem_of_nil in He.
Qed.

Lemma useStreak_current_bound_witness :
  ∃ info,
    Streak.useStreak (H := utcHost) 366 noon_2025_01_16 [] 3 = Some info
    ∧ 0 ≤ current info ≤ 366
    ∧ ([] = @nil SlipEvent →
       best info = current info ∧ (0 ≤ 3 → current info = 366)).
Proof.
  apply (useStreak_current_bound (H := utcHost) 366 noon_2025_01_16 [] 3).
  vm_compute. lia.
Defined.

(** C2, as stated, fails with no event at all: the walk counts today and the
    365 days before it, and returns 366. *)
Lemma useStreak_current_bound_counterexample :
  Streak.useStreak (H := utcHost) 366 noon_2025_01_16 [] 3
  = Some {| current := 366; best := 366 |}
  ∧ ¬ (366 ≤ 365).
Proof. split; [by vm_compute|lia]. Qed.




End streak_claims.

(** ** The range statistics (C1, C6, C7, C9) *)

Section best_and_worst.
Import Stats.





End best_and_worst.

Section daily_counts.
Context `{Host}.
Import ES Stats.

Lemma getLastNDays_reverse now n :
  reverse (DateUtils.getLastNDays now n)
  = DateUtils.getDaysAgoDateString now <$> seqZ 0 n.
Proof.
  unfold DateUtils.getLastNDays, DateUtils.getDaysAgoDateString. cbv zeta.
  rewrite fmap_reverse, reverse_involutive. reflexivity.
Qed.

Lemma elem_of_getLastNDays now n key :
  key ∈ DateUtils.getLastNDays now n
  ↔ ∃ k, 0 ≤ k < n ∧ key = DateUtils.getDaysAgoDateString now k.
Proof.
  rewrite <-elem_of_reverse, getLastNDays_reverse, list_elem_of_fmap.
  split.
  - intros (k & -> & Hk%elem_of_seqZ). exists k. split; [lia|done].
  - intros (k & Hk & ->). exists k. split; [done|].
    apply elem_of_seqZ. lia.
Qed.


Lemma zeroed_lookup (dates : list string) (o : gmap string Z) key :
  default 0 (o !! key) = 0 →
  default 0 (fold_left (λ (o : gmap string Z) d, <[d := 0]> o) dates o !! key)
  = 0.
Proof.
  revert o. induction dates as [|d dates IH]; intros o Ho; simpl; [done|].
  apply IH. rewrite lookup_insert. by destruct (decide (d = key)).
Qed.

(** The count kept for the day [k] days ago is the number of events of that
    local day. *)
Lemma countsByDate_daysAgo now events range k :
  0 ≤ k < range →
  default 0 (countsByDate now events range
               !! DateUtils.getDaysAgoDateString now k)
  = slipsOnLocalDay events (localToday now - k).
Proof.
  intros Hk. unfold countsByDate. cbv zeta.
  rewrite fold_increment_default, zeroed_lookup, Z.add_0_l by done.
  unfold slipsOnLocalDay. do 2 f_equal.
  unfold eventsInRange. cbv zeta. rewrite list_filter_filter.
  apply list_filter_iff. intros e.
  rewrite elem_of_list_to_set, elem_of_getLastNDays.
  unfold eventDate. rewrite eventDate_daysAgo. split; [by intros [? _]|].
  intros Hd. split; [done|]. exists k. split; [done|].
  by apply eventDate_daysAgo.
Qed.

(** The entry at position [j] of the daily breakdown is the day [j] days
    ago, with the number of events of that local day. *)
Lemma buildDailyCounts_lookup now events limit range (j : nat) d :
  buildDailyCounts now events limit range !! j = Some d →
  Z.of_nat j < range
  ∧ date d = DateUtils.getDaysAgoDateString now (Z.of_nat j)
  ∧ count d = slipsOnLocalDay events (localToday now - Z.of_nat j)
  ∧ isOverLimit d = (limit <? count d).
Proof.
  unfold buildDailyCounts. cbv zeta.
  rewrite getLastNDays_reverse, <-list_fmap_compose, list_lookup_fmap.
  intros Hj. apply fmap_Some in Hj as (k & Hk & ->).
  apply lookup_seqZ in Hk as [-> Hlt]. cbn [date count isOverLimit compose].
  rewrite countsByDate_daysAgo by lia. split; [lia|].
  split; [f_equal; lia|]. split; [f_equal; lia|done].
Qed.

Lemma length_buildDailyCounts now events limit range :
  length (buildDailyCounts now events limit range) = Z.to_nat range.
Proof.
  unfold buildDailyCounts. cbv zeta.
  by rewrite length_fmap, getLastNDays_reverse, length_fmap, length_seqZ.
Qed.

End daily_counts.

Section stats_fields.
Context `{Host}.
Import Stats.

Lemma useStats_fields now events limit range :
  let s := useStats now events limit range in
  let inRange := eventsInRange now events range in
  let daily := buildDailyCounts now events limit range in
  totalSlips s = Z.of_nat (length inRange)
  ∧ avgPerDay s
    = (if 0 <? range then JS.div (Z.of_nat (length inRange)) range
       else Some 0%Q)
  ∧ bestDay s = (bestAndWorst daily).1
  ∧ worstDay s = (bestAndWorst daily).2
  ∧ daysUnderLimitPercent s
    = (if 0 <? range
       then (λ q, q * inject_Z 100)%Q
              <$> JS.div (Z.of_nat (length
                    (filter (λ d, count d ≤ limit) daily))) range
       else Some 0%Q)
  ∧ dailyCounts s = daily.
Proof.
  cbv zeta. unfold useStats. by destruct (bestAndWorst _).
Qed.

Lemma useStats_patterns now events limit range :
  let s := useStats now events limit range in
  let inRange := eventsInRange now events range in
  let eligible :=
    (MIN_DAYS_FOR_PATTERNS
       <=? Z.of_nat (size (list_to_set (eventDate <$> inRange) : gset string)))
    && (3 <=? Z.of_nat (length inRange)) in
  peakHour s
  = (if eligible
     then if 2 <=? (maxEntry (entries (hourCounts inRange))).1
          then Some (DateUtils.formatHourRange
                       (maxEntry (entries (hourCounts inRange))).2)
          else None
     else None)
  ∧ peakDayOfWeek s
    = (if eligible
       then if 2 <=? (maxEntry (entries (dayOfWeekCounts inRange))).1
            then DateUtils.getDayName
                   (maxEntry (entries (dayOfWeekCounts inRange))).2
            else None
       else None).
Proof.
  cbv zeta. unfold useStats.
  destruct (bestAndWorst _), (maxEntry _), (maxEntry _). done.
Qed.

End stats_fields.

Section stats_claims.
Import ES Stats.



End stats_claims.

Section range_zero.
Context `{Host}.
Import Stats.

Lemma eventsInRange_zero now events : eventsInRange now events 0 = [].
Proof.
  unfold eventsInRange. cbv zeta.
  change (DateUtils.getLastNDays now 0) with (@nil string).
  induction events as [|e events IH]; [done|].
  rewrite filter_cons_False; [done|]. simpl. apply not_elem_of_empty.
Qed.

(** C9: over a range of 0 days every statistic is the zero or null one; and
    for no range at all is a quotient taken with divisor 0. *)
Theorem useStats_range_zero now events limit :
  (let s := useStats now events limit 0 in
   totalSlips s = 0
   ∧ avgPerDay s = Some 0%Q
   ∧ daysUnderLimitPercent s = Some 0%Q
   ∧ dailyCounts s = []
   ∧ bestDay s = None ∧ worstDay s = None
   ∧ peakHour s = None ∧ peakDayOfWeek s = None)
  ∧ (∀ range,
       is_Some (avgPerDay (useStats now events limit range))
       ∧ is_Some (daysUnderLimitPercent (useStats now events limit range))).
Proof.
  split.
  - cbv zeta.
    destruct (useStats_fields now events limit 0)
      as (-> & -> & -> & -> & -> & ->).
    destruct (useStats_patterns now events limit 0) as (-> & ->).
    rewrite eventsInRange_zero. done.
  - intros range.
    destruct (useStats_fields now events limit range)
      as (_ & -> & _ & _ & -> & _).
    destruct (Z.ltb_spec 0 range) as [Hpos|_]; [|by split; eexists].
    unfold JS.div. destruct (Z.eqb_spec range 0) as [|_]; [lia|].
    by split; eexists.
Qed.

End range_zero.

Section single_day.
Import ES Stats.

Lemma filter_ext_in {A} (P Q : A → Prop) `{∀ x, Decision (P x)}
    `{∀ x, Decision (Q x)} (l : list A) :
  (∀ x, x ∈ l → P x ↔ Q x) → filter P l = filter Q l.
Proof.
  induction l as [|x l IH]; intros Hext; [done|].
  rewrite !filter_cons, IH by (intros y Hy; apply Hext; by right).
  destruct (decide (P x)) as [HP|HP], (decide (Q x)) as [HQ|HQ]; try done.
  - destruct HQ. apply Hext; [left|done].
  - destruct HP. apply Hext; [left|done].
Qed.


Lemma buildDailyCounts_counts `{Host} now events limit range :
  count <$> buildDailyCounts now events limit range
  = (λ k, slipsOnLocalDay events (localToday now - k)) <$> seqZ 0 range.
Proof.
  apply list_eq. intros j. rewrite !list_lookup_fmap.
  destruct (buildDailyCounts now events limit range !! j) as [d|] eqn:Hd.
  - destruct (buildDailyCounts_lookup _ _ _ _ _ _ Hd) as (Hj & _ & Hc & _).
    simpl. rewrite (lookup_seqZ_lt _ _ j) by lia. simpl. by rewrite Hc.
  - apply lookup_ge_None in Hd. rewrite length_buildDailyCounts in Hd.
    simpl. rewrite lookup_seqZ_ge; [done|lia].
Qed.



End single_day.

(** ** Pattern detection (C6) *)

Section buckets.
Import Stats.

#[local] Instance keyLe_trans : Transitive keyLe.
Proof. intros a b c. unfold keyLe. lia. Qed.

#[local] Instance keyLe_total : Total keyLe.
Proof. intros a b. unfold keyLe. lia. Qed.

Lemma elem_of_entries (o : gmap Z Z) k c :
  (k, c) ∈ entries o ↔ o !! k = Some c.
Proof.
  unfold entries. rewrite merge_sort_Permutation.
  apply elem_of_map_to_list.
Qed.

Lemma entries_sorted (o : gmap Z Z) : StronglySorted keyLe (entries o).
Proof. apply StronglySorted_merge_sort; apply _. Qed.

Lemma maxEntry_snoc l k c :
  maxEntry (l ++ [(k, c)]) =
  if (maxEntry l).1 <? c then (c, k) else maxEntry l.
Proof.
  unfold maxEntry. rewrite fold_left_app. simpl.
  by destruct (fold_left _ l (0, 0)).
Qed.

(** Over entries in ascending order of the key, all with a positive count,
    the [forEach] ends on the largest count and, among the keys that reach
    it, the lowest one. *)
Lemma maxEntry_spec (l : list (Z * Z)) :
  StronglySorted keyLe l →
  (∀ k c, (k, c) ∈ l → 0 < c) →
  (l = [] → maxEntry l = (0, 0))
  ∧ (l ≠ [] →
     ((maxEntry l).2, (maxEntry l).1) ∈ l
     ∧ ∀ k c, (k, c) ∈ l →
         c ≤ (maxEntry l).1 ∧ (c = (maxEntry l).1 → (maxEntry l).2 ≤ k)).
Proof.
  induction l as [|[k c] l IH] using rev_ind; intros Hsorted Hpos; [done|].
  split; [by destruct l|]. intros _.
  assert (0 < c) as Hc by (apply (Hpos k); apply elem_of_app; right; left).
  pose proof (StronglySorted_app_1_l _ _ _ Hsorted) as Hs.
  assert (∀ k' c', (k', c') ∈ l → 0 < c') as Hpos'
    by (intros k' c' Hin; apply (Hpos k'); apply elem_of_app; by left).
  destruct (IH Hs Hpos') as [IHnil IHcons].
  rewrite maxEntry_snoc.
  destruct (Z.ltb_spec (maxEntry l).1 c) as [Hlt|Hge]; simpl.
  - split; [apply elem_of_app; right; left|].
    intros k' c' [Hin| Heq%list_elem_of_singleton]%elem_of_app.
    + destruct (decide (l = [])) as [->|Hne]; [by apply elem_of_nil in Hin|].
      destruct (IHcons Hne) as [_ Hmax]. destruct (Hmax k' c' Hin). lia.
    + injection Heq as -> ->. lia.
  - destruct (decide (l = [])) as [->|Hne];
      [rewrite IHnil in Hge by done; simpl in Hge; lia|].
    destruct (IHcons Hne) as [Hin Hmax]. split; [apply elem_of_app; by left|].
    intros k' c' [Hin'| Heq%list_elem_of_singleton]%elem_of_app.
    + by apply Hmax.
    + injection Heq as -> ->. split; [lia|]. intros _.
      apply (StronglySorted_app_1_elem_of _ _ _
               ((maxEntry l).2, (maxEntry l).1) (k, c) Hsorted Hin).
      left.
Qed.

End buckets.

Section patterns.
Import ES Stats.




End patterns.

(** ** The statistics of [threeDayEvents] *)

Section examples.
Import Stats.

#[local] Existing Instance utcHost.



Lemma useStats_range_zero_witness :
  let s := useStats (H := utcHost) noon_2025_01_16 threeDayEvents 3 0 in
  totalSlips s = 0 ∧ avgPerDay s = Some 0%Q ∧ dailyCounts s = []
  ∧ hasAnyData s = true.
Proof.
  cbv zeta.
  destruct (useStats_range_zero (H := utcHost) noon_2025_01_16
              threeDayEvents 3) as [(Ht & Ha & _ & Hd & _) _].
  split; [exact Ht|]. split; [exact Ha|]. split; [exact Hd|].
  vm_compute. reflexivity.
Defined.

End examples.

(** ** The date queries and the selector hooks *)

Section date_queries.
Context `{Host}.
Import ES.

Lemma formatDateString_dayKey (t : Z) :
  DateUtils.formatDateString t = dayKey (Day t).
Proof.
  unfold dayKey. rewrite !formatDateString_eq.
  replace (Day (MakeDate (Day t) 0)) with (Day t); [done|].
  unfold MakeDate, Day, msPerDay. rewrite Z.add_0_r.
  by rewrite Z.div_mul.
Qed.

Lemma dayKey_inj d1 d2 : dayKey d1 = dayKey d2 → d1 = d2.
Proof.
  unfold dayKey. intros E%formatDateString_inj.
  unfold MakeDate, Day, msPerDay in E. rewrite !Z.add_0_r in E.
  by rewrite !Z.div_mul in E.
Qed.

Lemma getDaysAgoDateString_dayKey now k :
  DateUtils.getDaysAgoDateString now k = dayKey (localToday now - k).
Proof.
  rewrite getDaysAgoDateString_eq, formatDateString_dayKey.
  unfold localToday. f_equal.
  replace (LocalTime now - k * msPerDay) with (LocalTime now + (- k) * msPerDay)
    by lia.
  rewrite Day_shift. lia.
Qed.

Lemma getLastNDays_dayKey now n :
  DateUtils.getLastNDays now n
  = (λ k, dayKey (localToday now - k)) <$> reverse (seqZ 0 n).
Proof.
  rewrite <- (reverse_involutive (DateUtils.getLastNDays now n)).
  rewrite getLastNDays_reverse, fmap_reverse. f_equal.
  apply list_fmap_ext. intros i k _. apply getDaysAgoDateString_dayKey.
Qed.

(** X1: [getLastNDays(n)] lists the keys of the [n] consecutive local
    calendar days that end today, oldest first: it has [n] entries, no two
    of them equal, the entry at index [i] is the key of the day [n - 1 - i]
    days before today, and the last one is today's key. *)
Theorem getLastNDays_calendar now n :
  length (DateUtils.getLastNDays now n) = Z.to_nat n
  ∧ NoDup (DateUtils.getLastNDays now n)
  ∧ (∀ i : nat, Z.of_nat i < n →
       DateUtils.getLastNDays now n !! i
       = Some (dayKey (localToday now - (n - 1 - Z.of_nat i))))
  ∧ (0 < n →
       last (DateUtils.getLastNDays now n)
       = Some (DateUtils.getTodayDateString now)).
Proof.
  rewrite getLastNDays_dayKey.
  assert (Hlook : ∀ i : nat, Z.of_nat i < n →
    ((λ k, dayKey (localToday now - k)) <$> reverse (seqZ 0 n)) !! i
    = Some (dayKey (localToday now - (n - 1 - Z.of_nat i)))).
  { intros i Hi. rewrite list_lookup_fmap, reverse_lookup
      by (rewrite length_seqZ; lia).
    rewrite length_seqZ.
    rewrite lookup_seqZ_lt by lia. simpl. do 2 f_equal. lia. }
  split; [by rewrite length_fmap, length_reverse, length_seqZ|].
  split.
  { apply NoDup_fmap_2; [|rewrite reverse_Permutation; apply NoDup_seqZ].
    intros a b E%dayKey_inj. lia. }
  split; [done|].
  intros Hn. rewrite last_lookup, length_fmap, length_reverse, length_seqZ.
  rewrite Hlook by lia.
  unfold DateUtils.getTodayDateString, JS.newDate.
  rewrite formatDateString_dayKey. unfold localToday. do 2 f_equal. lia.
Qed.

(** X2: [isWithinLastNDays] holds of an instant's date key exactly when
    its local day is one of the [n] days that end today; [isToday] holds
    exactly when it is today's local day, and is the case [n = 1]. *)
Theorem isWithinLastNDays_window now ts n :
  (DateQueries.isWithinLastNDays now (DateUtils.getDateFromTimestamp ts) n
   = true
   ↔ localToday now - n < Day (LocalTime ts) ≤ localToday now)
  ∧ (DateQueries.isToday now ts = true
     ↔ Day (LocalTime ts) = localToday now)
  ∧ DateQueries.isToday now ts
    = DateQueries.isWithinLastNDays now (DateUtils.getDateFromTimestamp ts) 1.
Proof.
  assert (Hw : ∀ m,
    DateQueries.isWithinLastNDays now (DateUtils.getDateFromTimestamp ts) m
    = true
    ↔ localToday now - m < Day (LocalTime ts) ≤ localToday now).
  { intros m. unfold DateQueries.isWithinLastNDays. cbv zeta.
    rewrite bool_decide_eq_true, elem_of_getLastNDays.
    unfold DateUtils.getDateFromTimestamp, JS.newDate.
    split.
    - intros (k & Hk & E). rewrite getDaysAgoDateString_dayKey in E.
      rewrite formatDateString_dayKey in E. apply dayKey_inj in E. lia.
    - intros Hd. exists (localToday now - Day (LocalTime ts)). split; [lia|].
      rewrite getDaysAgoDateString_dayKey, formatDateString_dayKey.
      f_equal. lia. }
  assert (Ht : DateQueries.isToday now ts = true
               ↔ Day (LocalTime ts) = localToday now).
  { unfold DateQueries.isToday, DateUtils.getTodayDateString, JS.newDate.
    cbv zeta. rewrite String.eqb_eq, !formatDateString_dayKey.
    unfold localToday. split; [apply dayKey_inj | congruence]. }
  split; [apply Hw|]. split; [apply Ht|].
  apply eq_true_iff_eq. rewrite Ht, Hw. lia.
Qed.

End date_queries.

(** ** Date keys read back *)

Section key_round_trip.
Import ES.

Lemma digitValue_pretty_N_char (q : Z) :
  0 ≤ q < 10 → JS.digitValue (pretty_N_char (Z.to_N q)) = Some q.
Proof.
  intros Hq.
  assert (Hall : forallb (λ k, bool_decide
            (JS.digitValue (pretty_N_char (Z.to_N k)) = Some k))
            (seqZ 0 10) = true) by (vm_compute; reflexivity).
  pose proof (forallb_seqZ _ _ Hall q Hq) as Hk. cbv beta in Hk. clear Hall.
  by apply bool_decide_eq_true in Hk.
Qed.

Lemma toString_four_digits (y : Z) :
  1000 ≤ y ≤ 9999 →
  ∃ a b c d,
    JS.toString y = String a (String b (String c (String d "")))
    ∧ ∃ a' b' c' d',
        JS.digitValue a = Some a' ∧ JS.digitValue b = Some b'
        ∧ JS.digitValue c = Some c' ∧ JS.digitValue d = Some d'
        ∧ 1000 * a' + 100 * b' + 10 * c' + d' = y.
Proof.
  intros Hy.
  assert (Hall : forallb (λ k,
            match JS.toString (1000 + k) with
            | String a (String b (String c (String d EmptyString))) =>
              match JS.digitValue a, JS.digitValue b, JS.digitValue c,
                    JS.digitValue d with
              | Some a', Some b', Some c', Some d' =>
                1000 * a' + 100 * b' + 10 * c' + d' =? 1000 + k
              | _, _, _, _ => false
              end
            | _ => false
            end) (seqZ 0 9000) = true) by (vm_compute; reflexivity).
  pose proof (forallb_seqZ _ _ Hall (y - 1000) ltac:(lia)) as Hk.
  cbv beta in Hk. clear Hall. replace (1000 + (y - 1000)) with y in Hk by lia.
  destruct (JS.toString y) as [|a [|b [|c [|d [|? ?]]]]]; try done.
  exists a, b, c, d. split; [done|].
  destruct (JS.digitValue a) as [a'|]; [|done].
  destruct (JS.digitValue b) as [b'|]; [|done].
  destruct (JS.digitValue c) as [c'|]; [|done].
  destruct (JS.digitValue d) as [d'|]; [|done].
  exists a', b', c', d'. repeat split; lia.
Qed.

Lemma parseDateKey_key (t : JS.Date) :
  1000 ≤ YearFromDay (Day t) ≤ 9999 →
  String.length (DateUtils.formatDateString t) = 10%nat
  ∧ JS.parseDateKey (DateUtils.formatDateString t) = Some (Day t).
Proof.
  intros Hy.
  rewrite formatDateString_eq.
  destruct (toString_four_digits _ Hy)
    as (a & b & c & d & -> & a' & b' & c' & d' & Ha & Hb & Hc & Hd & Hsum).
  pose proof (MonthFromDay_range (Day t)) as Hm.
  pose proof (DateFromDay_range (Day t)) as Hd'.
  set (m := MonthFromDay (Day t) + 1) in *.
  set (dd := DateFromDay (Day t)) in *.
  assert (Hmm : MonthFromDay (Day t) = m - 1) by (subst m; lia).
  assert (Edd : dd = DateFromDay (Day t)) by done.
  clearbody m dd.
  unfold twoDigits. split; [reflexivity|].
  cbv [String.app]. unfold JS.parseDateKey.
  rewrite Ha, Hb, Hc, Hd.
  rewrite !digitValue_pretty_N_char by (Z.div_mod_to_equations; lia).
  cbn [mbind option_bind].
  replace (10 * (m `div` 10) + m `mod` 10) with m
    by (Z.div_mod_to_equations; lia).
  replace (10 * (dd `div` 10) + dd `mod` 10) with dd
    by (Z.div_mod_to_equations; lia).
  rewrite Hsum.
  replace ((1 <=? m) && (m <=? 12) && (1 <=? dd) && (dd <=? 31)) with true
    by (symmetry; rewrite !andb_true_iff, !Z.leb_le; lia).
  f_equal. rewrite <- Hmm, Edd. apply MakeDay_roundtrip.
Qed.

(** X3: for a date whose year has four digits, the key written by
    [formatDateString] has ten characters and reads back as the same day:
    parsing it as a date-only string gives the day number of the date, and
    the [new Date(key)] of the streak scan is midnight UTC of that day. *)
Theorem parseDateKey_formatDateString `{Host} (t : JS.Date) :
  1000 ≤ JS.getFullYear t ≤ 9999 →
  String.length (DateUtils.formatDateString t) = 10%nat
  ∧ JS.parseDateKey (DateUtils.formatDateString t) = Some (Day t)
  ∧ Streak.newDateOfKey (DateUtils.formatDateString t)
    = Some (LocalTime (Day t * msPerDay)).
Proof.
  intros Hy. destruct (parseDateKey_key t Hy) as [Hl Hp].
  split; [done|]. split; [done|].
  unfold Streak.newDateOfKey. rewrite Hp. simpl.
  unfold JS.newDate, MakeDate. by rewrite Z.add_0_r.
Qed.

Lemma parseDateKey_formatDateString_witness :
  String.length (DateUtils.formatDateString noon_2025_01_16) = 10%nat
  ∧ JS.parseDateKey (DateUtils.formatDateString noon_2025_01_16)
    = Some (Day noon_2025_01_16)
  ∧ Streak.newDateOfKey (H := utcHost)
      (DateUtils.formatDateString noon_2025_01_16)
    = Some (Day noon_2025_01_16 * msPerDay).
Proof.
  apply (parseDateKey_formatDateString (H := utcHost) noon_2025_01_16).
  vm_compute. split; discriminate.
Defined.

End key_round_trip.
Section display.
Context `{Host}.
Import ES.

Lemma formatDateString_eqb (t1 t2 : Z) :
  String.eqb (DateUtils.formatDateString t1) (DateUtils.formatDateString t2)
  = bool_decide (Day t1 = Day t2).
Proof.
  apply eq_true_iff_eq. rewrite String.eqb_eq, bool_decide_eq_true.
  split; [apply formatDateString_inj|].
  intros E. by rewrite !formatDateString_dayKey, E.
Qed.

Lemma setDate_yesterday (t : Z) :
  JS.setDate t (JS.getDate t - 1) = t + (-1) * msPerDay.
Proof.
  replace (JS.getDate t - 1) with (JS.getDate t + (-1)) by lia.
  apply setDate_shift.
Qed.

(** X4: the title that [formatDateForDisplay] gives to the key of a date
    is "Today" on today's local day, "Yesterday" on the day before, and
    otherwise (for a year of four digits) the host's short form of local
    midnight of that day. *)
Theorem formatDateForDisplay_titles now (t : JS.Date) :
  let key := DateUtils.formatDateString t in
  (Day t = localToday now →
     DateUtils.formatDateForDisplay now key = "Today")
  ∧ (Day t = localToday now - 1 →
     DateUtils.formatDateForDisplay now key = "Yesterday")
  ∧ (Day t ≠ localToday now → Day t ≠ localToday now - 1 →
     1000 ≤ JS.getFullYear t ≤ 9999 →
     DateUtils.formatDateForDisplay now key
     = toLocaleDateString (MakeDate (Day t) 0)).
Proof.
  unfold DateUtils.formatDateForDisplay, DateUtils.getTodayDateString,
    JS.newDate, localToday. cbv zeta.
  rewrite setDate_yesterday, !formatDateString_eqb, Day_shift.
  split; [|split].
  - intros E. by rewrite bool_decide_true.
  - intros E. rewrite bool_decide_false by lia. by rewrite bool_decide_true by lia.
  - intros E1 E2 Hy. rewrite !bool_decide_false by lia.
    by destruct (parseDateKey_key t Hy) as [_ ->].
Qed.

End display.

Lemma formatDateForDisplay_titles_witness :
  DateUtils.formatDateForDisplay (H := utcHost) noon_2025_01_16
    (DateUtils.formatDateString noon_2025_01_16) = "Today"
  ∧ DateUtils.formatDateForDisplay (H := utcHost) noon_2025_01_16
      (DateUtils.formatDateString (noon_2025_01_16 - 86400000)) = "Yesterday"
  ∧ DateUtils.formatDateForDisplay (H := utcHost) noon_2025_01_16
      (DateUtils.formatDateString (noon_2025_01_16 - 3 * 86400000))
    = "2025-01-13".
Proof.
  split; [|split].
  - apply (formatDateForDisplay_titles (H := utcHost) noon_2025_01_16
             noon_2025_01_16). reflexivity.
  - apply (formatDateForDisplay_titles (H := utcHost) noon_2025_01_16
             (noon_2025_01_16 - 86400000)). reflexivity.
  - etransitivity;
      [apply (formatDateForDisplay_titles (H := utcHost) noon_2025_01_16
                (noon_2025_01_16 - 3 * 86400000));
       [by vm_compute | by vm_compute | by vm_compute]|].
    by vm_compute.
Defined.

(** ** The labels of the patterns *)

Section labels.
Context `{Host}.
Import ES.

(** X5: the hour of an instant is one of 0 to 23 and its day of the week
    one of 0 to 6, so [getDayName] always has a name for it; distinct hours
    get distinct range labels and distinct days distinct names, so that a
    label on the screen identifies its hour or day. *)
Theorem pattern_labels (ts : Z) :
  0 ≤ DateUtils.getHourFromTimestamp ts ≤ 23
  ∧ 0 ≤ DateUtils.getDayOfWeekFromTimestamp ts ≤ 6
  ∧ is_Some (DateUtils.getDayName (DateUtils.getDayOfWeekFromTimestamp ts))
  ∧ (∀ ts',
       DateUtils.formatHourRange (DateUtils.getHourFromTimestamp ts)
       = DateUtils.formatHourRange (DateUtils.getHourFromTimestamp ts') →
       DateUtils.getHourFromTimestamp ts = DateUtils.getHourFromTimestamp ts')
  ∧ (∀ ts',
       DateUtils.getDayName (DateUtils.getDayOfWeekFromTimestamp ts)
       = DateUtils.getDayName (DateUtils.getDayOfWeekFromTimestamp ts') →
       DateUtils.getDayOfWeekFromTimestamp ts
       = DateUtils.getDayOfWeekFromTimestamp ts').
Proof.
  assert (Hh : ∀ x, 0 ≤ DateUtils.getHourFromTimestamp x ≤ 23).
  { intros x. unfold DateUtils.getHourFromTimestamp, JS.getHours, HourFromTime.
    pose proof (Z.mod_pos_bound (JS.newDate x `div` msPerHour) 24). lia. }
  assert (Hd : ∀ x, 0 ≤ DateUtils.getDayOfWeekFromTimestamp x ≤ 6).
  { intros x. unfold DateUtils.getDayOfWeekFromTimestamp, JS.getDay, WeekDay.
    pose proof (Z.mod_pos_bound (Day (JS.newDate x) + 4) 7). lia. }
  assert (Hhours : forallb (λ a, forallb (λ b,
            implb (String.eqb (DateUtils.formatHourRange a)
                              (DateUtils.formatHourRange b)) (a =? b))
            (seqZ 0 24)) (seqZ 0 24) = true) by (vm_compute; reflexivity).
  assert (Hdays : forallb (λ a, forallb (λ b,
            implb (bool_decide (DateUtils.getDayName a = DateUtils.getDayName b))
                  (a =? b))
            (seqZ 0 7)) (seqZ 0 7) = true) by (vm_compute; reflexivity).
  assert (Hnames : forallb (λ a, bool_decide (is_Some (DateUtils.getDayName a)))
            (seqZ 0 7) = true) by (vm_compute; reflexivity).
  split; [apply Hh|]. split; [apply Hd|]. split; [|split].
  - assert (Hr : 0 ≤ DateUtils.getDayOfWeekFromTimestamp ts < 7)
      by (pose proof (Hd ts); lia).
    pose proof (forallb_seqZ _ _ Hnames _ Hr) as Hn.
    cbv beta in Hn. by apply bool_decide_eq_true in Hn.
  - intros ts' E.
    assert (Hr : 0 ≤ DateUtils.getHourFromTimestamp ts < 24)
      by (pose proof (Hh ts); lia).
    assert (Hr' : 0 ≤ DateUtils.getHourFromTimestamp ts' < 24)
      by (pose proof (Hh ts'); lia).
    pose proof (forallb_seqZ _ _ Hhours _ Hr) as H1. cbv beta in H1.
    pose proof (forallb_seqZ _ _ H1 _ Hr') as H2. cbv beta in H2.
    clear Hhours Hdays Hnames H1.
    rewrite E, String.eqb_refl in H2. simpl in H2. lia.
  - intros ts' E.
    assert (Hr : 0 ≤ DateUtils.getDayOfWeekFromTimestamp ts < 7)
      by (pose proof (Hd ts); lia).
    assert (Hr' : 0 ≤ DateUtils.getDayOfWeekFromTimestamp ts' < 7)
      by (pose proof (Hd ts'); lia).
    pose proof (forallb_seqZ _ _ Hdays _ Hr) as H1. cbv beta in H1.
    pose proof (forallb_seqZ _ _ H1 _ Hr') as H2. cbv beta in H2.
    clear Hhours Hdays Hnames H1.
    rewrite bool_decide_true in H2 by done. simpl in H2. lia.
Qed.

End labels.

(** ** The selector hooks of the store *)

Section selectors.
Context `{Host}.
Import ES SlipStore.

Lemma getDateFromTimestamp_today now ts :
  DateUtils.getDateFromTimestamp ts = DateUtils.getTodayDateString now
  ↔ Day (LocalTime ts) = localToday now.
Proof.
  unfold DateUtils.getDateFromTimestamp, DateUtils.getTodayDateString,
    JS.newDate, localToday.
  rewrite !formatDateString_dayKey. split; [apply dayKey_inj | congruence].
Qed.

Lemma fold_count {A} (p : A → bool) (l : list A) (n : Z) :
  fold_left (λ count x, if p x then count + 1 else count) l n
  = n + Z.of_nat (length (filter (λ x, p x = true) l)).
Proof.
  revert n. induction l as [|x l IH]; intros n; simpl; [lia|].
  rewrite IH, filter_cons. destruct (p x) eqn:E.
  - rewrite decide_True by done. simpl. lia.
  - rewrite decide_False by congruence. lia.
Qed.

Lemma useTodayEvents_local now s :
  Selectors.useTodayEvents now s
  = filter (λ event, Day (LocalTime (timestamp event)) = localToday now)
      (events s).
Proof.
  unfold Selectors.useTodayEvents. cbv zeta. apply filter_ext_in.
  intros e _. apply getDateFromTimestamp_today.
Qed.

Lemma useTodayCount_local now s :
  Selectors.useTodayCount now s = slipsOnLocalDay (events s) (localToday now).
Proof.
  unfold Selectors.useTodayCount, slipsOnLocalDay. cbv zeta.
  rewrite fold_count, Z.add_0_l. do 2 f_equal. apply filter_ext_in.
  intros e _. rewrite String.eqb_eq. apply getDateFromTimestamp_today.
Qed.

(** X6: the count of the home screen is the number of today's events: the
    loop of [useTodayCount] gives the length of the list that
    [useTodayEvents] filters out, an event is in that list exactly when
    [isToday] holds of its timestamp, and both count the events whose local
    day is today's. *)
Theorem useTodayCount_useTodayEvents now s :
  Selectors.useTodayCount now s
  = Z.of_nat (length (Selectors.useTodayEvents now s))
  ∧ Selectors.useTodayCount now s
    = slipsOnLocalDay (events s) (localToday now)
  ∧ ∀ e, e ∈ Selectors.useTodayEvents now s
         ↔ e ∈ events s ∧ DateQueries.isToday now (timestamp e) = true.
Proof.
  split; [|split].
  - rewrite useTodayCount_local, useTodayEvents_local. done.
  - apply useTodayCount_local.
  - intros e. rewrite useTodayEvents_local, list_elem_of_filter.
    unfold DateQueries.isToday. cbv zeta. rewrite String.eqb_eq.
    fold (DateUtils.getDateFromTimestamp (timestamp e)).
    rewrite getDateFromTimestamp_today. tauto.
Qed.

End selectors.

(** ** The selector hooks over the store's actions *)

Section selectors_store.
Context `{Host}.
Import ES SlipStore.

Lemma slipsOnLocalDay_app evs evs' day :
  slipsOnLocalDay (evs ++ evs') day
  = slipsOnLocalDay evs day + slipsOnLocalDay evs' day.
Proof.
  unfold slipsOnLocalDay. rewrite filter_app, length_app. lia.
Qed.

(** X7: logging a slip raises the count of the day it is logged on by
    exactly one and leaves the count of every other day as it was; undoing
    it inside the window (the identifier being a new one) brings every
    day's count back. *)
Theorem addSlip_useTodayCount now newId saveOk timeOk w :
  let w1 := addSlip now newId saveOk timeOk w in
  Selectors.useTodayCount now (store w1)
  = Selectors.useTodayCount now (store w) + 1
  ∧ (∀ now', localToday now' ≠ localToday now →
       Selectors.useTodayCount now' (store w1)
       = Selectors.useTodayCount now' (store w))
  ∧ (∀ now' saveOk' at_,
       newId ≠ "" → now ≠ 0 →
       (∀ e, e ∈ events (store w) → id e ≠ newId) →
       now' - now ≤ UNDO_WINDOW_MS →
       Selectors.useTodayCount at_ (store (undoLastSlip now' saveOk' w1).2)
       = Selectors.useTodayCount at_ (store w)).
Proof.
  cbv zeta. rewrite !useTodayCount_local, store_addSlip. simpl.
  rewrite slipsOnLocalDay_app.
  split; [|split].
  - unfold slipsOnLocalDay at 2. rewrite filter_cons. simpl.
    rewrite decide_True by done. simpl. lia.
  - intros now' Hne. rewrite !useTodayCount_local. simpl.
    rewrite slipsOnLocalDay_app.
    unfold slipsOnLocalDay at 2. rewrite filter_cons. simpl.
    rewrite decide_False by (unfold localToday in *; congruence).
    simpl. lia.
  - intros now' saveOk' at_ Hid Hnow Hfresh Hwin.
    rewrite !useTodayCount_local.
    rewrite (undoLastSlip_armed now' saveOk' _ newId now)
      by (rewrite ?store_addSlip; done).
    simpl. rewrite filter_id_ne, store_addSlip. simpl.
    rewrite filter_app, filter_cons. simpl.
    rewrite decide_False by (intros E; by apply E).
    rewrite filter_nil, app_nil_r.
    rewrite filter_all; [done|].
    apply Forall_forall. intros e He. by apply Hfresh.
Qed.

Lemma useEventsByDate_snoc (evs : list SlipEvent) e isL lid lt :
  Selectors.useEventsByDate
    {| events := evs ++ [e]; isLoading := isL; lastSlipId := lid;
       lastSlipTime := lt |}
  = let grouped := Selectors.useEventsByDate
        {| events := evs; isLoading := isL; lastSlipId := lid;
           lastSlipTime := lt |} in
    let date := DateUtils.getDateFromTimestamp (timestamp e) in
    <[date := default [] (grouped !! date) ++ [e]]> grouped.
Proof.
  unfold Selectors.useEventsByDate. simpl. rewrite fold_left_app. simpl.
  set (g := fold_left _ evs ∅).
  set (date := DateUtils.getDateFromTimestamp (timestamp e)).
  destruct (g !! date) eqn:E.
  - by rewrite E.
  - rewrite lookup_insert_eq. simpl. by rewrite insert_insert_eq.
Qed.

(** X8: [useEventsByDate] files every event under the key of its local
    date and nowhere else: the entry of a key is the list of the events
    with that date, in the order of the store, and a key without events has
    no entry, so that no group is empty. Today's entry is the list of
    [useTodayEvents]. *)
Theorem useEventsByDate_lookup s key :
  Selectors.useEventsByDate s !! key
  = (let group :=
       filter (λ e, DateUtils.getDateFromTimestamp (timestamp e) = key)
         (events s) in
     if decide (group = []) then None else Some group)
  ∧ ∀ now,
      default [] (Selectors.useEventsByDate s
                    !! DateUtils.getTodayDateString now)
      = Selectors.useTodayEvents now s.
Proof.
  assert (Hl : ∀ key, Selectors.useEventsByDate s !! key
    = (let group :=
         filter (λ e, DateUtils.getDateFromTimestamp (timestamp e) = key)
           (events s) in
       if decide (group = []) then None else Some group)).
  { clear key. intros key. destruct s as [evs isL lid lt]. simpl.
    induction evs as [|e evs IH] using rev_ind; [done|].
    rewrite useEventsByDate_snoc. cbv zeta in *.
    rewrite filter_app, filter_cons, filter_nil.
    destruct (decide (DateUtils.getDateFromTimestamp (timestamp e) = key))
      as [->|Hne].
    - rewrite lookup_insert_eq, IH.
      destruct (decide (_ ++ [e] = [])) as [[_ ?]%app_eq_nil|_]; [done|].
      f_equal. case_decide as E; [by rewrite E | done].
    - rewrite lookup_insert_ne by done. rewrite IH, app_nil_r. done. }
  split; [apply Hl|].
  intros now. rewrite Hl. unfold Selectors.useTodayEvents. cbv zeta.
  by destruct (decide _) as [->|].
Qed.

End selectors_store.

Section selectors_examples.
Import ES SlipStore.

Lemma addSlip_useTodayCount_witness :
  let w1 := addSlip noon_2025_01_16 "m5z0k1abc" true true freshWorld in
  Selectors.useTodayCount (H := utcHost) noon_2025_01_16 (store w1) = 1
  ∧ Selectors.useTodayCount (H := utcHost) (noon_2025_01_16 + 86400000)
      (store w1) = 0
  ∧ Selectors.useTodayCount (H := utcHost) noon_2025_01_16
      (store (undoLastSlip (noon_2025_01_16 + 1000) true w1).2) = 0.
Proof.
  destruct (addSlip_useTodayCount (H := utcHost) noon_2025_01_16 "m5z0k1abc"
              true true freshWorld) as (H1 & H2 & H3).
  split; [exact H1|]. split.
  - apply (H2 (noon_2025_01_16 + 86400000)). by vm_compute.
  - apply (H3 (noon_2025_01_16 + 1000) true noon_2025_01_16).
    + discriminate.
    + discriminate.
    + intros e He. simpl in He. inversion He.
    + by vm_compute.
Defined.

End selectors_examples.

(** ** The streak, the home screen and the statistics on today *)

Section streak_run.
Context `{Host}.
Import ES.

Lemma useStreak_best_max fuel now events limit :
  (Streak.enoughFuel now events ≤ fuel)%nat →
  ∃ c r,
    Streak.currentStreakLoop fuel now (Streak.countSlipsPerDay events) limit
      0 0 = Some c
    ∧ Streak.useStreak fuel now events limit
      = Some {| current := c; best := Z.max r c |}.
Proof.
  intros Hfuel. unfold Streak.enoughFuel in Hfuel.
  destruct (currentStreakLoop_spec fuel now events limit 0 0)
    as (c & Hrun & _); [lia..|].
  unfold Streak.useStreak. cbv zeta. rewrite Hrun. simpl.
  destruct (Streak.sortedKeys (Streak.countSlipsPerDay events))
    as [|firstDate rest].
  { exists c, c. by rewrite Z.max_id. }
  destruct (Streak.newDateOfKey firstDate) as [checkDate|];
    [|by eexists _, _].
  destruct (Streak.newDateOfKey (DateUtils.getTodayDateString now))
    as [endDate|]; [|by eexists _, _].
  destruct (bestStreakLoop_returns fuel (Streak.countSlipsPerDay events) limit
              endDate checkDate 0 0) as [b Hb]; [lia..|].
  rewrite Hb. simpl. by eexists _, _.
Qed.

Lemma useStreak_run fuel now events limit :
  (Streak.enoughFuel now events ≤ fuel)%nat →
  ∃ info,
    Streak.useStreak fuel now events limit = Some info
    ∧ 0 ≤ current info ≤ 366
    ∧ (∀ k, 0 ≤ k < current info →
         slipsOnLocalDay events (localToday now - k) ≤ limit)
    ∧ (current info < 366 →
         limit < slipsOnLocalDay events (localToday now - current info))
    ∧ current info ≤ best info.
Proof.
  intros Hfuel.
  destruct (useStreak_best_max fuel now events limit Hfuel)
    as (c & r & Hc & Hs).
  unfold Streak.enoughFuel in Hfuel.
  destruct (currentStreakLoop_spec fuel now events limit 0 0)
    as (n & Hrun & Hn & Hall & Hstop); [lia..|].
  rewrite Hrun in Hc. injection Hc as <-.
  eexists. split; [exact Hs|]. simpl.
  split; [lia|]. split; [|split].
  - intros k Hk. apply Hall. lia.
  - intros Hlt. rewrite Z.add_0_l in *. apply Hstop. lia.
  - lia.
Qed.

(** X9: the current streak is the run of days within the limit that ends
    today: each of the last [current] local days has no more slips than the
    limit, and unless the walk stopped at its bound of 366 days the day
    before the run has more; the best streak is never below the current
    one. *)
Theorem useStreak_current_run fuel now events limit :
  (Streak.enoughFuel now events ≤ fuel)%nat →
  ∃ info,
    Streak.useStreak fuel now events limit = Some info
    ∧ (∀ k, 0 ≤ k < current info →
         slipsOnLocalDay events (localToday now - k) ≤ limit)
    ∧ (current info < 366 →
         limit < slipsOnLocalDay events (localToday now - current info))
    ∧ current info ≤ best info.
Proof.
  intros Hfuel.
  destruct (useStreak_run fuel now events limit Hfuel)
    as (info & Hs & _ & Hall & Hstop & Hbest).
  by exists info.
Qed.


End streak_run.

Lemma useStreak_current_run_witness :
  ∃ info,
    Streak.useStreak (H := utcHost) 366 noon_2025_01_16 threeDayEvents 1
    = Some info
    ∧ (∀ k, 0 ≤ k < current info →
         slipsOnLocalDay (H := utcHost) threeDayEvents
           (localToday (H := utcHost) noon_2025_01_16 - k) ≤ 1)
    ∧ (current info < 366 →
         1 < slipsOnLocalDay (H := utcHost) threeDayEvents
               (localToday (H := utcHost) noon_2025_01_16 - current info))
    ∧ current info ≤ best info.
Proof.
  apply (useStreak_current_run (H := utcHost) 366 noon_2025_01_16
           threeDayEvents 1).
  by vm_compute.
Defined.


(** ** The totals of the statistics *)

Section sums.

Lemma sumZ_app (l1 l2 : list Z) : sumZ (l1 ++ l2) = sumZ l1 + sumZ l2.
Proof. induction l1 as [|x l1 IH]; simpl; [done|]. rewrite IH. lia. Qed.


Lemma length_filter_split {A} (P Q : A → Prop) `{∀ x, Decision (P x)}
    `{∀ x, Decision (Q x)} (l : list A) :
  (∀ x, x ∈ l → ¬ (P x ∧ Q x)) →
  length (filter (λ x, P x ∨ Q x) l)
  = (length (filter P l) + length (filter Q l))%nat.
Proof.
  induction l as [|x l IH]; intros Hd; [done|].
  rewrite !filter_cons.
  specialize (IH (λ y Hy, Hd y ltac:(by right))).
  pose proof (Hd x ltac:(left)) as Hx.
  destruct (decide (P x)), (decide (Q x)); simpl.
  - tauto.
  - rewrite decide_True by tauto. simpl. lia.
  - rewrite decide_True by tauto. simpl. lia.
  - rewrite decide_False by tauto. lia.
Qed.

Lemma filter_none {A} (P : A → Prop) `{∀ x, Decision (P x)} (l : list A) :
  (∀ x, x ∈ l → ¬ P x) → filter P l = [].
Proof.
  induction l as [|x l IH]; intros Hl; [done|].
  rewrite filter_cons, decide_False by (apply Hl; left).
  apply IH. intros y Hy. apply Hl. by right.
Qed.

End sums.

Section totals.
Context `{Host}.
Import ES Stats.

Lemma eventsInRange_window now events range :
  eventsInRange now events range
  = filter (λ e, localToday now - range < localDay e ≤ localToday now) events.
Proof.
  unfold eventsInRange. cbv zeta. apply filter_ext_in. intros e _.
  rewrite elem_of_list_to_set, elem_of_getLastNDays. unfold eventDate, localDay.
  split.
  - intros (k & Hk & E). apply eventDate_daysAgo in E. lia.
  - intros Hw. exists (localToday now - Day (LocalTime (timestamp e))).
    split; [lia|]. apply eventDate_daysAgo. lia.
Qed.

Lemma window_sum (events : list SlipEvent) (today : Z) (n : nat) :
  Z.of_nat (length
    (filter (λ e, today - Z.of_nat n < localDay e ≤ today) events))
  = sumZ ((λ k, slipsOnLocalDay events (today - k)) <$> seqZ 0 (Z.of_nat n)).
Proof.
  induction n as [|n IH].
  { simpl. rewrite filter_none; [done|]. intros; lia. }
  rewrite Nat2Z.inj_succ, <- Z.add_1_r, seqZ_app, fmap_app, sumZ_app by lia.
  rewrite <- IH. change (seqZ (0 + Z.of_nat n) 1) with [0 + Z.of_nat n].
  simpl. rewrite Z.add_0_r. unfold slipsOnLocalDay.
  rewrite <- Nat2Z.inj_add. f_equal.
  rewrite <- length_filter_split by (intros; unfold localDay; lia).
  f_equal. apply filter_ext_in. intros e _. unfold localDay. lia.
Qed.

Lemma totalSlips_window_sum now events limit range :
  totalSlips (useStats now events limit range)
  = sumZ ((λ k, slipsOnLocalDay events (localToday now - k))
            <$> seqZ 0 range).
Proof.
  destruct (useStats_fields now events limit range) as (-> & _).
  rewrite eventsInRange_window.
  destruct (Z.le_gt_cases range 0) as [Hneg|Hpos].
  - rewrite seqZ_nil by done. simpl.
    rewrite filter_none; [done|]. intros; lia.
  - rewrite <- (Z2Nat.id range) by lia. apply window_sum.
Qed.

(** X11: the total on the summary card is the sum of the list under it:
    [dailyCounts] has one entry for each day of the range, [totalSlips] is
    the sum of their counts, and it is the number of events whose local day
    is one of the [range] days that end today. *)
Theorem totalSlips_sum_of_dailyCounts now events limit range :
  let s := useStats now events limit range in
  length (dailyCounts s) = Z.to_nat range
  ∧ totalSlips s = sumZ (count <$> dailyCounts s)
  ∧ totalSlips s
    = Z.of_nat (length
        (filter (λ e, localToday now - range < localDay e ≤ localToday now)
           events)).
Proof.
  cbv zeta.
  destruct (useStats_fields now events limit range)
    as (Ht & _ & _ & _ & _ & Hd).
  cbv zeta in Ht, Hd. rewrite Hd.
  split; [apply length_buildDailyCounts|]. split.
  - rewrite buildDailyCounts_counts. apply totalSlips_window_sum.
  - by rewrite Ht, eventsInRange_window.
Qed.

End totals.
Section rates.
Context `{Host}.
Import ES Stats.







End rates.



(** ** When a pattern is shown *)

Section tally_max.
Import Stats.

Lemma maxEntry_tally_max {A} (f : A → Z) (l : list A) :
  let tally := fold_left (λ o x, increment (f x) o) l ∅ in
  let n := λ k, Z.of_nat (length (filter (λ x, f x = k) l)) in
  (∀ k, n k ≤ (maxEntry (entries tally)).1)
  ∧ (l ≠ [] →
     n (maxEntry (entries tally)).2 = (maxEntry (entries tally)).1
     ∧ 1 ≤ (maxEntry (entries tally)).1
     ∧ ∀ k, n k = (maxEntry (entries tally)).1 →
            (maxEntry (entries tally)).2 ≤ k).
Proof.
  cbv zeta. set (tally := fold_left _ l ∅).
  assert (∀ k c, tally !! k = Some c ↔
            c = Z.of_nat (length (filter (λ x, f x = k) l)) ∧ 0 < c)
    as Hlookup.
  { intros k c. unfold tally. rewrite fold_increment_lookup, lookup_empty.
    destruct (filter _ l) as [|x hits].
    - split; [done|]. intros [-> Hpos]. simpl in Hpos. lia.
    - cbn [default]. rewrite Z.add_0_l. split.
      + intros [= <-]. split; [done|]. cbn [length]. lia.
      + by intros [-> _]. }
  destruct (maxEntry_spec (entries tally) (entries_sorted tally))
    as [Hnil Hcons].
  { intros k c Hin%elem_of_entries%Hlookup. lia. }
  assert (Hne : l ≠ [] → entries tally ≠ []).
  { destruct l as [|x l']; [done|]. intros _ E.
    assert (Hx : (f x, Z.of_nat (length (filter (λ y, f y = f x) (x :: l'))))
                 ∈ entries tally).
    { apply elem_of_entries, Hlookup. split; [done|].
      rewrite filter_cons, decide_True by done. simpl. lia. }
    rewrite E in Hx. by apply elem_of_nil in Hx. }
  split.
  - intros k.
    destruct (decide (0 < Z.of_nat (length (filter (λ x, f x = k) l))))
      as [Hpos|Hzero].
    + assert (Hin : (k, Z.of_nat (length (filter (λ x, f x = k) l)))
                    ∈ entries tally) by by apply elem_of_entries, Hlookup.
      assert (Hent : entries tally ≠ [])
        by (intros E; rewrite E in Hin; by apply elem_of_nil in Hin).
      destruct (Hcons Hent) as [_ Hmax]. by apply Hmax in Hin as [? _].
    + destruct (decide (entries tally = [])) as [E|Hent].
      * rewrite (Hnil E). simpl. lia.
      * destruct (Hcons Hent) as [Hin _].
        apply elem_of_entries, Hlookup in Hin. lia.
  - intros Hl. destruct (Hcons (Hne Hl)) as [Hin Hmax].
    pose proof Hin as Hin'.
    apply elem_of_entries, Hlookup in Hin' as [Hn Hpos].
    split; [done|]. split; [lia|].
    intros k Hk.
    assert (Hink : (k, Z.of_nat (length (filter (λ x, f x = k) l)))
                   ∈ entries tally).
    { apply elem_of_entries, Hlookup. split; [done|]. lia. }
    apply Hmax in Hink as [_ Hfirst]. by apply Hfirst.
Qed.

End tally_max.

Section insight.
Context `{Host}.
Import ES Stats.

(** X14: the home screen's insight is shown exactly when there are at
    least three events and some hour of the day has two of them; the hour
    it names is then the earliest of the hours with the most events. *)
Theorem quickInsight_shown events :
  (is_Some (QuickInsight.insight events)
   ↔ (3 ≤ length events)%nat ∧ ∃ hour, 2 ≤ slipsAtHour events hour)
  ∧ ∀ i, QuickInsight.insight events = Some i →
      QuickInsight.formatted i
      = DateUtils.formatHourRange (QuickInsight.hour i)
      ∧ 2 ≤ slipsAtHour events (QuickInsight.hour i)
      ∧ ∀ hour', slipsAtHour events hour'
                 ≤ slipsAtHour events (QuickInsight.hour i)
                 ∧ (slipsAtHour events hour'
                    = slipsAtHour events (QuickInsight.hour i) →
                    QuickInsight.hour i ≤ hour').
Proof.
  unfold QuickInsight.insight, hourCounts, slipsAtHour.
  destruct (maxEntry_tally_max
    (λ e, DateUtils.getHourFromTimestamp (timestamp e)) events)
    as [Hmax Hfirst].
  cbv zeta in Hmax, Hfirst.
  destruct (maxEntry _) as [maxCount maxHour] eqn:E. simpl in Hmax, Hfirst.
  destruct (Z.ltb_spec (Z.of_nat (length events)) 3) as [Hfew|Hmany].
  { split; [|done]. split; [by intros [? ?]|]. intros [? _]. lia. }
  assert (Hne : events ≠ []) by (intros ->; simpl in Hmany; lia).
  destruct (Hfirst Hne) as (Hn & _ & Hearliest).
  destruct (Z.ltb_spec maxCount 2) as [Hone|Htwo].
  { split; [|done]. split; [by intros [? ?]|].
    intros [_ [hour Hh]]. specialize (Hmax hour). lia. }
  split.
  - split; [|by eexists]. intros _. split; [lia|]. exists maxHour. lia.
  - intros i [= <-]. simpl. split; [done|]. split; [lia|].
    intros hour'. split; [specialize (Hmax hour'); lia|].
    intros Heq. apply Hearliest. lia.
Qed.

End insight.
Section patterns_shown.
Context `{Host}.
Import ES Stats.






End patterns_shown.

(** ** The store and the storage behind it *)

Section persistence.
Import SlipStore.

Lemma restart_saved (w : World) (evs : list SlipEvent) :
  Storage.eventsItem (disk w) = Storage.JsonEvents evs →
  events (store (restart w)) = evs.
Proof.
  intros E. unfold restart, loadEvents, Storage.getEvents. simpl.
  by rewrite E.
Qed.

(** X16: what the store shows survives a restart when the write goes
    through. After [addSlip], [deleteSlip], [clearAllEvents], or an
    [undoLastSlip] that returns true, each with a successful write, a
    process started again over the same storage loads exactly the events
    that the store held; after such an [addSlip] whose second write also
    succeeds it loads the time of that slip too. *)
Theorem events_survive_restart (w : World) :
  (∀ now newId timeOk,
     events (store (restart (addSlip now newId true timeOk w)))
     = events (store (addSlip now newId true timeOk w)))
  ∧ (∀ now newId,
       lastSlipTime (store (restart (addSlip now newId true true w)))
       = Some now)
  ∧ (∀ target,
       events (store (restart (deleteSlip target true w)))
       = events (store (deleteSlip target true w)))
  ∧ (∀ now,
       (undoLastSlip now true w).1 = true →
       events (store (restart (undoLastSlip now true w).2))
       = events (store (undoLastSlip now true w).2))
  ∧ events (store (restart (clearAllEvents true w))) = [].
Proof.
  split; [|split; [|split; [|split]]].
  - intros now newId timeOk. apply restart_saved.
    unfold addSlip. simpl. by destruct timeOk.
  - intros now newId. reflexivity.
  - intros target. by apply restart_saved.
  - intros now Hok. apply restart_saved.
    unfold undoLastSlip in *.
    destruct (falsyId _ || falsyTime _); [done|].
    destruct (UNDO_WINDOW_MS <? _); [done|]. done.
  - by apply restart_saved.
Qed.

Lemma events_survive_restart_witness :
  let w := addSlip noon_2025_01_16 "m5z0k1abc" true true freshWorld in
  (undoLastSlip (noon_2025_01_16 + 1000) true w).1 = true
  ∧ events (store (restart (undoLastSlip (noon_2025_01_16 + 1000) true w).2))
    = events (store (undoLastSlip (noon_2025_01_16 + 1000) true w).2).
Proof.
  split; [reflexivity|].
  apply (events_survive_restart
           (addSlip noon_2025_01_16 "m5z0k1abc" true true freshWorld)).
Defined.

(** X17: a failed write leaves the storage as it was, while the store
    goes ahead: after any action whose write fails the storage is
    unchanged, so a restart loads what it would have loaded before the
    action; a slip logged that way is on the screen and gone after the
    restart, and its time is not written either, even if that write would
    have succeeded. *)
Theorem failed_write_keeps_storage (w : World) :
  (∀ now newId timeOk, disk (addSlip now newId false timeOk w) = disk w)
  ∧ (∀ target, disk (deleteSlip target false w) = disk w)
  ∧ (∀ now, disk (undoLastSlip now false w).2 = disk w)
  ∧ disk (clearAllEvents false w) = disk w
  ∧ (∀ now newId timeOk,
       let w1 := addSlip now newId false timeOk w in
       {| id := newId; timestamp := now; source := manual |}
         ∈ events (store w1)
       ∧ restart w1 = restart w).
Proof.
  split; [|split; [|split; [|split]]].
  - done.
  - done.
  - intros now. unfold undoLastSlip.
    destruct (falsyId _ || falsyTime _); [done|].
    by destruct (UNDO_WINDOW_MS <? _).
  - done.
  - intros now newId timeOk. cbv zeta. split; [|done].
    rewrite store_addSlip. simpl. apply elem_of_app. right. left.
Qed.

End persistence.

Section identifiers.
Import SlipStore.





End identifiers.

(** ** The undo button *)

Section undo_button.
Import SlipStore.

Lemma ceilDiv_bounds (r : Z) :
  (UndoButton.ceilDiv r 1000 - 1) * 1000 < r
  ≤ UndoButton.ceilDiv r 1000 * 1000.
Proof. unfold UndoButton.ceilDiv. Z.div_mod_to_equations. lia. Qed.

(** X19: the button and the store agree on the window, except at its last
    instant. When a run of the timer leaves the button visible, an
    [undoLastSlip] at the same clock reading succeeds, and the seconds
    shown are the time left rounded up: at least 1, and at most 300 when
    the clock has not gone back behind the slip. A store without an armed
    slip never shows the button. At exactly five minutes the button is
    gone although [undoLastSlip] would still succeed. *)
Theorem undo_button_window (now : Z) (s : State) (l : UndoButton.Local) :
  let l' := UndoButton.tick now s l in
  (UndoButton.canUndo l' = true →
     ∃ lid t,
       lastSlipId s = Some lid ∧ lastSlipTime s = Some t
       ∧ now - t < UNDO_WINDOW_MS
       ∧ (UndoButton.remainingSeconds l' - 1) * 1000
         < UNDO_WINDOW_MS - (now - t)
         ≤ UndoButton.remainingSeconds l' * 1000
       ∧ 1 ≤ UndoButton.remainingSeconds l'
       ∧ (t ≤ now → UndoButton.remainingSeconds l' ≤ 300)
       ∧ ∀ saveOk d,
           (undoLastSlip now saveOk {| store := s; disk := d |}).1 = true)
  ∧ (lastSlipId s = None ∨ lastSlipTime s = None →
     UndoButton.canUndo l' = false)
  ∧ (∀ lid t, lastSlipId s = Some lid → lid ≠ "" →
       lastSlipTime s = Some t → t ≠ 0 →
       now = t + UNDO_WINDOW_MS →
       UndoButton.canUndo l' = false
       ∧ ∀ saveOk d,
           (undoLastSlip now saveOk {| store := s; disk := d |}).1 = true).
Proof.
  cbv zeta. unfold UndoButton.tick, UndoButton.updateTimer, undoLastSlip.
  simpl. split; [|split].
  - destruct (lastSlipId s) as [lid|]; [|done].
    destruct (lastSlipTime s) as [t|]; [|by rewrite orb_true_r].
    destruct (falsyId (Some lid) || falsyTime (Some t)); [done|].
    change (default 0 (Some t)) with t. cbv zeta.
    destruct (Z.leb_spec (UNDO_WINDOW_MS - (now - t)) 0) as [|Hpos];
      [by simpl|].
    intros _. exists lid, t. split; [done|]. split; [done|]. simpl.
    pose proof (ceilDiv_bounds (UNDO_WINDOW_MS - (now - t))) as Hc.
    unfold UNDO_WINDOW_MS in *.
    split; [lia|]. split; [lia|]. split; [lia|]. split; [lia|].
    intros saveOk d.
    by replace (5 * 60 * 1000 <? now - t) with false
      by (symmetry; apply Z.ltb_ge; lia).
  - intros [->| ->]; [done|]. by rewrite orb_true_r.
  - intros lid t -> Hlid -> Ht ->. simpl.
    replace (lid =? "")%string with false
      by (symmetry; by apply String.eqb_neq).
    replace (t =? 0) with false by (symmetry; by apply Z.eqb_neq).
    simpl.
    replace (UNDO_WINDOW_MS - (t + UNDO_WINDOW_MS - t) <=? 0) with true
      by (symmetry; apply Z.leb_le; lia).
    split; [done|]. intros saveOk d.
    by replace (UNDO_WINDOW_MS <? t + UNDO_WINDOW_MS - t) with false
      by (symmetry; apply Z.ltb_ge; lia).
Qed.

Lemma undo_button_window_witness :
  let s := store (addSlip noon_2025_01_16 "m5z0k1abc" true true freshWorld) in
  let l' := UndoButton.tick (noon_2025_01_16 + 61500) s
              UndoButton.initialLocal in
  UndoButton.label l' = Some "(3:59)"
  ∧ ∃ lid t,
      lastSlipId s = Some lid ∧ lastSlipTime s = Some t
      ∧ noon_2025_01_16 + 61500 - t < UNDO_WINDOW_MS
      ∧ (UndoButton.remainingSeconds l' - 1) * 1000
        < UNDO_WINDOW_MS - (noon_2025_01_16 + 61500 - t)
        ≤ UndoButton.remainingSeconds l' * 1000
      ∧ 1 ≤ UndoButton.remainingSeconds l'
      ∧ (t ≤ noon_2025_01_16 + 61500 → UndoButton.remainingSeconds l' ≤ 300)
      ∧ ∀ saveOk d,
          (undoLastSlip (noon_2025_01_16 + 61500) saveOk
             {| store := s; disk := d |}).1 = true.
Proof.
  split; [by vm_compute|].
  apply (undo_button_window (noon_2025_01_16 + 61500)
           (store (addSlip noon_2025_01_16 "m5z0k1abc" true true freshWorld))
           UndoButton.initialLocal).
  reflexivity.
Defined.

(** X20: over the seconds that the button can show, 0 to 300, the
    countdown text determines the number of seconds: no two of them are
    printed alike. *)
Theorem formatTime_distinct (a b : Z) :
  0 ≤ a ≤ 300 → 0 ≤ b ≤ 300 →
  UndoButton.formatTime a = UndoButton.formatTime b → a = b.
Proof.
  intros Ha Hb E.
  assert (Hall : forallb (λ x, forallb (λ y,
            implb (String.eqb (UndoButton.formatTime x)
                              (UndoButton.formatTime y)) (x =? y))
            (seqZ 0 301)) (seqZ 0 301) = true) by (vm_compute; reflexivity).
  assert (Ha' : 0 ≤ a < 301) by lia. assert (Hb' : 0 ≤ b < 301) by lia.
  pose proof (forallb_seqZ _ _ Hall _ Ha') as H1. cbv beta in H1. clear Hall.
  pose proof (forallb_seqZ _ _ H1 _ Hb') as H2. cbv beta in H2. clear H1.
  rewrite E, String.eqb_refl in H2. simpl in H2. lia.
Qed.

Lemma formatTime_distinct_witness :
  UndoButton.formatTime 239 = "3:59" ∧ UndoButton.formatTime 59 = "59s"
  ∧ (UndoButton.formatTime 60 = UndoButton.formatTime 60 → 60 = 60).
Proof.
  split; [by vm_compute|]. split; [by vm_compute|].
  apply (formatTime_distinct 60 60); lia.
Defined.

End undo_button.

(** ** The settings *)

Section settings.
Import Settings SettingsStore.

Example trim_white_space :
  trim (utf8 [32; 9; 114; 117; 110; 32; 120; 10; 194; 160]%nat) = "run x"
  ∧ nonBlank (utf8 [194; 160; 32; 227; 128; 128]%nat) = false
  ∧ nonBlank "run" = true.
Proof. by vm_compute. Qed.

Lemma spread_toJson (base s : UserSettings) : spread base (toJson s) = s.
Proof. by destruct s. Qed.

(** X21: the stepper keeps the daily limit between 1 and 99. From a limit
    in that range a press of either button leaves it in the range and
    changes nothing else in the settings; a press moves the limit by one
    exactly when the button is enabled, and a plus followed by a minus
    (or the reverse) brings the settings back. *)
Theorem limit_stepper_bounds (saveOk saveOk' : bool) (w : World) :
  LIMIT_MIN ≤ useDailyLimit (store w) ≤ LIMIT_MAX →
  let up := LimitSetting.handleIncrement saveOk w in
  let down := LimitSetting.handleDecrement saveOk w in
  LIMIT_MIN ≤ useDailyLimit (store up) ≤ LIMIT_MAX
  ∧ LIMIT_MIN ≤ useDailyLimit (store down) ≤ LIMIT_MAX
  ∧ useDailyLimit (store up)
    = (if LimitSetting.canIncrement (store w)
       then useDailyLimit (store w) + 1 else useDailyLimit (store w))
  ∧ useDailyLimit (store down)
    = (if LimitSetting.canDecrement (store w)
       then useDailyLimit (store w) - 1 else useDailyLimit (store w))
  ∧ (∀ w', w' = up ∨ w' = down →
       habitName (settings (store w')) = habitName (settings (store w))
       ∧ reminderEnabled (settings (store w'))
         = reminderEnabled (settings (store w))
       ∧ reminderItem (settings (store w'))
         = reminderItem (settings (store w)))
  ∧ (LimitSetting.canIncrement (store w) = true →
     settings (store (LimitSetting.handleDecrement saveOk' up))
     = settings (store w))
  ∧ (LimitSetting.canDecrement (store w) = true →
     settings (store (LimitSetting.handleIncrement saveOk' down))
     = settings (store w)).
Proof.
  unfold LimitSetting.handleIncrement, LimitSetting.handleDecrement,
    LimitSetting.canIncrement, LimitSetting.canDecrement, useDailyLimit,
    LIMIT_MIN, LIMIT_MAX.
  destruct w as [[[name limit enabled item] loading complete] d]. simpl.
  intros Hl.
  split; [destruct (Z.ltb_spec limit 99); simpl; lia|].
  split; [destruct (Z.ltb_spec 1 limit); simpl; lia|].
  split; [by destruct (limit <? 99)|].
  split; [by destruct (1 <? limit)|].
  split.
  { intros w' [->| ->]; [by destruct (limit <? 99) | by destruct (1 <? limit)]. }
  split.
  - intros Hc. rewrite Hc. simpl. apply Z.ltb_lt in Hc.
    replace (1 <? limit + 1) with true by (symmetry; apply Z.ltb_lt; lia).
    cbv -[Z.add Z.sub]. f_equal. lia.
  - intros Hc. rewrite Hc. simpl. apply Z.ltb_lt in Hc.
    replace (limit - 1 <? 99) with true by (symmetry; apply Z.ltb_lt; lia).
    cbv -[Z.add Z.sub]. f_equal. lia.
Qed.

Lemma limit_stepper_bounds_witness :
  let up := LimitSetting.handleIncrement true freshSettings in
  useDailyLimit (store up) = 4
  ∧ settings (store (LimitSetting.handleDecrement true up))
    = DEFAULT_SETTINGS.
Proof.
  destruct (limit_stepper_bounds true true freshSettings)
    as (_ & _ & Hup & _ & _ & Hback & _).
  - by vm_compute.
  - split; [exact Hup|]. by apply Hback.
Defined.

Lemma nonBlank_empty : nonBlank "" = false.
Proof. reflexivity. Qed.

(** X22: the settings survive a restart, and the setup flag follows the
    habit name. After an [updateSettings] or a [resetSettings] whose write
    goes through, a process started again over the same storage loads the
    same settings and the same flag; when the write fails the storage is
    as before. In every state that the actions can reach from the start
    the flag says whether the habit name has a character that is not white
    space. When the store holds what the storage holds, the storage
    service's own [updateSettings] writes and returns what the store's
    [updateSettings] does. *)
Theorem settings_survive_restart (w : World) :
  (∀ partial,
     let w1 := updateSettings partial true w in
     settings (store (restartSettings w1)) = settings (store w1)
     ∧ isSetupComplete (store (restartSettings w1))
       = isSetupComplete (store w1))
  ∧ (let w1 := resetSettings true w in
     settings (store (restartSettings w1)) = DEFAULT_SETTINGS
     ∧ isSetupComplete (store (restartSettings w1)) = false)
  ∧ (∀ partial, disk (updateSettings partial false w) = disk w)
  ∧ disk (resetSettings false w) = disk w
  ∧ (settingsReachable w →
     isSetupComplete (store w) = nonBlank (habitName (settings (store w))))
  ∧ (∀ partial,
       settings (store w) = SettingsStorage.getSettings (disk w) →
       SettingsStorage.updateSettings true partial (disk w)
       = (Some (settings (store (updateSettings partial true w))),
          disk (updateSettings partial true w))).
Proof.
  split; [|split; [|split; [|split; [|split]]]].
  - intros partial. cbv zeta.
    unfold restartSettings, loadSettings, updateSettings. simpl.
    by rewrite spread_toJson.
  - done.
  - done.
  - done.
  - induction 1 as [d|w w' _ IH Hstep]; [done|].
    destruct Hstep; done.
  - intros partial E.
    unfold SettingsStorage.updateSettings, updateSettings. simpl.
    by rewrite E.
Qed.

End settings.

(** ** Reset all data *)

Section reset.

(** X23: after "reset all data", with both writes going through, the app
    is as on a first launch, now and after a restart: no events, a count of
    zero for today, the default settings, setup not complete, and nothing
    to undo. *)
Theorem performReset_fresh `{Host} (app : DataActions.App) :
  let app' := DataActions.performReset true true app in
  (∀ w, w = DataActions.slips app' ∨ w = restart (DataActions.slips app') →
     SlipStore.events (SlipStore.store w) = []
     ∧ (∀ now, Selectors.useTodayCount now (SlipStore.store w) = 0)
     ∧ (∀ now saveOk, (SlipStore.undoLastSlip now saveOk w).1 = false))
  ∧ (∀ p, p = DataActions.prefs app'
          ∨ p = restartSettings (DataActions.prefs app') →
     SettingsStore.settings (SettingsStore.store p)
     = Settings.DEFAULT_SETTINGS
     ∧ SettingsStore.isSetupComplete (SettingsStore.store p) = false).
Proof.
  cbv zeta. split.
  - intros w [->| ->]; (split; [done|]); (split; [done|]); done.
  - intros p [->| ->]; done.
Qed.

End reset.

(** ** The history sections *)

Section sorting.
Context {A : Type}.
Import History.

Lemma insertBy_Permutation (compareFn : A → A → Z) (x : A) (l : list A) :
  insertBy compareFn x l ≡ₚ x :: l.
Proof.
  induction l as [|y l IH]; simpl; [done|].
  destruct (compareFn x y <=? 0); [done|].
  rewrite IH. apply Permutation_swap.
Qed.

Lemma sort_Permutation (compareFn : A → A → Z) (l : list A) :
  sort compareFn l ≡ₚ l.
Proof.
  induction l as [|x l IH]; simpl; [done|].
  fold (sort compareFn l). by rewrite insertBy_Permutation, IH.
Qed.

Lemma elem_of_sort (compareFn : A → A → Z) (l : list A) (x : A) :
  x ∈ sort compareFn l ↔ x ∈ l.
Proof. by rewrite sort_Permutation. Qed.

(** When the comparator orders the elements of the list as a key does,
    larger key first, the sorted list has its keys in descending order. *)
Lemma insertBy_sorted (compareFn : A → A → Z) (key : A → Z) (x : A)
    (l : list A) :
  (∀ y, y ∈ l → compareFn x y ≤ 0 ↔ key y ≤ key x) →
  StronglySorted (λ a b, key b ≤ key a) l →
  StronglySorted (λ a b, key b ≤ key a) (insertBy compareFn x l).
Proof.
  intros Hcmp Hs. induction Hs as [|y l Hs IH Hall]; simpl.
  { by repeat constructor. }
  destruct (Z.leb_spec (compareFn x y) 0) as [Hle|Hgt].
  - apply Hcmp in Hle; [|left].
    constructor; [by constructor|].
    constructor; [done|].
    eapply Forall_impl; [exact Hall|]. simpl. intros z Hz. lia.
  - assert (Hxy : key x ≤ key y).
    { destruct (Z.le_gt_cases (key y) (key x)) as [Hyx|]; [|lia].
      apply Hcmp in Hyx; [lia|left]. }
    constructor.
    + apply IH. intros z Hz. apply Hcmp. by right.
    + apply Forall_forall. intros z Hz.
      rewrite insertBy_Permutation in Hz.
      apply elem_of_cons in Hz as [->|Hz]; [done|].
      by apply (proj1 (Forall_forall _ _) Hall).
Qed.

Lemma sort_sorted (compareFn : A → A → Z) (key : A → Z) (l : list A) :
  (∀ x y, x ∈ l → y ∈ l → compareFn x y ≤ 0 ↔ key y ≤ key x) →
  StronglySorted (λ a b, key b ≤ key a) (sort compareFn l).
Proof.
  induction l as [|x l IH]; intros Hcmp; simpl; [constructor|].
  fold (sort compareFn l). apply insertBy_sorted.
  - intros y Hy%elem_of_sort. apply Hcmp; [left|by right].
  - apply IH. intros a b Ha Hb. apply Hcmp; by right.
Qed.

(** The sort is stable: elements that the comparator does not tell apart
    keep their order. *)
Lemma filter_insertBy (compareFn : A → A → Z) (P : A → Prop)
    `{∀ x, Decision (P x)} (x : A) (l : list A) :
  (∀ y, y ∈ l → P x → P y → compareFn x y ≤ 0) →
  filter P (insertBy compareFn x l) = filter P (x :: l).
Proof.
  induction l as [|y l IH]; intros Hcmp; simpl; [done|].
  destruct (Z.leb_spec (compareFn x y) 0) as [Hle|Hgt]; [done|].
  rewrite filter_cons, IH by (intros z Hz; apply Hcmp; by right).
  rewrite !filter_cons.
  destruct (decide (P y)) as [Hy|]; [|done].
  destruct (decide (P x)) as [Hx|]; [|done].
  specialize (Hcmp y ltac:(left) Hx Hy). lia.
Qed.

Lemma filter_sort (compareFn : A → A → Z) (P : A → Prop)
    `{∀ x, Decision (P x)} (l : list A) :
  (∀ x y, x ∈ l → y ∈ l → P x → P y → compareFn x y ≤ 0) →
  filter P (sort compareFn l) = filter P l.
Proof.
  induction l as [|x l IH]; intros Hcmp; simpl; [done|].
  fold (sort compareFn l). rewrite filter_insertBy.
  - rewrite !filter_cons, IH; [done|].
    intros a b Ha Hb. apply Hcmp; by right.
  - intros y Hy%elem_of_sort. apply Hcmp; [left|by right].
Qed.

End sorting.

Section grouping.
Context `{Host}.
Import History.

Lemma pushAt_keys key e (m : list (string * list SlipEvent)) :
  (pushAt key e m).*1 = m.*1.
Proof.
  unfold pushAt. rewrite <- list_fmap_compose. apply list_fmap_ext.
  intros i [k g] _. simpl. by destruct (String.eqb k key).
Qed.

Lemma elem_of_pushAt key e (m : list (string * list SlipEvent)) k' g' :
  (k', g') ∈ pushAt key e m
  ↔ ∃ g, (k', g) ∈ m ∧ g' = if decide (k' = key) then g ++ [e] else g.
Proof.
  unfold pushAt. rewrite list_elem_of_fmap. split.
  - intros ([k g] & Heq & Hin). simpl in Heq.
    destruct (String.eqb_spec k key) as [->|Hne]; injection Heq as -> ->.
    + exists g. by rewrite decide_True.
    + exists g. by rewrite decide_False.
  - intros (g & Hin & ->). exists (k', g). split; [|done]. simpl.
    destruct (String.eqb_spec k' key) as [->|Hne].
    + by rewrite decide_True.
    + by rewrite decide_False.
Qed.

Lemma groupByDate_snoc evs e :
  groupByDate (evs ++ [e])
  = let dateKey := DateUtils.getDateFromTimestamp (timestamp e) in
    pushAt dateKey e
      (if negb (has dateKey (groupByDate evs))
       then setNew dateKey [] (groupByDate evs) else groupByDate evs).
Proof. unfold groupByDate. by rewrite fold_left_app. Qed.

Lemma groupByDate_spec evs :
  NoDup (groupByDate evs).*1
  ∧ ∀ k g, (k, g) ∈ groupByDate evs
           ↔ g = filter (λ e, DateUtils.getDateFromTimestamp (timestamp e) = k)
                   evs
             ∧ g ≠ [].
Proof.
  induction evs as [|e evs [IHnd IH]] using rev_ind.
  { split; [constructor|]. intros k g. split; [by intros ?%elem_of_nil|].
    by intros [-> ?]. }
  rewrite groupByDate_snoc. cbv zeta.
  set (key := DateUtils.getDateFromTimestamp (timestamp e)).
  set (m := groupByDate evs) in *.
  assert (Hf : ∀ k, filter (λ e, DateUtils.getDateFromTimestamp (timestamp e) = k)
                      (evs ++ [e])
                    = filter (λ e, DateUtils.getDateFromTimestamp (timestamp e) = k)
                        evs ++ (if decide (key = k) then [e] else [])).
  { intros k. rewrite filter_app, filter_cons, filter_nil. done. }
  unfold has, setNew.
  destruct (decide (key ∈ m.*1)) as [Hin|Hout].
  - rewrite bool_decide_true by done. simpl. rewrite pushAt_keys.
    split; [done|]. intros k g. rewrite elem_of_pushAt, Hf. split.
    + intros (g0 & [-> Hne]%IH & ->).
      destruct (decide (k = key)) as [->|Hk].
      * rewrite decide_True by done. split; [done|].
        by intros [_ ?]%app_eq_nil.
      * rewrite decide_False by done. by rewrite app_nil_r.
    + intros [-> Hne].
      destruct (decide (k = key)) as [->|Hk].
      * rewrite decide_True by done.
        apply list_elem_of_fmap in Hin as ([k0 g0] & -> & Hin0). simpl.
        exists g0. split; [done|]. apply IH in Hin0 as [-> _]. done.
      * rewrite decide_False in * by done. rewrite app_nil_r in *.
        eexists. split; [|done]. by apply IH.
  - rewrite bool_decide_false by done. simpl.
    assert (Hnone : filter (λ e, DateUtils.getDateFromTimestamp (timestamp e)
                            = key) evs = []).
    { destruct (filter _ evs) as [|x l] eqn:E; [done|]. exfalso. apply Hout.
      apply list_elem_of_fmap. exists (key, x :: l). split; [done|].
      apply IH. by rewrite E. }
    rewrite pushAt_keys, fmap_app. simpl. split.
    { apply NoDup_app. split; [done|]. split; [|apply NoDup_singleton].
      intros x Hx ->%list_elem_of_singleton. done. }
    intros k g. rewrite elem_of_pushAt, Hf. split.
    + intros (g0 & [Hin0|Hnew%list_elem_of_singleton]%elem_of_app & ->).
      * assert (k ≠ key).
        { intros ->. apply Hout. apply list_elem_of_fmap. by exists (key, g0). }
        rewrite !decide_False by done. rewrite app_nil_r. by apply IH.
      * injection Hnew as -> ->. rewrite !decide_True by done.
        by rewrite Hnone.
    + intros [-> Hne].
      destruct (decide (k = key)) as [->|Hk].
      * rewrite decide_True by done. exists []. split.
        -- apply elem_of_app. right. left.
        -- by rewrite Hnone.
      * rewrite decide_False in * by done. rewrite app_nil_r in *.
        eexists. split; [|done]. apply elem_of_app. left. by apply IH.
Qed.

End grouping.
Section history.
Context `{Host} `{Collation}.
Import ES History.

Lemma elem_of_buildSections now events sec :
  sec ∈ buildSections now events
  ↔ filter (λ e, DateUtils.getDateFromTimestamp (timestamp e) = date sec)
      events ≠ []
    ∧ title sec = DateUtils.formatDateForDisplay now (date sec)
    ∧ data sec
      = sort newestFirst
          (filter (λ e, DateUtils.getDateFromTimestamp (timestamp e)
                        = date sec) events).
Proof.
  unfold buildSections. cbv zeta. rewrite elem_of_sort, list_elem_of_fmap.
  destruct (groupByDate_spec events) as [_ Hg]. split.
  - intros ([k g] & -> & [-> Hne]%Hg). done.
  - intros (Hne & Ht & Hd). eexists (date sec, _). split; [|by apply Hg].
    destruct sec as [t d l]. simpl in *. by rewrite Ht, Hd.
Qed.

Lemma buildSections_dates now events :
  date <$> buildSections now events ≡ₚ (groupByDate events).*1.
Proof.
  unfold buildSections. cbv zeta. rewrite sort_Permutation.
  rewrite <- list_fmap_compose.
  erewrite list_fmap_ext; [done|]. by intros i [k g] _.
Qed.

(** X24: the history screen files every event of the store under its
    local date, once. No two sections have the same date, no section is
    empty, a section holds exactly the events of the store with its date
    (in some order) under the title that [formatDateForDisplay] gives the
    date, every event of the store is in the section of its date, and the
    screen is reported empty exactly when there is no section. *)
Theorem history_sections_partition now (s : SlipStore.State) :
  let h := useHistoryData now s in
  NoDup (date <$> sections h)
  ∧ (∀ sec, sec ∈ sections h →
       data sec ≠ []
       ∧ title sec = DateUtils.formatDateForDisplay now (date sec)
       ∧ data sec
         ≡ₚ filter (λ e, DateUtils.getDateFromTimestamp (timestamp e)
                         = date sec) (SlipStore.events s))
  ∧ (∀ e, e ∈ SlipStore.events s →
       ∃ sec, sec ∈ sections h
              ∧ date sec = DateUtils.getDateFromTimestamp (timestamp e)
              ∧ e ∈ data sec)
  ∧ (isEmpty h = true ↔ sections h = []).
Proof.
  cbv zeta. unfold useHistoryData, Selectors.useAllEvents. simpl.
  set (events := SlipStore.events s).
  assert (Hall : ∀ e, e ∈ events →
    ∃ sec, sec ∈ buildSections now events
           ∧ date sec = DateUtils.getDateFromTimestamp (timestamp e)
           ∧ e ∈ data sec).
  { intros e He.
    exists {| title := DateUtils.formatDateForDisplay now
                         (DateUtils.getDateFromTimestamp (timestamp e));
              date := DateUtils.getDateFromTimestamp (timestamp e);
              data := sort newestFirst
                (filter (λ e', DateUtils.getDateFromTimestamp (timestamp e')
                               = DateUtils.getDateFromTimestamp (timestamp e))
                   events) |}.
    assert (Hin : e ∈ filter
              (λ e', DateUtils.getDateFromTimestamp (timestamp e')
                     = DateUtils.getDateFromTimestamp (timestamp e)) events)
      by by apply list_elem_of_filter.
    split; [|split; [done|by apply elem_of_sort]].
    apply elem_of_buildSections. simpl. split; [|done].
    intros E. rewrite E in Hin. by apply elem_of_nil in Hin. }
  split; [|split; [|split]].
  - rewrite buildSections_dates. apply groupByDate_spec.
  - intros sec (Hne & Ht & Hd)%elem_of_buildSections.
    split; [|split; [done|]].
    + rewrite Hd. intros E. apply Hne.
      apply Permutation_nil_r. rewrite <- E. by rewrite sort_Permutation.
    + rewrite Hd. apply sort_Permutation.
  - done.
  - rewrite bool_decide_eq_true. split.
    + intros ->%nil_length_inv. done.
    + intros E. destruct events as [|e evs]; [done|].
      destruct (Hall e ltac:(left)) as (sec & Hsec & _).
      rewrite E in Hsec. by apply elem_of_nil in Hsec.
Qed.

(** X25: the history lists the newest first. Inside a section the events
    are in descending order of their instants, and events of the same
    instant keep the order they have in the store. If the host's collation
    orders the date keys of the stored events as their days, the sections
    are in descending order of the day: every event of a section is on a
    later local day than every event of the sections below it. *)
Theorem history_newest_first now (s : SlipStore.State) :
  let h := useHistoryData now s in
  (∀ sec, sec ∈ sections h →
     StronglySorted (λ a b, timestamp b ≤ timestamp a) (data sec)
     ∧ ∀ t, filter (λ e, timestamp e = t) (data sec)
            = filter (λ e, timestamp e = t)
                (filter (λ e, DateUtils.getDateFromTimestamp (timestamp e)
                              = date sec) (SlipStore.events s)))
  ∧ ((∀ e1 e2, e1 ∈ SlipStore.events s → e2 ∈ SlipStore.events s →
        localeCompare (DateUtils.getDateFromTimestamp (timestamp e1))
                      (DateUtils.getDateFromTimestamp (timestamp e2)) ≤ 0
        ↔ localDay e1 ≤ localDay e2) →
     StronglySorted
       (λ a b, ∀ ea eb, ea ∈ data a → eb ∈ data b →
                        localDay eb < localDay ea)
       (sections h)).
Proof.
  cbv zeta. unfold useHistoryData, Selectors.useAllEvents. simpl.
  set (events := SlipStore.events s). split.
  - intros sec (_ & _ & ->)%elem_of_buildSections. split.
    + apply (sort_sorted newestFirst timestamp).
      intros x y _ _. unfold newestFirst. lia.
    + intros t. apply filter_sort.
      intros x y _ _ Hx Hy. unfold newestFirst. lia.
  - intros Hcoll.
    pose proof (buildSections_dates now events) as Hdates.
    assert (Hnd : NoDup (date <$> buildSections now events)).
    { rewrite Hdates. apply groupByDate_spec. }
    assert (Hsec : ∀ sec, sec ∈ buildSections now events →
      data sec ≠ []
      ∧ ∀ e, e ∈ data sec →
          e ∈ events
          ∧ DateUtils.getDateFromTimestamp (timestamp e) = date sec).
    { intros sec (Hne & _ & Hd)%elem_of_buildSections. split.
      - rewrite Hd. intros E. apply Hne.
        apply Permutation_nil_r. rewrite <- E. by rewrite sort_Permutation.
      - intros e. rewrite Hd, elem_of_sort, list_elem_of_filter. tauto. }
    set (key := λ sec : HistorySection,
           match data sec with e :: _ => localDay e | [] => 0 end).
    assert (Hkey : ∀ sec e, sec ∈ buildSections now events → e ∈ data sec →
                            localDay e = key sec).
    { intros sec e Hin He. destruct (Hsec sec Hin) as [Hne Hev].
      unfold key. destruct (data sec) as [|e0 l] eqn:E; [done|].
      destruct (Hev e He) as [_ H1]. destruct (Hev e0 ltac:(left)) as [_ H2].
      unfold localDay.
      apply (eventDate_key e (LocalTime (timestamp e0))).
      unfold DateUtils.getDateFromTimestamp, JS.newDate in *. congruence. }
    assert (Hsorted : StronglySorted (λ a b, key b ≤ key a)
                        (buildSections now events)).
    { unfold buildSections. cbv zeta. apply sort_sorted.
      intros a b Ha Hb.
      assert (Ha' : a ∈ buildSections now events)
        by (unfold buildSections; cbv zeta; by apply elem_of_sort).
      assert (Hb' : b ∈ buildSections now events)
        by (unfold buildSections; cbv zeta; by apply elem_of_sort).
      destruct (Hsec a Ha') as [Hna Hea]. destruct (Hsec b Hb') as [Hnb Heb].
      destruct (data a) as [|ea la] eqn:Ea; [done|].
      destruct (data b) as [|eb lb] eqn:Eb; [done|].
      destruct (Hea ea ltac:(left)) as [Hina <-].
      destruct (Heb eb ltac:(left)) as [Hinb <-].
      rewrite (Hcoll eb ea Hinb Hina).
      rewrite (Hkey a ea Ha') by (rewrite Ea; left).
      rewrite (Hkey b eb Hb') by (rewrite Eb; left). done. }
    clear Hdates.
    induction Hsorted as [|a l Hs IH Hall]; [constructor|].
    rewrite fmap_cons in Hnd. apply NoDup_cons in Hnd as [Hnew Hnd].
    constructor.
    + apply IH; [done|..].
      * intros sec Hin. apply Hsec. by right.
      * intros sec e Hin. apply Hkey. by right.
    + apply Forall_forall. intros b Hb ea eb Hea Heb.
      pose proof (proj1 (Forall_forall _ _) Hall b Hb) as Hle. simpl in Hle.
      rewrite (Hkey a ea) by (left || done).
      rewrite (Hkey b eb) by (by right || done).
      destruct (decide (key a = key b)) as [E|]; [exfalso|lia].
      apply Hnew. apply list_elem_of_fmap. exists b. split; [|done].
      destruct (Hsec a ltac:(left)) as [_ Ha1].
      destruct (Hsec b ltac:(by right)) as [_ Hb1].
      destruct (Ha1 ea Hea) as [_ <-]. destruct (Hb1 eb Heb) as [_ <-].
      apply (eventDate_key ea (LocalTime (timestamp eb))).
      rewrite <- (Hkey a ea) in E by (left || done).
      rewrite <- (Hkey b eb) in E by (by right || done).
      done.
Qed.

End history.
Section history_examples.
Import ES History.

Lemma history_newest_first_witness :
  let s := {| SlipStore.events := threeDayEvents; SlipStore.isLoading := false;
              SlipStore.lastSlipId := None; SlipStore.lastSlipTime := None |} in
  let h := useHistoryData (H := utcHost) (H0 := codeUnitCollation)
             noon_2025_01_16 s in
  date <$> sections h = ["2025-01-16"; "2025-01-15"; "2025-01-14"]
  ∧ title <$> sections h = ["Today"; "Yesterday"; "2025-01-14"]
  ∧ (λ sec, id <$> data sec) <$> sections h
    = [["m5z0k1ff6"]; ["m5xt1cee5"; "m5xq7bdd4"; "m5xk3acc3"];
       ["m5w9x2bb2"; "m5w4r0aa1"]]
  ∧ StronglySorted
      (λ a b, ∀ ea eb, ea ∈ data a → eb ∈ data b →
                       localDay (H := utcHost) eb < localDay (H := utcHost) ea)
      (sections h).
Proof.
  split; [by vm_compute|]. split; [by vm_compute|]. split; [by vm_compute|].
  apply (history_newest_first (H := utcHost) (H0 := codeUnitCollation)
           noon_2025_01_16
           {| SlipStore.events := threeDayEvents; SlipStore.isLoading := false;
              SlipStore.lastSlipId := None;
              SlipStore.lastSlipTime := None |}).
  assert (Hall : Forall (λ e1, Forall (λ e2,
      localeCompare (Collation := codeUnitCollation)
        (DateUtils.getDateFromTimestamp (H := utcHost) (timestamp e1))
        (DateUtils.getDateFromTimestamp (H := utcHost) (timestamp e2)) ≤ 0
      ↔ localDay (H := utcHost) e1 ≤ localDay (H := utcHost) e2)
      threeDayEvents) threeDayEvents).
  { repeat (apply Forall_cons; split;
      [repeat (apply Forall_cons; split; [vm_compute; tauto|]);
       by apply Forall_nil|]).
    by apply Forall_nil. }
  intros e1 e2 H1 H2.
  exact (proj1 (Forall_forall _ _)
           (proj1 (Forall_forall _ _) Hall e1 H1) e2 H2).
Defined.

End history_examples.

(** ** The status card *)

Section today_card.
Context `{Host}.
Import ES SlipStore.

(** X26: the status card after one more slip. Logging a slip now raises
    the count of the card by one and lowers the slips remaining by one,
    down to zero; the card stays on track exactly when it showed a slip
    remaining before, and the line with the remaining slips is on the card
    exactly when the count is below the limit. *)
Theorem useToday_after_addSlip now newId saveOk timeOk (w : World)
    (prefs : SettingsStore.State) :
  let st := Today.useToday now (store w) prefs in
  let st' :=
    Today.useToday now (store (addSlip now newId saveOk timeOk w)) prefs in
  Today.count st' = Today.count st + 1
  ∧ Today.limit st' = Today.limit st
  ∧ Today.remaining st' = Z.max 0 (Today.remaining st - 1)
  ∧ (Today.isUnderLimit st' = true ↔ 0 < Today.remaining st)
  ∧ (Today.badge st' = "On track" ↔ 0 < Today.remaining st)
  ∧ (is_Some (Today.remainingLine st) ↔ Today.count st < Today.limit st)
  ∧ (Today.remaining st = 0 ↔ Today.limit st ≤ Today.count st).
Proof.
  cbv zeta. unfold Today.useToday, Today.badge, Today.remainingLine. simpl.
  rewrite !useTodayCount_local, store_addSlip. simpl.
  rewrite slipsOnLocalDay_app.
  replace (slipsOnLocalDay
             [{| id := newId; timestamp := now; source := manual |}]
             (localToday now)) with 1.
  2:{ unfold slipsOnLocalDay. rewrite filter_cons. simpl.
      by rewrite decide_True. }
  set (c := slipsOnLocalDay (events (store w)) (localToday now)).
  set (limit := SettingsStore.useDailyLimit prefs).
  split; [done|]. split; [done|]. split; [lia|].
  split; [rewrite Z.leb_le; lia|]. split; [|split; [|lia]].
  - destruct (Z.leb_spec (c + 1) limit); split; (done || lia).
  - destruct (Z.leb_spec c limit), (Z.ltb_spec 0 (Z.max 0 (limit - c)));
      simpl; split; try (by intros [? ?]); try lia; by eexists.
Qed.

(** X27: the keys of the days before today. [getDaysAgoDateString(k)] is
    the key of the local day [k] days before today, whatever month or year
    that falls in; distinct numbers of days give distinct keys, zero days
    ago is today's key and [getYesterdayDateString] is the key of one day
    ago. *)
Theorem getDaysAgoDateString_calendar now k :
  DateUtils.getDaysAgoDateString now k = dayKey (localToday now - k)
  ∧ (∀ j, DateUtils.getDaysAgoDateString now j
          = DateUtils.getDaysAgoDateString now k → j = k)
  ∧ DateUtils.getDaysAgoDateString now 0 = DateUtils.getTodayDateString now
  ∧ DateQueries.getYesterdayDateString now
    = DateUtils.getDaysAgoDateString now 1.
Proof.
  split; [apply getDaysAgoDateString_dayKey|]. split; [|split].
  - intros j. rewrite !getDaysAgoDateString_dayKey. intros E%dayKey_inj. lia.
  - rewrite getDaysAgoDateString_dayKey, Z.sub_0_r.
    unfold DateUtils.getTodayDateString, JS.newDate.
    by rewrite formatDateString_dayKey.
  - unfold DateQueries.getYesterdayDateString, DateUtils.getDaysAgoDateString.
    cbv zeta. reflexivity.
Qed.

End today_card.

(** ** The scan for the best streak *)

Section streak_scan.
Context `{Host}.
Import ES.

Lemma countSlipsPerDay_key events (t : Z) :
  default 0 (Streak.countSlipsPerDay events !! Streak.formatDate t)
  = slipsOnLocalDay events (Day t).
Proof.
  unfold Streak.countSlipsPerDay, slipsOnLocalDay.
  change (fold_left _ events ∅) with
    (fold_left (λ o x, Stats.increment
       (DateUtils.getDateFromTimestamp (timestamp x)) o) events ∅).
  rewrite fold_increment_default, lookup_empty. simpl.
  rewrite (list_filter_iff _
    (λ event, Day (LocalTime (timestamp event)) = Day t)); [done|].
  intros e. rewrite formatDate_eq. apply eventDate_key.
Qed.

Lemma scanLength_step (c e : Z) :
  c ≤ e → scanLength (c + 1 * msPerDay) e = scanLength c e - 1.
Proof.
  intros Hle. unfold scanLength.
  replace (e <? c) with false by (symmetry; apply Z.ltb_ge; lia).
  unfold msPerDay.
  destruct (Z.ltb_spec e (c + 1 * 86400000)); Z.div_mod_to_equations; lia.
Qed.

Lemma bestStreakLoop_spec fuel events limit (e c : Z) b t :
  scanLength c e + 1 ≤ Z.of_nat fuel →
  0 ≤ t ≤ b →
  ∃ r,
    Streak.bestStreakLoop fuel (Streak.countSlipsPerDay events) limit e c b t
    = Some r
    ∧ b ≤ r
    ∧ (∀ a z, Day c ≤ a → z ≤ Day c + scanLength c e - 1 →
         (∀ d, a ≤ d ≤ z → compliant events limit d) → z - a + 1 ≤ r)
    ∧ (∀ z, z ≤ Day c + scanLength c e - 1 →
         (∀ d, Day c ≤ d ≤ z → compliant events limit d) →
         t + (z - Day c + 1) ≤ r)
    ∧ (r = b
       ∨ (∃ z, Day c ≤ z ≤ Day c + scanLength c e - 1
               ∧ (∀ d, Day c ≤ d ≤ z → compliant events limit d)
               ∧ r = t + (z - Day c + 1))
       ∨ (∃ a z, Day c ≤ a ∧ a ≤ z ∧ z ≤ Day c + scanLength c e - 1
                 ∧ (∀ d, a ≤ d ≤ z → compliant events limit d)
                 ∧ r = z - a + 1)).
Proof.
  revert c b t. induction fuel as [|fuel IH]; intros c b t Hfuel Ht.
  { assert (0 ≤ scanLength c e); [|lia]. unfold scanLength, msPerDay.
    destruct (e <? c) eqn:E; [lia|]. apply Z.ltb_ge in E.
    Z.div_mod_to_equations. lia. }
  simpl. destruct (Z.leb_spec c e) as [Hle|Hgt].
  2:{ assert (Hn : scanLength c e = 0).
      { unfold scanLength. by replace (e <? c) with true
          by (symmetry; apply Z.ltb_lt; lia). }
      rewrite Hn. exists b. split; [done|]. split; [lia|].
      split; [intros a z Ha Hz _; lia|]. split; [intros z Hz _; lia|].
      by left. }
  rewrite countSlipsPerDay_key, setDate_shift.
  pose proof (scanLength_step c e Hle) as Hstep.
  assert (Hpos : 1 ≤ scanLength c e).
  { unfold scanLength, msPerDay.
    replace (e <? c) with false by (symmetry; apply Z.ltb_ge; lia).
    Z.div_mod_to_equations. lia. }
  pose proof (Day_shift c 1) as Hday.
  set (c' := c + 1 * msPerDay) in *.
  set (n := scanLength c e) in *. set (lo := Day c) in *.
  fold (compliant events limit lo).
  destruct (Z.leb_spec (slipsOnLocalDay events lo) limit) as [Hok|Hover].
  - destruct (IH c' (Z.max b (t + 1)) (t + 1)) as (r & Hr & Hb & Hup & Hcomb & Hatt);
      [lia..|].
    rewrite Hday, Hstep in Hup, Hcomb, Hatt.
    exists r. split; [done|]. split; [lia|]. split; [|split].
    + intros a z Ha Hz Hall.
      destruct (decide (a = lo)) as [->|Hne]; [|apply Hup; [lia..|done]].
      destruct (decide (z ≤ lo)) as [Hsmall|Hbig]; [lia|].
      specialize (Hcomb z ltac:(lia)
                    (λ d Hd, Hall d ltac:(lia))). lia.
    + intros z Hz Hall.
      destruct (decide (z ≤ lo)) as [Hsmall|Hbig]; [lia|].
      specialize (Hcomb z ltac:(lia)
                    (λ d Hd, Hall d ltac:(lia))). lia.
    + destruct Hatt as [->|[(z & Hz & Hall & ->)|(a & z & Ha & Haz & Hz & Hall & ->)]].
      * destruct (Z.max_spec b (t + 1)) as [[_ ->]|[_ ->]]; [|by left].
        right. left. exists lo. split; [lia|]. split; [|lia].
        intros d Hd. by replace d with lo by lia.
      * right. left. exists z. split; [lia|]. split; [|lia].
        intros d Hd. destruct (decide (d = lo)) as [->|]; [done|].
        apply Hall. lia.
      * right. right. exists a, z. split; [lia|]. split; [lia|].
        split; [lia|]. split; [done|lia].
  - destruct (IH c' b 0) as (r & Hr & Hb & Hup & Hcomb & Hatt); [lia..|].
    rewrite Hday, Hstep in Hup, Hcomb, Hatt.
    assert (Hbad : ¬ compliant events limit lo) by (unfold compliant; lia).
    exists r. split; [done|]. split; [lia|]. split; [|split].
    + intros a z Ha Hz Hall.
      destruct (decide (z < a)) as [|Hge]; [lia|].
      destruct (decide (a = lo)) as [->|Hne]; [|apply Hup; [lia..|done]].
      exfalso. apply Hbad, Hall. lia.
    + intros z Hz Hall.
      destruct (decide (z < lo)) as [|Hge]; [lia|].
      exfalso. apply Hbad, Hall. lia.
    + destruct Hatt as [->|[(z & Hz & Hall & ->)|(a & z & Ha & Haz & Hz & Hall & ->)]].
      * by left.
      * right. right. exists (lo + 1), z. split; [lia|]. split; [lia|].
        split; [lia|]. split; [done|]. lia.
      * right. right. exists a, z. split; [lia|]. split; [lia|].
        split; [lia|]. split; [done|lia].
Qed.

Lemma bestStreakLoop_longestRun fuel events limit (e c : Z) :
  scanLength c e + 1 ≤ Z.of_nat fuel →
  ∃ r,
    Streak.bestStreakLoop fuel (Streak.countSlipsPerDay events) limit e c 0 0
    = Some r
    ∧ longestRun (compliant events limit) (Day c)
        (Day c + scanLength c e - 1) r.
Proof.
  intros Hfuel.
  destruct (bestStreakLoop_spec fuel events limit e c 0 0 Hfuel ltac:(lia))
    as (r & Hr & Hb & Hup & _ & Hatt).
  exists r. split; [done|]. split; [done|]. split; [done|].
  intros Hpos.
  destruct Hatt as [->|[(z & Hz & Hall & ->)|(a & z & Ha & Haz & Hz & Hall & ->)]].
  - lia.
  - exists (Day c). split; [lia|]. split; [lia|].
    intros d Hd. apply Hall. lia.
  - exists a. split; [lia|]. split; [lia|]. intros d Hd. apply Hall. lia.
Qed.

End streak_scan.
Section streak_keys.
Context `{Host}.
Import ES.

Lemma key_compare_four_digits (t1 t2 : Z) :
  1000 ≤ YearFromDay (Day t1) ≤ 9999 → 1000 ≤ YearFromDay (Day t2) ≤ 9999 →
  String.compare (DateUtils.formatDateString t1)
                 (DateUtils.formatDateString t2)
  = (Day t1 ?= Day t2).
Proof.
  intros H1 H2.
  assert (Hlen : String.length (JS.toString (YearFromDay (Day t1)))
                 = String.length (JS.toString (YearFromDay (Day t2)))).
  { destruct (toString_four_digits _ H1) as (? & ? & ? & ? & -> & _).
    by destruct (toString_four_digits _ H2) as (? & ? & ? & ? & -> & _). }
  rewrite !formatDateString_eq, <-civil_compare.
  pose proof (MonthFromDay_range (Day t1)).
  pose proof (MonthFromDay_range (Day t2)).
  pose proof (DateFromDay_range (Day t1)).
  pose proof (DateFromDay_range (Day t2)).
  rewrite string_compare_app, toString_compare by (done || lia).
  destruct (YearFromDay (Day t1) ?= YearFromDay (Day t2)); [|done..].
  rewrite (string_compare_app "-" "-"), string_compare_refl by done.
  rewrite string_compare_app, twoDigits_compare by (done || lia).
  rewrite !(Z.add_comm _ 1), Z.add_compare_mono_l.
  destruct (MonthFromDay (Day t1) ?= MonthFromDay (Day t2)); [|done..].
  rewrite (string_compare_app "-" "-"), string_compare_refl by done.
  apply twoDigits_compare; lia.
Qed.

Lemma elem_of_sortedKeys events k :
  k ∈ Streak.sortedKeys (Streak.countSlipsPerDay events)
  ↔ ∃ e, e ∈ events ∧ DateUtils.getDateFromTimestamp (timestamp e) = k.
Proof.
  unfold Streak.sortedKeys. rewrite merge_sort_Permutation.
  rewrite list_elem_of_fmap. unfold Streak.countSlipsPerDay.
  change (fold_left _ events ∅) with
    (fold_left (λ o x, Stats.increment
       (DateUtils.getDateFromTimestamp (timestamp x)) o) events ∅).
  split.
  - intros ([k' c] & -> & Hin%elem_of_map_to_list). simpl.
    rewrite fold_increment_lookup, lookup_empty in Hin.
    destruct (filter _ events) as [|e hits] eqn:E; [done|].
    assert (He : e ∈ filter (λ x, DateUtils.getDateFromTimestamp (timestamp x)
                                  = k') events) by (rewrite E; left).
    apply list_elem_of_filter in He as [? ?]. eauto.
  - intros (e & He & Hk).
    assert (Hin : e ∈ filter (λ x, DateUtils.getDateFromTimestamp (timestamp x)
                                   = k) events)
      by by apply list_elem_of_filter.
    destruct (filter (λ x, DateUtils.getDateFromTimestamp (timestamp x) = k)
                events) as [|e' hits] eqn:E; [by apply elem_of_nil in Hin|].
    eexists (k, _). split; [done|]. apply elem_of_map_to_list.
    rewrite fold_increment_lookup, E. done.
Qed.

Lemma sortedKeys_first events :
  events ≠ [] →
  (∀ e, e ∈ events → 1000 ≤ YearFromDay (localDay e) ≤ 9999) →
  ∃ e0 rest,
    e0 ∈ events
    ∧ (∀ e, e ∈ events → localDay e0 ≤ localDay e)
    ∧ Streak.sortedKeys (Streak.countSlipsPerDay events)
      = DateUtils.getDateFromTimestamp (timestamp e0) :: rest.
Proof.
  intros Hne Hyears.
  pose proof (StronglySorted_merge_sort String.le
    (map_to_list (Streak.countSlipsPerDay events)).*1) as Hsorted.
  fold (Streak.sortedKeys (Streak.countSlipsPerDay events)) in Hsorted.
  pose proof (elem_of_sortedKeys events) as Hkeys.
  destruct (Streak.sortedKeys (Streak.countSlipsPerDay events))
    as [|firstDate rest].
  { destruct events as [|e evs]; [done|].
    exfalso. apply (elem_of_nil (DateUtils.getDateFromTimestamp (timestamp e))).
    apply Hkeys. exists e. split; [left|done]. }
  destruct (proj1 (Hkeys firstDate) ltac:(left)) as (e0 & He0 & <-).
  exists e0, rest. split; [done|]. split; [|done].
  intros e He.
  assert (Hin : DateUtils.getDateFromTimestamp (timestamp e)
                ∈ DateUtils.getDateFromTimestamp (timestamp e0) :: rest)
    by (apply Hkeys; eauto).
  apply elem_of_cons in Hin as [Heq|Hin].
  - unfold localDay. apply eventDate_key in Heq.
    unfold JS.newDate in Heq. lia.
  - apply StronglySorted_inv in Hsorted as [_ Hall].
    pose proof (proj1 (Forall_forall _ _) Hall _ Hin) as Hle.
    unfold String.le, String.leb, DateUtils.getDateFromTimestamp, JS.newDate
      in Hle.
    rewrite key_compare_four_digits in Hle by (by apply Hyears).
    unfold localDay.
    destruct (Z.compare_spec (Day (LocalTime (timestamp e0)))
                             (Day (LocalTime (timestamp e)))); (lia || done).
Qed.

Lemma useStreak_scan fuel now events limit e0 rest :
  (Streak.enoughFuel now events ≤ fuel)%nat →
  Streak.sortedKeys (Streak.countSlipsPerDay events)
  = DateUtils.getDateFromTimestamp (timestamp e0) :: rest →
  1000 ≤ YearFromDay (localDay e0) ≤ 9999 →
  1000 ≤ YearFromDay (localToday now) ≤ 9999 →
  let checkDate := LocalTime (localDay e0 * msPerDay) in
  let endDate := LocalTime (localToday now * msPerDay) in
  ∃ info r,
    Streak.useStreak fuel now events limit = Some info
    ∧ longestRun (compliant events limit) (Day checkDate)
        (Day checkDate + scanLength checkDate endDate - 1) r
    ∧ best info = Z.max r (current info).
Proof.
  intros Hfuel Hkeys Hy0 Hyt. cbv zeta.
  unfold Streak.enoughFuel in Hfuel. rewrite Hkeys in Hfuel.
  destruct (currentStreakLoop_spec fuel now events limit 0 0)
    as (c & Hrun & _); [lia..|].
  unfold Streak.useStreak. cbv zeta. rewrite Hrun, Hkeys. simpl.
  unfold DateUtils.getDateFromTimestamp, DateUtils.getTodayDateString,
    Streak.newDateOfKey, JS.newDate in *.
  destruct (parseDateKey_key (LocalTime (timestamp e0)) Hy0) as [_ Hp0].
  destruct (parseDateKey_key (LocalTime now) Hyt) as [_ Hpt].
  rewrite Hp0, Hpt in *. simpl in *.
  unfold MakeDate in *. rewrite !Z.add_0_r in *.
  fold (localDay e0) in *. fold (localToday now) in *.
  set (checkDate := LocalTime (localDay e0 * msPerDay)) in *.
  set (endDate := LocalTime (localToday now * msPerDay)) in *.
  destruct (bestStreakLoop_longestRun fuel events limit endDate checkDate)
    as (r & Hr & Hlong).
  { unfold scanLength. destruct (endDate <? checkDate) eqn:E; [lia|].
    apply Z.ltb_ge in E.
    assert (0 ≤ (endDate - checkDate) / msPerDay)
      by (apply Z.div_pos; [lia|done]).
    lia. }
  rewrite Hr. simpl. eexists _, r. split; [done|]. split; [done|]. done.
Qed.

End streak_keys.
Section best_streak.
Context `{Host}.
Import ES.

(** X28: the best streak is the longest run of days within the limit
    that the scan sees, or the current streak if that is longer. With
    events and today in years of four digits, the scan starts at the local
    date of midnight UTC of the earliest day with a slip, takes one day per
    turn up to the local date of midnight UTC of today, and [best] is the
    larger of the longest run of days within the limit among those and
    [current]. *)
Theorem useStreak_best_scan fuel now events limit :
  (Streak.enoughFuel now events ≤ fuel)%nat →
  events ≠ [] →
  (∀ e, e ∈ events → 1000 ≤ YearFromDay (localDay e) ≤ 9999) →
  1000 ≤ YearFromDay (localToday now) ≤ 9999 →
  ∃ info e0 r,
    Streak.useStreak fuel now events limit = Some info
    ∧ e0 ∈ events
    ∧ (∀ e, e ∈ events → localDay e0 ≤ localDay e)
    ∧ (let checkDate := LocalTime (localDay e0 * msPerDay) in
       let endDate := LocalTime (localToday now * msPerDay) in
       longestRun (compliant events limit) (Day checkDate)
         (Day checkDate + scanLength checkDate endDate - 1) r)
    ∧ best info = Z.max r (current info).
Proof.
  intros Hfuel Hne Hyears Htoday.
  destruct (sortedKeys_first events Hne Hyears) as (e0 & rest & He0 & Hmin & Hk).
  destruct (useStreak_scan fuel now events limit e0 rest Hfuel Hk
              (Hyears e0 He0) Htoday) as (info & r & Hs & Hlong & Hbest).
  by exists info, e0, r.
Qed.

(** X29: the window of the scan depends on the side of Greenwich. On a
    host whose local time is UTC plus a fixed offset, with the earliest day
    with a slip not after today: east of Greenwich and on it the scan
    covers the days from that earliest day to today; west of it the scan
    covers the day before the earliest day up to yesterday, and never looks
    at today. [best] is the longest run of days within the limit in that
    window, or [current] if that is longer. *)
Theorem useStreak_best_window fuel now events limit (offset : Z) :
  (∀ t, LocalTime t = t + offset) →
  (Streak.enoughFuel now events ≤ fuel)%nat →
  events ≠ [] →
  (∀ e, e ∈ events → 1000 ≤ YearFromDay (localDay e) ≤ 9999) →
  1000 ≤ YearFromDay (localToday now) ≤ 9999 →
  ∃ info e0 r,
    Streak.useStreak fuel now events limit = Some info
    ∧ e0 ∈ events
    ∧ (∀ e, e ∈ events → localDay e0 ≤ localDay e)
    ∧ best info = Z.max r (current info)
    ∧ (localDay e0 ≤ localToday now → 0 ≤ offset < msPerDay →
       longestRun (compliant events limit) (localDay e0) (localToday now) r)
    ∧ (localDay e0 ≤ localToday now → - msPerDay ≤ offset < 0 →
       longestRun (compliant events limit) (localDay e0 - 1)
         (localToday now - 1) r).
Proof.
  intros Hoff Hfuel Hne Hyears Htoday.
  destruct (sortedKeys_first events Hne Hyears) as (e0 & rest & He0 & Hmin & Hk).
  destruct (useStreak_scan fuel now events limit e0 rest Hfuel Hk
              (Hyears e0 He0) Htoday) as (info & r & Hs & Hlong & Hbest).
  exists info, e0, r. split; [done|]. split; [done|]. split; [done|].
  split; [done|].
  cbv zeta in Hlong. rewrite !Hoff in Hlong.
  set (d0 := localDay e0) in *. set (dt := localToday now) in *.
  assert (Hday : ∀ d, Day (d * msPerDay + offset) = d + offset / msPerDay).
  { intros d. unfold Day. rewrite Z.add_comm, Z.div_add by done. lia. }
  assert (Hlen : d0 ≤ dt →
    scanLength (d0 * msPerDay + offset) (dt * msPerDay + offset)
    = dt - d0 + 1).
  { intros Hle. unfold scanLength.
    replace (dt * msPerDay + offset <? d0 * msPerDay + offset) with false
      by (symmetry; apply Z.ltb_ge; unfold msPerDay; lia).
    replace (dt * msPerDay + offset - (d0 * msPerDay + offset))
      with ((dt - d0) * msPerDay) by lia.
    by rewrite Z.div_mul. }
  rewrite Hday in Hlong.
  split; intros Hle Hrange; rewrite (Hlen Hle) in Hlong.
  - replace (offset / msPerDay) with 0 in Hlong
      by (symmetry; apply Z.div_small; lia).
    by replace (d0 + 0 + (dt - d0 + 1) - 1) with dt in Hlong by lia;
       rewrite Z.add_0_r in Hlong.
  - replace (offset / msPerDay) with (-1) in Hlong
      by (unfold msPerDay in *; Z.div_mod_to_equations; lia).
    by replace (d0 + -1 + (dt - d0 + 1) - 1) with (dt - 1) in Hlong by lia.
Qed.

End best_streak.

Section best_streak_examples.
Import ES.

Lemma useStreak_best_scan_witness :
  ∃ info e0 r,
    Streak.useStreak (H := utcHost) 366 noon_2025_01_16 threeDayEvents 2
    = Some info
    ∧ e0 ∈ threeDayEvents
    ∧ (∀ e, e ∈ threeDayEvents →
         localDay (H := utcHost) e0 ≤ localDay (H := utcHost) e)
    ∧ (let checkDate := localDay (H := utcHost) e0 * msPerDay in
       let endDate := localToday (H := utcHost) noon_2025_01_16 * msPerDay in
       longestRun (compliant (H := utcHost) threeDayEvents 2) (Day checkDate)
         (Day checkDate + scanLength checkDate endDate - 1) r)
    ∧ best info = Z.max r (current info).
Proof.
  apply (useStreak_best_scan (H := utcHost) 366 noon_2025_01_16
           threeDayEvents 2).
  - by vm_compute.
  - discriminate.
  - apply Forall_forall.
    repeat (apply Forall_cons; split; [by vm_compute|]). by apply Forall_nil.
  - by vm_compute.
Defined.

Lemma useStreak_best_window_witness :
  Streak.useStreak (H := utcHost) 366 noon_2025_01_16 threeDayEvents 2
  = Some {| current := 1; best := 1 |}
  ∧ Streak.useStreak (H := westHost) 366 noon_2025_01_16 threeDayEvents 2
    = Some {| current := 1; best := 2 |}
  ∧ ∃ info e0 r,
      Streak.useStreak (H := westHost) 366 noon_2025_01_16 threeDayEvents 2
      = Some info
      ∧ e0 ∈ threeDayEvents
      ∧ (∀ e, e ∈ threeDayEvents →
           localDay (H := westHost) e0 ≤ localDay (H := westHost) e)
      ∧ best info = Z.max r (current info)
      ∧ (localDay (H := westHost) e0
         ≤ localToday (H := westHost) noon_2025_01_16 →
         0 ≤ -18000000 < msPerDay →
         longestRun (compliant (H := westHost) threeDayEvents 2)
           (localDay (H := westHost) e0)
           (localToday (H := westHost) noon_2025_01_16) r)
      ∧ (localDay (H := westHost) e0
         ≤ localToday (H := westHost) noon_2025_01_16 →
         - msPerDay ≤ -18000000 < 0 →
         longestRun (compliant (H := westHost) threeDayEvents 2)
           (localDay (H := westHost) e0 - 1)
           (localToday (H := westHost) noon_2025_01_16 - 1) r).
Proof.
  split; [by vm_compute|]. split; [by vm_compute|].
  apply (useStreak_best_window (H := westHost) 366 noon_2025_01_16
           threeDayEvents 2 (-18000000)).
  - intros t. reflexivity.
  - by vm_compute.
  - discriminate.
  - apply Forall_forall.
    repeat (apply Forall_cons; split; [by vm_compute|]). by apply Forall_nil.
  - by vm_compute.
Defined.

End best_streak_examples.

Section undo_press.
Import SlipStore.

(** X30: a press of the undo button makes it go away. Whatever
    [undoLastSlip] answers, the store after [handleUndo] is the one that
    [undoLastSlip] leaves, and no run of the timer at the same or a later
    clock reading shows the button again, until another slip is logged. *)
Theorem handleUndo_hides_button (now : Z) (saveOk : bool) (w : World)
    (l : UndoButton.Local) :
  let r := UndoButton.handleUndo now saveOk w l in
  r.1 = (undoLastSlip now saveOk w).2
  ∧ ∀ now', now ≤ now' →
      UndoButton.canUndo (UndoButton.tick now' (store r.1) r.2) = false.
Proof.
  cbv zeta. unfold UndoButton.handleUndo, UndoButton.tick,
    UndoButton.updateTimer, undoLastSlip.
  destruct (falsyId (lastSlipId (store w)) || falsyTime (lastSlipTime (store w)))
    eqn:Efalsy.
  { simpl. split; [done|]. intros now' _. by rewrite Efalsy. }
  destruct (lastSlipTime (store w)) as [t|] eqn:Et;
    [|by rewrite orb_true_r in Efalsy].
  change (default 0 (Some t)) with t.
  destruct (Z.ltb_spec UNDO_WINDOW_MS (now - t)) as [Hlate|Hin].
  - cbn [fst snd]. split; [done|]. intros now' Hnow'. rewrite Et, Efalsy.
    change (default 0 (Some t)) with t. cbv zeta.
    by replace (UNDO_WINDOW_MS - (now' - t) <=? 0) with true
      by (symmetry; apply Z.leb_le; lia).
  - simpl. split; [done|]. intros now' _. done.
Qed.

End undo_press.
